(** * The advisor core of soar: rule catalog, filters, scoring and rendering

    A shallow embedding of [advisor/rules.go].  Go strings are byte
    strings ([string]), Go's [int] is a 64-bit integer kept in [Z] with the
    wrap-around written out, a Go [map[string]Rule] is a [gmap string Rule],
    and every [range] statement over a map draws the order of the keys from
    an explicit iteration-order oracle. *)

From Stdlib Require Import ZArith String Ascii List.
From stdpp Require Import base tactics option list sorting strings gmap fin_maps pretty.

Local Open Scope string_scope.
Local Open Scope Z_scope.
Local Open Scope list_scope.

(** ** Go runtime and standard library *)

Module Go.

(** The characters the format strings are built from. *)
Definition nl : string := String (ascii_of_nat 10) EmptyString.
Definition tab : string := String (ascii_of_nat 9) EmptyString.
Definition dq : string := String (ascii_of_nat 34) EmptyString.

(** [int] on a 64-bit platform. *)
Definition minInt : Z := - 2 ^ 63.
Definition maxInt : Z := 2 ^ 63 - 1.
Definition wrap (z : Z) : Z := (z + 2 ^ 63) mod 2 ^ 64 - 2 ^ 63.
Definition sub (a b : Z) : Z := wrap (a - b).
Definition mul (a b : Z) : Z := wrap (a * b).

(** [strings.HasPrefix(s, prefix)]. *)
Definition HasPrefix (s prefix : string) : bool := String.prefix prefix s.

(** [strings.TrimLeft], [strings.TrimRight] and [strings.Trim] for a
    cutset of one ASCII character, the only way the advisor calls them
    (["L"] and ["*"]). *)
Fixpoint TrimLeft (s : string) (c : ascii) : string :=
  match s with
  | EmptyString => EmptyString
  | String a s' => if Ascii.eqb a c then TrimLeft s' c else s
  end.

Fixpoint TrimRight (s : string) (c : ascii) : string :=
  match s with
  | EmptyString => EmptyString
  | String a s' =>
      match TrimRight s' c with
      | EmptyString => if Ascii.eqb a c then EmptyString else String a EmptyString
      | t => String a t
      end
  end.

Definition Trim (s : string) (c : ascii) : string := TrimRight (TrimLeft s c) c.

(** [strings.Join]. *)
Definition Join (elems : list string) (sep : string) : string :=
  String.concat sep elems.

(** [fmt.Sprintln] of strings: operands separated by one space, newline
    appended. *)
Definition Sprintln (args : list string) : string := Join args " " +:+ nl.

(** [fmt.Sprint] of strings: no space is added between string operands. *)
Definition Sprint (args : list string) : string := Join args "".

(** [sort.Strings]: ascending byte-wise lexical order. *)
Definition SortStrings (l : list string) : list string := merge_sort String.le l.

(** *** [strconv.Atoi] *)

Inductive NumError := ErrSyntax | ErrRange.

Definition digit (c : ascii) : option Z :=
  let n := Z.of_N (N_of_ascii c) in
  if (48 <=? n) && (n <=? 57) then Some (n - 48) else None.

Definition maxUint64 : Z := 2 ^ 64 - 1.

(** The digit loop of [strconv.ParseUint(s, 10, 64)]: [n] is the value
    read so far.  The overflow tests come before the next character is
    looked at, as in the library. *)
Fixpoint ParseUintLoop (s : string) (n : Z) : Z * option NumError :=
  match s with
  | EmptyString => (n, None)
  | String c s' =>
      match digit c with
      | None => (0, Some ErrSyntax)
      | Some d =>
          if n >=? maxUint64 / 10 + 1 then (maxUint64, Some ErrRange)
          else
            let n1 := n * 10 + d in
            if n1 >? maxUint64 then (maxUint64, Some ErrRange)
            else ParseUintLoop s' n1
      end
  end.

Definition ParseUint (s : string) : Z * option NumError :=
  match s with
  | EmptyString => (0, Some ErrSyntax)
  | _ => ParseUintLoop s 0
  end.

(** [strconv.ParseInt(s, 10, 0)]. *)
Definition ParseInt (s : string) : Z * option NumError :=
  match s with
  | EmptyString => (0, Some ErrSyntax)
  | String c s' =>
      let neg := Ascii.eqb c "-" in
      let digits := if Ascii.eqb c "+" || neg then s' else s in
      match ParseUint digits with
      | (_, Some ErrSyntax) => (0, Some ErrSyntax)
      | (un, _) =>
          if negb neg && (un >=? 2 ^ 63) then (2 ^ 63 - 1, Some ErrRange)
          else if neg && (un >? 2 ^ 63) then (- 2 ^ 63, Some ErrRange)
          else (if neg then - un else un, None)
      end
  end.

(** [strconv.Atoi]: the value and the error.  The library's fast path for
    short strings returns what [ParseInt] returns on them. *)
Definition Atoi (s : string) : Z * option NumError := ParseInt s.

End Go.

(** ** The data model *)

(** A reference to a check: the method of [Query4Audit] a catalog entry
    names in its [Func] field.  A nil function value is [None]. *)
Inductive CheckRef := Method (name : string).

(** [type Rule struct]. *)
Record Rule := mkRule {
  Item : string;
  Severity : string;
  Summary : string;
  Content : string;
  Case : string;
  Position : Z;
  Func : option CheckRef
}.

(** The zero value of [Rule], which a lookup of an absent key returns. *)
Definition zeroRule : Rule :=
  {| Item := ""; Severity := ""; Summary := ""; Content := ""; Case := "";
     Position := 0; Func := None |}.

#[global] Instance Rule_inhabited : Inhabited Rule := populate zeroRule.

(** [suggest[item]] as an expression. *)
Definition get (suggest : gmap string Rule) (item : string) : Rule :=
  default zeroRule (suggest !! item).

(** The fields of [common.Config] that [rules.go] reads, and the package
    variable [common.BlackList]. *)
Record Config := mkConfig {
  IgnoreRules : list string;
  ReportType : string;
  ExplainSQLReportType : string;
  MaxTextColsCount : Z;
  MaxVarcharLength : Z;
  ColumnNotAllowType : list string;
  IdxPrefix : string;
  UkPrefix : string;
  AllowEngines : list string;
  AllowCharsets : list string;
  AllowCollates : list string;
  BlackList : list string
}.

(** [type JSONSuggest struct]. *)
Record JSONSuggest := mkJSONSuggest {
  ID : string;
  Fingerprint : string;
  Score : Z;
  Sample : string;
  Explain : list Rule;
  HeuristicRules : list Rule;
  IndexRules : list Rule;
  Tables : list string
}.

(** ** The rule catalog

    [InitHeuristicRules] assigns one map literal to the package variable
    [HeuristicRules]; the entries are listed in the order of the source,
    the texts that the source builds from the configuration are built from
    [cfg]. *)

Definition catalog (cfg : Config) : list (string * Rule) :=
  [
    ("OK",
     {| Item := "OK";
        Severity := "L0";
        Summary := "OK";
        Content := "OK";
        Case := "OK";
        Position := 0;
        Func := Some (Method "RuleOK") |});
    ("ALI.001",
     {| Item := "ALI.001";
        Severity := "L0";
        Summary := "It is recommended to use the AS keyword to explicitly declare an alias";
        Content := "In column or table aliases (such as " +:+ Go.dq +:+ "tbl AS alias" +:+ Go.dq +:+ "), explicit use of the AS keyword is easier to understand than implicit aliases (such as " +:+ Go.dq +:+ "tbl alias" +:+ Go.dq +:+ "). ";
        Case := "select name from tbl t1 where id <1000";
        Position := 0;
        Func := Some (Method "RuleImplicitAlias") |});
    ("ALI.002",
     {| Item := "ALI.002";
        Severity := "L8";
        Summary := "It is not recommended to set an alias for the column wildcard character'*'";
        Content := "Example: " +:+ Go.dq +:+ "SELECT tbl.* col1, col2" +:+ Go.dq +:+ " The above SQL sets aliases for the column wildcards. Such SQL may have logic errors. You might be looking for col1, but instead of it, the last column of tbl is renamed. ";
        Case := "select tbl.* as c1,c2,c3 from tbl where id <1000";
        Position := 0;
        Func := Some (Method "RuleStarAlias") |});
    ("ALI.003",
     {| Item := "ALI.003";
        Severity := "L1";
        Summary := "The alias should not be the same as the name of the table or column";
        Content := "The alias of the table or column is the same as its real name. Such an alias will make the query more difficult to distinguish. ";
        Case := "select name from tbl as tbl where id <1000";
        Position := 0;
        Func := Some (Method "RuleSameAlias") |});
    ("ALT.001",
     {| Item := "ALT.001";
        Severity := "L4";
        Summary := "Modifying the default character set of the table will not change the character set of each field of the table";
        Content := "Many beginners will mistake ALTER TABLE tbl_name [DEFAULT] CHARACTER SET'UTF8' to modify the character set of all fields, but in fact it will only affect the subsequent newly added fields and will not change the characters of the existing fields in the table set. If you want to modify the character set of all fields in the entire table, it is recommended to use ALTER TABLE tbl_name CONVERT TO CHARACTER SET charset_name;";
        Case := "ALTER TABLE tbl_name CONVERT TO CHARACTER SET charset_name;";
        Position := 0;
        Func := Some (Method "RuleAlterCharset") |});
    ("ALT.002",
     {| Item := "ALT.002";
        Severity := "L2";
        Summary := "Multiple ALTER request suggestions for the same table are combined into one";
        Content := "Each table structure change will have an impact on online services, even if it is possible to adjust through online tools, please try to reduce the number of operations by merging ALTER requests. ";
        Case := "ALTER TABLE tbl ADD COLUMN col int, ADD INDEX idx_col (`col`);";
        Position := 0;
        Func := Some (Method "RuleOK") |});
    ("ALT.003",
     {| Item := "ALT.003";
        Severity := "L0";
        Summary := "Delete is listed as a high-risk operation. Please check whether the business logic is still dependent before the operation.";
        Content := "If the business logic dependency is not completely eliminated, after the column is deleted, the data may not be written or the deleted column data cannot be queried, which may cause the program to be abnormal. In this case, even if the backup data is rolled back, the data requested by the user will be lost. ";
        Case := "ALTER TABLE tbl DROP COLUMN col;";
        Position := 0;
        Func := Some (Method "RuleAlterDropColumn") |});
    ("ALT.004",
     {| Item := "ALT.004";
        Severity := "L0";
        Summary := "Deleting primary keys and foreign keys is a high-risk operation, please confirm the impact with DBA before operation";
        Content := "Primary key and foreign key are two important constraints in relational databases. Deleting existing constraints will break the existing business logic. Before operating, please confirm the impact with the DBA and think twice. ";
        Case := "ALTER TABLE tbl DROP PRIMARY KEY;";
        Position := 0;
        Func := Some (Method "RuleAlterDropKey") |});
    ("ARG.001",
     {| Item := "ARG.001";
        Severity := "L4";
        Summary := "It is not recommended to use the preceding wildcard search";
        Content := "For example, " +:+ Go.dq +:+ "%foo" +:+ Go.dq +:+ ", if the query parameter has a wildcard in the preceding term, the existing index cannot be used. ";
        Case := "select c1,c2,c3 from tbl where name like'%foo'";
        Position := 0;
        Func := Some (Method "RulePrefixLike") |});
    ("ARG.002",
     {| Item := "ARG.002";
        Severity := "L1";
        Summary := "LIKE query without wildcards";
        Content := "LIKE query that does not contain wildcards may have a logic error, because it is logically the same as an equivalent query. ";
        Case := "select c1,c2,c3 from tbl where name like'foo'";
        Position := 0;
        Func := Some (Method "RuleEqualLike") |});
    ("ARG.003",
     {| Item := "ARG.003";
        Severity := "L4";
        Summary := "The parameter comparison contains implicit conversion, and the index cannot be used";
        Content := "Implicit type conversion has the risk of not hitting the index. In the case of high concurrency and large data volume, the consequences of not hitting the index are very serious.";
        Case := "SELECT * FROM sakila.film WHERE length >= '60';";
        Position := 0;
        Func := Some (Method "RuleOK") |});
    ("ARG.004",
     {| Item := "ARG.004";
        Severity := "L4";
        Summary := "IN (NULL)/NOT IN (NULL) is never true";
        Content := "The correct way is col IN ('val1','val2','val3') OR col IS NULL";
        Case := "SELECT * FROM tb WHERE col IN (NULL);";
        Position := 0;
        Func := Some (Method "RuleIn") |});
    ("ARG.005",
     {| Item := "ARG.005";
        Severity := "L1";
        Summary := "IN should be used with caution, too many elements will cause a full table scan";
        Content := "Such as: select id from t where num in(1,2,3) For continuous values, don't use IN if you can use BETWEEN: select id from t where num between 1 and 3. And when the IN value is too much, MySQL may also enter a full table scan, causing a sharp drop in performance. ";
        Case := "select id from t where num in(1,2,3)";
        Position := 0;
        Func := Some (Method "RuleIn") |});
    ("ARG.006",
     {| Item := "ARG.006";
        Severity := "L1";
        Summary := "Try to avoid the NULL value judgment of the field in the WHERE clause";
        Content := "Using IS NULL or IS NOT NULL may cause the engine to give up using the index and perform a full table scan, such as: select id from t where num is null; you can set a default value of 0 on num to ensure that the num column in the table is not NULL Value, and then query like this: select id from t where num=0;";
        Case := "select id from t where num is null";
        Position := 0;
        Func := Some (Method "RuleIsNullIsNotNull") |});
    ("ARG.007",
     {| Item := "ARG.007";
        Severity := "L3";
        Summary := "Avoid using pattern matching";
        Content := "Performance is the biggest disadvantage of using pattern matching operators. Another problem with using LIKE or regular expressions for pattern matching is that it may return unexpected results. The best solution is to use a special search engine technology to replace SQL, such as Apache Lucene. Another alternative is to save the results to reduce repeated search overhead. If you must use SQL, please consider using third-party extensions like FULLTEXT indexes in MySQL. But more broadly, you don't necessarily have to use SQL to solve all problems. ";
        Case := "select c_id,c2,c3 from tbl where c2 like'test%'";
        Position := 0;
        Func := Some (Method "RulePatternMatchingUsage") |});
    ("ARG.008",
     {| Item := "ARG.008";
        Severity := "L1";
        Summary := "Please try to use IN predicate when OR query index column";
        Content := "IN-list predicate can be used for index search, and the optimizer can sort the IN-list to match the sorting sequence of the index, so as to obtain a more effective search. Please note that the IN-list must only contain constants, or keep constant values ​​during the execution of the query block, such as external references. ";
        Case := "SELECT c1,c2,c3 FROM tbl WHERE c1 = 14 OR c1 = 17";
        Position := 0;
        Func := Some (Method "RuleORUsage") |});
    ("ARG.009",
     {| Item := "ARG.009";
        Severity := "L1";
        Summary := "The string in quotation marks contains spaces at the beginning or end";
        Content := "If there are spaces before and after the VARCHAR column, it may cause logic problems. For example, in MySQL 5.5,'a' and'a' may be considered the same value in the query. ";
        Case := "SELECT'abc'";
        Position := 0;
        Func := Some (Method "RuleSpaceWithQuote") |});
    ("ARG.010",
     {| Item := "ARG.010";
        Severity := "L1";
        Summary := "Do not use hints, such as: sql_no_cache, force index, ignore key, straight join, etc.";
        Content := "hint is used to force SQL to execute according to a certain execution plan, but as the amount of data changes, we cannot guarantee that our original prediction is correct. ";
        Case := "SELECT * FROM t1 USE INDEX (i1) ORDER BY a;";
        Position := 0;
        Func := Some (Method "RuleHint") |});
    ("ARG.011",
     {| Item := "ARG.011";
        Severity := "L3";
        Summary := "Don't use negative query, such as: NOT IN/NOT LIKE";
        Content := "Please try not to use negative queries, which will cause a full table scan and have a greater impact on query performance. ";
        Case := "select id from t where num not in(1,2,3);";
        Position := 0;
        Func := Some (Method "RuleNot") |});
    ("ARG.012",
     {| Item := "ARG.012";
        Severity := "L2";
        Summary := "Too much data for one-time INSERT/REPLACE";
        Content := "A single INSERT/REPLACE statement has poor performance for inserting large amounts of data in batches, and may even cause synchronization delays from the database. In order to improve performance and reduce the impact of batch write data on the synchronization delay of the slave database, it is recommended to insert in batches. .";
        Case := "INSERT INTO tb (a) VALUES (1), (2)";
        Position := 0;
        Func := Some (Method "RuleInsertValues") |});
    ("ARG.013",
     {| Item := "ARG.013";
        Severity := "L0";
        Summary := "Chinese full-width quotation marks are used in DDL statements";
        Content := "Chinese full-width quotation marks " +:+ Go.dq +:+ Go.dq +:+ " or ‘’ are used in the DDL statement. This may be a writing error. Please confirm whether it meets expectations.";
        Case := "CREATE TABLE tb (a varchar(10) default'“”'";
        Position := 0;
        Func := Some (Method "RuleFullWidthQuote") |});
    ("ARG.014",
     {| Item := "ARG.014";
        Severity := "L4";
        Summary := "There are column names in the IN condition, which may lead to the expansion of the data matching range";
        Content := "Such as: delete from t where id in(1, 2, id) may cause the entire table data to be deleted by mistake. Please carefully check the correctness of the IN conditions. ";
        Case := "select id from t where id in(1, 2, id)";
        Position := 0;
        Func := Some (Method "RuleIn") |});
    ("CLA.001",
     {| Item := "CLA.001";
        Severity := "L4";
        Summary := "The outermost SELECT does not specify the WHERE condition";
        Content := "The SELECT statement has no WHERE clause, and may check more rows than expected (full table scan). If precision is not required for SELECT COUNT(*) type requests, it is recommended to use SHOW TABLE STATUS or EXPLAIN instead. ";
        Case := "select id from tbl";
        Position := 0;
        Func := Some (Method "RuleNoWhere") |});
    ("CLA.002",
     {| Item := "CLA.002";
        Severity := "L3";
        Summary := "ORDER BY RAND() is not recommended";
        Content := "ORDER BY RAND() is a very inefficient method of retrieving random rows from the result set, because it sorts the entire result and discards most of its data. ";
        Case := "select name from tbl where id <1000 order by rand(number)";
        Position := 0;
        Func := Some (Method "RuleOrderByRand") |});
    ("CLA.003",
     {| Item := "CLA.003";
        Severity := "L2";
        Summary := "It is not recommended to use LIMIT query with OFFSET";
        Content := "The complexity of using LIMIT and OFFSET to page the result set is O(n^2), and it will cause performance problems as the data increases. Using " +:+ Go.dq +:+ "bookmark" +:+ Go.dq +:+ " scanning method to achieve higher efficiency of paging. ";
        Case := "select c1,c2 from tbl where name=xx order by number limit 1 offset 20";
        Position := 0;
        Func := Some (Method "RuleOffsetLimit") |});
    ("CLA.004",
     {| Item := "CLA.004";
        Severity := "L2";
        Summary := "It is not recommended to group by constants";
        Content := "GROUP BY 1 means group by the first column. If you use numbers in the GROUP BY clause instead of expressions or column names, it may cause problems when the order of the query columns is changed. ";
        Case := "select col1,col2 from tbl group by 1";
        Position := 0;
        Func := Some (Method "RuleGroupByConst") |});
    ("CLA.005",
     {| Item := "CLA.005";
        Severity := "L2";
        Summary := "ORDER BY constant column has no meaning";
        Content := "There may be an error in SQL logic; at most it is just a useless operation and will not change the query result. ";
        Case := "select id from test where id=1 order by id";
        Position := 0;
        Func := Some (Method "RuleOrderByConst") |});
    ("CLA.006",
     {| Item := "CLA.006";
        Severity := "L4";
        Summary := "Group BY or ORDER BY in different tables";
        Content := "This will force the use of temporary tables and filesort, which may cause huge performance hazards, and may consume a lot of memory and temporary space on the disk. ";
        Case := "select tb1.col, tb2.col from tb1, tb2 where id=1 group by tb1.col, tb2.col";
        Position := 0;
        Func := Some (Method "RuleDiffGroupByOrderBy") |});
    ("CLA.007",
     {| Item := "CLA.007";
        Severity := "L2";
        Summary := "ORDER BY statement cannot use indexes for multiple different conditions and sorts in different directions";
        Content := "All expressions in the ORDER BY clause must be sorted in a uniform ASC or DESC direction in order to take advantage of the index. ";
        Case := "select c1,c2,c3 from t1 where c1='foo' order by c2 desc, c3 asc";
        Position := 0;
        Func := Some (Method "RuleMixOrderBy") |});
    ("CLA.008",
     {| Item := "CLA.008";
        Severity := "L2";
        Summary := "Please add ORDER BY condition for GROUP BY display";
        Content := "By default, MySQL will sort'GROUP BY col1, col2, ...' requests in the following order:'ORDER BY col1, col2, ...'. If the GROUP BY statement does not specify the ORDER BY condition, it will cause unnecessary sorting. If sorting is not required, it is recommended to add'ORDER BY NULL'. ";
        Case := "select c1,c2,c3 from t1 where c1='foo' group by c2";
        Position := 0;
        Func := Some (Method "RuleExplicitOrderBy") |});
    ("CLA.009",
     {| Item := "CLA.009";
        Severity := "L2";
        Summary := "The condition of ORDER BY is an expression";
        Content := "When the ORDER BY condition is an expression or a function, a temporary table will be used. If the WHERE or WHERE condition is not specified, the performance will be poor if the result set returned is large. ";
        Case := "select description from film where title ='ACADEMY DINOSAUR' order by length-language_id;";
        Position := 0;
        Func := Some (Method "RuleOrderByExpr") |});
    ("CLA.010",
     {| Item := "CLA.010";
        Severity := "L2";
        Summary := "The condition of GROUP BY is an expression";
        Content := "When the GROUP BY condition is an expression or a function, a temporary table will be used. If the WHERE or WHERE condition is not specified and the result set returned is large, the performance will be poor. ";
        Case := "select description from film where title ='ACADEMY DINOSAUR' GROUP BY length-language_id;";
        Position := 0;
        Func := Some (Method "RuleGroupByExpr") |});
    ("CLA.011",
     {| Item := "CLA.011";
        Severity := "L1";
        Summary := "It is recommended to add a comment to the table";
        Content := "Adding comments to the table can make the meaning of the table more clear, which will bring great convenience to future maintenance. ";
        Case := "CREATE TABLE `test1` (`ID` bigint(20) NOT NULL AUTO_INCREMENT,`c1` varchar(128) DEFAULT NULL,PRIMARY KEY (`ID`)) ENGINE=InnoDB DEFAULT CHARSET=utf8";
        Position := 0;
        Func := Some (Method "RuleTblCommentCheck") |});
    ("CLA.012",
     {| Item := "CLA.012";
        Severity := "L2";
        Summary := "Decompose complex bound-footed queries into several simple queries";
        Content := "SQL is a very expressive language, you can accomplish many things in a single SQL query or a single statement. But this does not mean that you must use only one line of code, or that it is a good idea to use one line of code to get every task. A common consequence of obtaining all results with one query is to get a Cartesian product. This happens when there are no conditions between the two tables in the query to restrict their relationship. There is no corresponding restriction and directly use two tables for join query, you will get a combination of each row in the first table and each row in the second table. Each such combination will become a row in the result set, and eventually you will get a result set with a large number of rows. It is important to consider that these queries are difficult to write, difficult to modify, and difficult to debug. The increasing number of database query requests should be expected. Managers want more complex reports and add more fields to the user interface. If your design is complex and a single query, it will be time-consuming and laborious to expand them. For you or the project, time spent on these things is not worth it. Break the complex spaghetti query into a few simple queries. When you split a complex SQL query, the result may be many similar queries, which may differ only in data types. Writing all these queries is very tedious, so it is best to have a program that automatically generates these codes. SQL code generation is a good application. Although SQL supports solving complex problems with one line of code, don't do unrealistic things. ";
        Case := "This is a very long and very long SQL, the case is omitted.";
        Position := 0;
        Func := Some (Method "RuleSpaghettiQueryAlert") |});
    ("CLA.013",
     {| Item := "CLA.013";
        Severity := "L3";
        Summary := "The HAVING clause is not recommended";
        Content := "Rewrite the HAVING clause of the query as the query condition in the WHERE, and the index can be used during query processing. ";
        Case := "SELECT s.c_id,count(s.c_id) FROM s where c = test GROUP BY s.c_id HAVING s.c_id <> '1660' AND s.c_id <> '2' order by s.c_id";
        Position := 0;
        Func := Some (Method "RuleHavingClause") |});
    ("CLA.014",
     {| Item := "CLA.014";
        Severity := "L2";
        Summary := "It is recommended to use TRUNCATE instead of DELETE when deleting the entire table";
        Content := "It is recommended to use TRUNCATE instead of DELETE when deleting the entire table";
        Case := "delete from tbl";
        Position := 0;
        Func := Some (Method "RuleNoWhere") |});
    ("CLA.015",
     {| Item := "CLA.015";
        Severity := "L4";
        Summary := "UPDATE does not specify the WHERE condition";
        Content := "UPDATE does not specify the WHERE condition is generally fatal, please think twice";
        Case := "update tbl set col=1";
        Position := 0;
        Func := Some (Method "RuleNoWhere") |});
    ("CLA.016",
     {| Item := "CLA.016";
        Severity := "L2";
        Summary := "Don't UPDATE the primary key";
        Content := "The primary key is the unique identifier of the record in the data table. It is not recommended to update the primary key column frequently. This will affect the metadata statistics and affect the normal query. ";
        Case := "update tbl set col=1";
        Position := 0;
        Func := Some (Method "RuleOK") |});
    ("COL.001",
     {| Item := "COL.001";
        Severity := "L1";
        Summary := "It is not recommended to use SELECT * type query";
        Content := "When the table structure changes, using the * wildcard to select all columns will cause the meaning and behavior of the query to change, which may cause the query to return more data. ";
        Case := "select * from tbl where id=1";
        Position := 0;
        Func := Some (Method "RuleSelectStar") |});
    ("COL.002",
     {| Item := "COL.002";
        Severity := "L2";
        Summary := "INSERT/REPLACE does not specify the column name";
        Content := "When the table structure changes, if the INSERT or REPLACE request does not explicitly specify the column name, the result of the request will be different from what you expected; it is recommended to use " +:+ Go.dq +:+ "INSERT INTO tbl(col1, col2)VALUES ..." +:+ Go.dq +:+ " instead. ";
        Case := "insert into tbl values(1,'name')";
        Position := 0;
        Func := Some (Method "RuleInsertColDef") |});
    ("COL.003",
     {| Item := "COL.003";
        Severity := "L2";
        Summary := "It is recommended to modify the auto-increment ID to an unsigned type";
        Content := "It is recommended to modify the auto-increment ID to an unsigned type";
        Case := "create table test(`id` int(11) NOT NULL AUTO_INCREMENT)";
        Position := 0;
        Func := Some (Method "RuleAutoIncUnsigned") |});
    ("COL.004",
     {| Item := "COL.004";
        Severity := "L1";
        Summary := "Please add a default value for the column";
        Content := "Please add a default value for the column, if it is an ALTER operation, please don't forget to write the default value of the original field. The field has no default value, and the table structure cannot be changed online when the table is large. ";
        Case := "CREATE TABLE tbl (col int) ENGINE=InnoDB;";
        Position := 0;
        Func := Some (Method "RuleAddDefaultValue") |});
    ("COL.005",
     {| Item := "COL.005";
        Severity := "L1";
        Summary := "The column is not commented";
        Content := "It is recommended to add a comment to each column in the table to clarify the meaning and function of each column in the table. ";
        Case := "CREATE TABLE tbl (col int) ENGINE=InnoDB;";
        Position := 0;
        Func := Some (Method "RuleColCommentCheck") |});
    ("COL.006",
     {| Item := "COL.006";
        Severity := "L3";
        Summary := "The table contains too many columns";
        Content := "The table contains too many columns";
        Case := "CREATE TABLE tbl (cols ....);";
        Position := 0;
        Func := Some (Method "RuleTooManyFields") |});
    ("COL.007",
     {| Item := "COL.007";
        Severity := "L3";
        Summary := "The table contains too many text/blob columns";
        Content := "The table contains more than " +:+ pretty (MaxTextColsCount cfg) +:+ " text/blob columns";
        Case := "CREATE TABLE tbl (cols ....);";
        Position := 0;
        Func := Some (Method "RuleTooManyFields") |});
    ("COL.008",
     {| Item := "COL.008";
        Severity := "L1";
        Summary := "You can use VARCHAR instead of CHAR, VARBINARY instead of BINARY";
        Content := "The storage space is small for the first variable length field, which can save storage space. Secondly, for queries, the search efficiency in a relatively small field is obviously higher. ";
        Case := "create table t1(id int,name char(20),last_time date)";
        Position := 0;
        Func := Some (Method "RuleVarcharVSChar") |});
    ("COL.009",
     {| Item := "COL.009";
        Severity := "L2";
        Summary := "It is recommended to use precise data types";
        Content := "Actually, any design that uses FLOAT, REAL or DOUBLE PRECISION data types may be an anti-pattern. The value range of floating point numbers used by most applications does not need to reach the maximum/minimum range defined by the IEEE 754 standard. When calculating the total, the accumulated impact of inexact floating-point numbers is serious. Use the NUMERIC or DECIMAL type in SQL to replace FLOAT and similar data types for fixed-precision decimal storage. These data types store data exactly according to the precision you specified when you defined this column. Do not use floating-point numbers as much as possible. ";
        Case := "CREATE TABLE tab2 (p_id BIGINT UNSIGNED NOT NULL,a_id BIGINT UNSIGNED NOT NULL,hours float not null,PRIMARY KEY (p_id, a_id))";
        Position := 0;
        Func := Some (Method "RuleImpreciseDataType") |});
    ("COL.010",
     {| Item := "COL.010";
        Severity := "L2";
        Summary := "It is not recommended to use ENUM/BIT/SET data type";
        Content := "ENUM defines the type of value in the column. When using a string to represent the value in ENUM, the data actually stored in the column is the ordinal number of these values ​​at the time of definition. Therefore, the data in this column is byte-aligned. When you perform a sorting query, the results are sorted according to the actual stored ordinal value, not the alphabetical order of the string value. This may not be what you want. There is no syntax for adding or deleting a value from an ENUM or check constraint; you can only redefine this column with a new set. If you plan to discard an option, you may be annoyed by historical data. As a strategy, changing metadata—that is, changing the definition of tables and columns—should be uncommon, and pay attention to testing and quality assurance. There is a better solution to constrain the optional values ​​in a column: create a check table, each row contains a candidate value that is allowed in the column; then declare a foreign key constraint on the old table that references the new table. ";
        Case := "create table tab1(status ENUM('new','in progress','fixed'))";
        Position := 0;
        Func := Some (Method "RuleValuesInDefinition") |});
    ("COL.011",
     {| Item := "COL.011";
        Severity := "L0";
        Summary := "NULL is used when a unique constraint is required, and NOT NULL is used only when the column cannot have missing values";
        Content := "NULL and 0 are different, 10 multiplied by NULL or NULL. NULL is not the same as an empty string. The result of combining a string with NULL in standard SQL is still NULL. NULL and FALSE are also different. If NULL is involved in the three Boolean operations of AND, OR, and NOT, many people are confused by the result. When you declare a column as NOT NULL, it means that every value in the column must exist and be meaningful. Use NULL to represent a null value that does not exist in any type. When you declare a column as NOT NULL, it means that every value in the column must exist and be meaningful. ";
        Case := "select c1,c2,c3 from tbl where c4 is null or c4 <> 1";
        Position := 0;
        Func := Some (Method "RuleNullUsage") |});
    ("COL.012",
     {| Item := "COL.012";
        Severity := "L5";
        Summary := "TEXT, BLOB and JSON type fields are not recommended to be set to NOT NULL";
        Content := "TEXT, BLOB, and JSON type fields cannot specify non-NULL default values. If the NOT NULL restriction is added, writing data without specifying a value for the field may cause writing failure. ";
        Case := "CREATE TABLE `tb`(`c` longblob NOT NULL);";
        Position := 0;
        Func := Some (Method "RuleBLOBNotNull") |});
    ("COL.013",
     {| Item := "COL.013";
        Severity := "L4";
        Summary := "TIMESTAMP type default value check exception";
        Content := "TIMESTAMP type recommends setting the default value, and it is not recommended to use 0 or 0000-00-00 00:00:00 as the default value. Consider using 1970-08-02 01:01:01";
        Case := "CREATE TABLE tbl( `id` bigint not null, `create_time` timestamp);";
        Position := 0;
        Func := Some (Method "RuleTimestampDefault") |});
    ("COL.014",
     {| Item := "COL.014";
        Severity := "L5";
        Summary := "A character set is specified for the column";
        Content := "It is recommended that the column and the table use the same character set, do not specify the character set of the column separately. ";
        Case := "CREATE TABLE `tb2` (`id` int(11) DEFAULT NULL, `col` char(10) CHARACTER SET utf8 DEFAULT NULL)";
        Position := 0;
        Func := Some (Method "RuleColumnWithCharset") |});
    ("COL.015",
     {| Item := "COL.015";
        Severity := "L4";
        Summary := "TEXT, BLOB and JSON type fields cannot be specified with non-NULL default values";
        Content := "TEXT, BLOB and JSON type fields in the MySQL database cannot be specified with non-NULL default values. The maximum length of TEXT is 2^16-1 characters, the maximum length of MEDIUMTEXT is 2^32-1 characters, and the maximum length of LONGTEXT is 2^64-1 characters. ";
        Case := "CREATE TABLE `tbl` (`c` blob DEFAULT NULL);";
        Position := 0;
        Func := Some (Method "RuleBlobDefaultValue") |});
    ("COL.016",
     {| Item := "COL.016";
        Severity := "L1";
        Summary := "Integer definition is recommended to use INT(10) or BIGINT(20)";
        Content := "INT(M) In the integer data type, M represents the maximum display width. In INT(M), the value of M has nothing to do with how much storage space INT(M) occupies. INT(3), INT(4), INT(8) all occupy 4 bytes of storage space on the disk. In higher versions of MySQL, it is no longer recommended to set the integer display width. ";
        Case := "CREATE TABLE tab (a INT(1));";
        Position := 0;
        Func := Some (Method "RuleIntPrecision") |});
    ("COL.017",
     {| Item := "COL.017";
        Severity := "L2";
        Summary := "VARCHAR definition length is too long";
        Content := "varchar is a variable-length string, storage space is not allocated in advance, and the length should not exceed " +:+ pretty (MaxVarcharLength cfg) +:+ ". If the storage length is too long, MySQL will define the field type as text, and create a separate table with the primary key to correspond , To avoid affecting the index efficiency of other fields.";
        Case := "CREATE TABLE tab (a varchar(3500));";
        Position := 0;
        Func := Some (Method "RuleVarcharLength") |});
    ("COL.018",
     {| Item := "COL.018";
        Severity := "L9";
        Summary := "A field type that is not recommended is used in the table building statement";
        Content := "The following field types are not recommended:" +:+ Go.Join (ColumnNotAllowType cfg) ", ";
        Case := "CREATE TABLE tab (a BOOLEAN);";
        Position := 0;
        Func := Some (Method "RuleColumnNotAllowType") |});
    ("COL.019",
     {| Item := "COL.019";
        Severity := "L1";
        Summary := "It is not recommended to use time data types with accuracy below the second level";
        Content := "The storage space consumption brought by the use of high-precision time data types is relatively large; MySQL can only support time data types accurate to microseconds above 5.6.4, and version compatibility issues need to be considered when using it.";
        Case := "CREATE TABLE t1 (t TIME(3), dt DATETIME(6));";
        Position := 0;
        Func := Some (Method "RuleTimePrecision") |});
    ("DIS.001",
     {| Item := "DIS.001";
        Severity := "L1";
        Summary := "Eliminate unnecessary DISTINCT conditions";
        Content := "Too many DISTINCT conditions are a symptom of complex footwear queries. Consider breaking down complex queries into many simple queries and reducing the number of DISTINCT conditions. If the primary key column is part of the result set of the column, the DISTINCT condition may have no effect. ";
        Case := "SELECT DISTINCT c.c_id,count(DISTINCT c.c_name),count(DISTINCT c.c_e),count(DISTINCT c.c_n),count(DISTINCT c.c_me),c.c_d FROM (select distinct id, name from B) as e WHERE e.country_id = c.country_id";
        Position := 0;
        Func := Some (Method "RuleDistinctUsage") |});
    ("DIS.002",
     {| Item := "DIS.002";
        Severity := "L3";
        Summary := "COUNT(DISTINCT) when there are multiple columns, the result may be different from what you expected";
        Content := "COUNT(DISTINCT col) Calculate the number of unique rows in this column except NULL. Note that COUNT(DISTINCT col, col2) If one of the columns is all NULL, then even if the other column has a different value, it will return 0. ";
        Case := "SELECT COUNT(DISTINCT col, col2) FROM tbl;";
        Position := 0;
        Func := Some (Method "RuleCountDistinctMultiCol") |});
    ("DIS.003",
     {| Item := "DIS.003";
        Severity := "L3";
        Summary := "DISTINCT * has no meaning for tables with primary keys";
        Content := "When the table already has a primary key, the output result of DISTINCT for all columns is the same as the result of no DISTINCT operation, please don't superfluous. ";
        Case := "SELECT DISTINCT * FROM film;";
        Position := 0;
        Func := Some (Method "RuleDistinctStar") |});
    ("FUN.001",
     {| Item := "FUN.001";
        Severity := "L2";
        Summary := "Avoid using functions or other operators in WHERE conditions";
        Content := "Although the use of functions in SQL can simplify many complex queries, queries that use functions cannot use the indexes that have been established in the table. The query will be a full table scan and the performance will be poor. It is usually recommended to write the column name on the left side of the comparison operator, and put the query filter condition on the right side of the comparison operator. It is also not recommended to write extra parentheses on both sides of the query and comparison conditions, which will cause greater confusion in reading. ";
        Case := "select id from t where substring(name,1,3)='abc'";
        Position := 0;
        Func := Some (Method "RuleCompareWithFunction") |});
    ("FUN.002",
     {| Item := "FUN.002";
        Severity := "L1";
        Summary := "When WHERE condition or non-MyISAM engine is specified, COUNT(*) operation performance is not good";
        Content := "The function of COUNT(*) is to count the number of table rows, and the function of COUNT(COL) is to count the number of non-NULL rows in the specified column. MyISAM table is specially optimized for COUNT(*) to count the number of rows in the whole table, which is usually very fast. But for non-MyISAM tables or certain WHERE conditions are specified, the COUNT(*) operation needs to scan a large number of rows to obtain accurate results, and the performance is therefore not good. Sometimes certain business scenarios do not require a completely accurate COUNT value, and an approximate value can be used instead. The number of rows estimated by the optimizer from EXPLAIN is a good approximation. Executing EXPLAIN does not need to actually execute the query, so the cost is very low. ";
        Case := "SELECT c3, COUNT(*) AS accounts FROM tab where c2 <10000 GROUP BY c3 ORDER BY num";
        Position := 0;
        Func := Some (Method "RuleCountStar") |});
    ("FUN.003",
     {| Item := "FUN.003";
        Severity := "L3";
        Summary := "Used string concatenation merged into nullable columns";
        Content := "In some query requests, you need to force a column or expression to return a non-NULL value, so that the query logic becomes simpler, but you don't want to save this value. You can use the COALESCE() function to construct a concatenated expression, so that even a null column does not make the entire expression NULL. ";
        Case := "select c1 || coalesce(' '|| c2 ||'', '') || c3 as c from tbl";
        Position := 0;
        Func := Some (Method "RuleStringConcatenation") |});
    ("FUN.004",
     {| Item := "FUN.004";
        Severity := "L4";
        Summary := "It is not recommended to use the SYSDATE() function";
        Content := "SYSDATE() function may cause inconsistent master and slave data, please use NOW() function instead of SYSDATE(). ";
        Case := "SELECT SYSDATE();";
        Position := 0;
        Func := Some (Method "RuleSysdate") |});
    ("FUN.005",
     {| Item := "FUN.005";
        Severity := "L1";
        Summary := "It is not recommended to use COUNT(col) or COUNT(constant)";
        Content := "Don't use COUNT(col) or COUNT(constant) instead of COUNT(*), COUNT(*) is the standard method of counting the number of rows defined by SQL92. It has nothing to do with data, and has nothing to do with NULL and non-NULL. ";
        Case := "SELECT COUNT(1) FROM tbl;";
        Position := 0;
        Func := Some (Method "RuleCountConst") |});
    ("FUN.006",
     {| Item := "FUN.006";
        Severity := "L1";
        Summary := "Pay attention to NPE issues when using SUM(COL)";
        Content := "When the values ​​of a certain column are all NULL, the return result of COUNT(COL) is 0, but the return result of SUM(COL) is NULL, so you need to pay attention to the NPE problem when using SUM(). The following methods can be used to avoid the NPE problem of SUM: SELECT IF(ISNULL(SUM(COL)), 0, SUM(COL)) FROM tbl";
        Case := "SELECT SUM(COL) FROM tbl;";
        Position := 0;
        Func := Some (Method "RuleSumNPE") |});
    ("FUN.007",
     {| Item := "FUN.007";
        Severity := "L1";
        Summary := "The use of triggers is not recommended";
        Content := "There is no feedback and log for the execution of the trigger, which hides the actual execution steps. When there is a problem with the database, the specific execution of the trigger cannot be analyzed through the slow log, and the problem is not easy to find. In MySQL, triggers cannot be temporarily closed or opened. In scenarios such as data migration or data recovery, you need to drop triggers temporarily, which may affect the production environment. ";
        Case := "CREATE TRIGGER t1 AFTER INSERT ON work FOR EACH ROW INSERT INTO time VALUES(NOW());";
        Position := 0;
        Func := Some (Method "RuleForbiddenTrigger") |});
    ("FUN.008",
     {| Item := "FUN.008";
        Severity := "L1";
        Summary := "It is not recommended to use stored procedures";
        Content := "The stored procedure has no version control, and it is difficult to achieve business unawareness with the upgrade of the stored procedure in conjunction with the business. Storage procedures also have problems in expansion and transplantation. ";
        Case := "CREATE PROCEDURE simpleproc (OUT param1 INT);";
        Position := 0;
        Func := Some (Method "RuleForbiddenProcedure") |});
    ("FUN.009",
     {| Item := "FUN.009";
        Severity := "L1";
        Summary := "It is not recommended to use custom functions";
        Content := "It is not recommended to use custom functions";
        Case := "CREATE FUNCTION hello (s CHAR(20));";
        Position := 0;
        Func := Some (Method "RuleForbiddenFunction") |});
    ("GRP.001",
     {| Item := "GRP.001";
        Severity := "L2";
        Summary := "It is not recommended to use GROUP BY for equivalent query columns";
        Content := "The columns in GROUP BY used the equivalent query in the previous WHERE condition, so it doesn't make much sense to perform GROUP BY on such columns. ";
        Case := "select film_id, title from film where release_year='2006' group by release_year";
        Position := 0;
        Func := Some (Method "RuleOK") |});
    ("JOI.001",
     {| Item := "JOI.001";
        Severity := "L2";
        Summary := "JOIN statement mixes comma and ANSI mode";
        Content := "Mixed comma and ANSI JOIN when joining tables are not easy for humans to understand, and different versions of MySQL have different table join behaviors and priorities. Errors may be introduced when the MySQL version changes. ";
        Case := "select c1,c2,c3 from t1,t2 join t3 on t1.c1=t2.c1,t1.c3=t3,c1 where id>1000";
        Position := 0;
        Func := Some (Method "RuleCommaAnsiJoin") |});
    ("JOI.002",
     {| Item := "JOI.002";
        Severity := "L4";
        Summary := "The same table is connected twice";
        Content := "The same table appears at least twice in the FROM clause, which can be simplified to a single access to the table. ";
        Case := "select tb1.col from (tb1, tb2) join tb2 on tb1.id=tb.id where tb1.id=1";
        Position := 0;
        Func := Some (Method "RuleDupJoin") |});
    ("JOI.003",
     {| Item := "JOI.003";
        Severity := "L4";
        Summary := "OUTER JOIN is invalid";
        Content := "Due to the wrong WHERE condition, no data is returned from the external table of OUTER JOIN, which will implicitly convert the query to INNER JOIN. Such as: select c from L left join R using(c) where L.a=5 and R.b=10. This kind of SQL logic may have errors or programmers may misunderstand how OUTER JOIN works, because LEFT/RIGHT JOIN is the abbreviation of LEFT/RIGHT OUTER JOIN. ";
        Case := "select c1,c2,c3 from t1 left outer join t2 using(c1) where t1.c2=2 and t2.c3=4";
        Position := 0;
        Func := Some (Method "RuleOK") |});
    ("JOI.004",
     {| Item := "JOI.004";
        Severity := "L4";
        Summary := "It is not recommended to use exclusive JOIN";
        Content := "LEFT OUTER JOIN statement with WHERE clause only in the right table is NULL, it may be the wrong column in the WHERE clause, such as: " +:+ Go.dq +:+ "... FROM l LEFT OUTER JOIN r ON ll = rr WHERE rz IS NULL" +:+ Go.dq +:+ ", the correct logic for this query may be WHERE rr IS NULL. ";
        Case := "select c1,c2,c3 from t1 left outer join t2 on t1.c1=t2.c1 where t2.c2 is null";
        Position := 0;
        Func := Some (Method "RuleOK") |});
    ("JOI.005",
     {| Item := "JOI.005";
        Severity := "L2";
        Summary := "Reduce the number of JOINs";
        Content := "Too many JOINs are a symptom of a complex bound query. Consider breaking down complex queries into many simple queries and reducing the number of JOINs. ";
        Case := "select bp1.p_id, b1.d_d as l, b1.b_id from b1 join bp1 on (b1.b_id = bp1.b_id) left outer join (b1 as b2 join bp2 on (b2.b_id = bp2.b_id) ) on (bp1.p_id = bp2.p_id) join bp21 on (b1.b_id = bp1.b_id) join bp31 on (b1.b_id = bp1.b_id) join bp41 on (b1.b_id = bp1.b_id) where b2. b_id = 0";
        Position := 0;
        Func := Some (Method "RuleReduceNumberOfJoin") |});
    ("JOI.006",
     {| Item := "JOI.006";
        Severity := "L4";
        Summary := "Rewriting a nested query to JOIN usually leads to more efficient execution and more effective optimization";
        Content := "Generally speaking, non-nested subqueries are always used for associative subqueries, at most from a table in the FROM clause. These subqueries are used for ANY, ALL and EXISTS predicates. If it can be determined based on the query semantics that the subquery returns at most one row, then an unrelated subquery or subquery from multiple tables in the FROM clause will be flattened. ";
        Case := "SELECT s,p,d FROM tbl WHERE p.p_id = (SELECT s.p_id FROM tbl WHERE s.c_id = 100996 AND s.q = 1 )";
        Position := 0;
        Func := Some (Method "RuleNestedSubQueries") |});
    ("JOI.007",
     {| Item := "JOI.007";
        Severity := "L4";
        Summary := "It is not recommended to delete or update associated tables";
        Content := "When you need to delete or update multiple tables at the same time, it is recommended to use simple statements. One SQL only deletes or updates one table. Try not to combine the operations of multiple tables in the same statement. ";
        Case := "UPDATE users u LEFT JOIN hobby h ON u.id = h.uid SET u.name ='pianoboy' WHERE h.hobby ='piano';";
        Position := 0;
        Func := Some (Method "RuleMultiDeleteUpdate") |});
    ("JOI.008",
     {| Item := "JOI.008";
        Severity := "L4";
        Summary := "Don't use cross-database JOIN queries";
        Content := "Generally speaking, a cross-database JOIN query means that the query statement spans two different subsystems, which may mean that the system coupling is too high or the library table structure design is unreasonable. ";
        Case := "SELECT s,p,d FROM tbl WHERE p.p_id = (SELECT s.p_id FROM tbl WHERE s.c_id = 100996 AND s.q = 1 )";
        Position := 0;
        Func := Some (Method "RuleMultiDBJoin") |});
    ("KEY.001",
     {| Item := "KEY.001";
        Severity := "L2";
        Summary := "It is recommended to use an auto-increment column as the primary key. If you use a joint auto-increment primary key, please use the auto-increment key as the first column";
        Content := "It is recommended to use an auto-increment column as the primary key. If you use a joint auto-increment primary key, please use the auto-increment key as the first column.";
        Case := "create table test(`id` int(11) NOT NULL PRIMARY KEY (`id`))";
        Position := 0;
        Func := Some (Method "RulePKNotInt") |});
    ("KEY.002",
     {| Item := "KEY.002";
        Severity := "L4";
        Summary := "There is no primary key or unique key, and the table structure cannot be changed online";
        Content := "No primary key or unique key, table structure cannot be changed online";
        Case := "create table test(col varchar(5000))";
        Position := 0;
        Func := Some (Method "RuleNoOSCKey") |});
    ("KEY.003",
     {| Item := "KEY.003";
        Severity := "L4";
        Summary := "Avoid recursive relationships such as foreign keys";
        Content := "Data with recursive relationships is very common, and data is often organized like a tree or hierarchically. However, creating a foreign key constraint to enforce the relationship between two columns in the same table can lead to clumsy queries. Each level of the tree corresponds to another connection. You will need to issue a recursive query to get all descendants or all ancestors of the node. The solution is to construct an additional closure table. It records the relationship between all nodes in the tree, not just those that have a direct parent-child relationship. You can also compare different levels of data design: closure tables, path enumerations, nested sets. Then choose one according to the needs of the application. ";
        Case := "CREATE TABLE tab2 (p_id BIGINT UNSIGNED NOT NULL,a_id BIGINT UNSIGNED NOT NULL,PRIMARY KEY (p_id, a_id),FOREIGN KEY (p_id) REFERENCES tab1(p_id),FOREIGN KEY (a_id) REFERENCES tab3(a_idENCE))";
        Position := 0;
        Func := Some (Method "RuleRecursiveDependency") |});
    ("KEY.004",
     {| Item := "KEY.004";
        Severity := "L0";
        Summary := "Reminder: Please align the index attribute order with the query";
        Content := "If you create a composite index for a column, please make sure that the order of the query attributes and index attributes is the same so that the DBMS can use the index when processing the query. If the query and index attribute orders are not aligned, the DBMS may not be able to use the index during query processing. ";
        Case := "create index idx1 on tbl (last_name,first_name)";
        Position := 0;
        Func := Some (Method "RuleIndexAttributeOrder") |});
    ("KEY.005",
     {| Item := "KEY.005";
        Severity := "L2";
        Summary := "Too many indexes are built on the table";
        Content := "Table built too many indexes";
        Case := "CREATE TABLE tbl (a int, b int, c int, KEY idx_a (`a`),KEY idx_b(`b`),KEY idx_c(`c`));";
        Position := 0;
        Func := Some (Method "RuleTooManyKeys") |});
    ("KEY.006",
     {| Item := "KEY.006";
        Severity := "L4";
        Summary := "Too many columns in the primary key";
        Content := "Too many columns in primary key";
        Case := "CREATE TABLE tbl (a int, b int, c int, PRIMARY KEY(`a`,`b`,`c`));";
        Position := 0;
        Func := Some (Method "RuleTooManyKeyParts") |});
    ("KEY.007",
     {| Item := "KEY.007";
        Severity := "L4";
        Summary := "The primary key is not specified or the primary key is not int or bigint";
        Content := "The primary key is not specified or the primary key is not int or bigint. It is recommended to set the primary key to int unsigned or bigint unsigned. ";
        Case := "CREATE TABLE tbl (a int);";
        Position := 0;
        Func := Some (Method "RulePKNotInt") |});
    ("KEY.008",
     {| Item := "KEY.008";
        Severity := "L4";
        Summary := "ORDER BY multiple columns but different sorting directions may not be able to use the index";
        Content := "Before MySQL 8.0, when multiple columns of ORDER BY specify different sorting directions, the established index cannot be used. ";
        Case := "SELECT * FROM tbl ORDER BY a DESC, b ASC;";
        Position := 0;
        Func := Some (Method "RuleOrderByMultiDirection") |});
    ("KEY.009",
     {| Item := "KEY.009";
        Severity := "L0";
        Summary := "Please check the data uniqueness before adding a unique index";
        Content := "Please check the data uniqueness of the added unique index column in advance. If the data is not unique, the duplicate columns may be automatically deleted when the online table structure is adjusted, which may cause data loss. ";
        Case := "CREATE UNIQUE INDEX part_of_name ON customer (name(10));";
        Position := 0;
        Func := Some (Method "RuleUniqueKeyDup") |});
    ("KEY.010",
     {| Item := "KEY.010";
        Severity := "L0";
        Summary := "Full-text indexing is not a silver bullet";
        Content := "Full-text index is mainly used to solve the performance problem of fuzzy query, but it is necessary to control the frequency and concurrency of the query. At the same time, pay attention to adjust the ft_min_word_len, ft_max_word_len, ngram_token_size and other parameters. ";
        Case := "CREATE TABLE `tb` (`id` int(10) unsigned NOT NULL AUTO_INCREMENT, `ip` varchar(255) NOT NULL DEFAULT'', PRIMARY KEY (`id`), FULLTEXT KEY `ip` (`ip `)) ENGINE=InnoDB;";
        Position := 0;
        Func := Some (Method "RuleFulltextIndex") |});
    ("KWR.001",
     {| Item := "KWR.001";
        Severity := "L2";
        Summary := "SQL_CALC_FOUND_ROWS is inefficient";
        Content := "Because SQL_CALC_FOUND_ROWS can't scale well, it may cause performance problems; it is recommended that the business use other strategies to replace the counting function provided by SQL_CALC_FOUND_ROWS, such as: paging results display, etc. ";
        Case := "select SQL_CALC_FOUND_ROWS col from tbl where id>1000";
        Position := 0;
        Func := Some (Method "RuleSQLCalcFoundRows") |});
    ("KWR.002",
     {| Item := "KWR.002";
        Severity := "L2";
        Summary := "It is not recommended to use MySQL keywords as column names or table names";
        Content := "When using keywords as column names or table names, the program needs to escape the column names and table names. If negligence is caused, the request cannot be executed. ";
        Case := "CREATE TABLE tbl (`select` int )";
        Position := 0;
        Func := Some (Method "RuleUseKeyWord") |});
    ("KWR.003",
     {| Item := "KWR.003";
        Severity := "L1";
        Summary := "It is not recommended to use plural numbers as column names or table names";
        Content := "The name of the table should only indicate the content of the entity in the table, not the number of entities, and the corresponding DO class name is also in singular form, which conforms to the expression habit. ";
        Case := "CREATE TABLE tbl (`books` int )";
        Position := 0;
        Func := Some (Method "RulePluralWord") |});
    ("KWR.004",
     {| Item := "KWR.004";
        Severity := "L1";
        Summary := "It is not recommended to use multi-byte encoded characters (Chinese) for naming";
        Content := "It is recommended to use English, numbers, underscores and other characters when naming libraries, tables, columns, and aliases. Chinese or other multi-byte encoded characters are not recommended. ";
        Case := "select col as column from tb";
        Position := 0;
        Func := Some (Method "RuleMultiBytesWord") |});
    ("KWR.005",
     {| Item := "KWR.005";
        Severity := "L1";
        Summary := "SQL contains unicode special characters";
        Content := "Some IDEs will automatically insert unicode characters invisible to the naked eye in SQL. Such as: non-break space, zero-width space, etc. Under Linux, you can use the `cat -A file.sql` command to view invisible characters.";
        Case := "update tb set status = 1 where id = 1;";
        Position := 0;
        Func := Some (Method "RuleInvisibleUnicode") |});
    ("LCK.001",
     {| Item := "LCK.001";
        Severity := "L3";
        Summary := "INSERT INTO xx SELECT has large locking granularity, please be cautious";
        Content := "INSERT INTO xx SELECT lock granularity is large, please be careful";
        Case := "INSERT INTO tbl SELECT * FROM tbl2;";
        Position := 0;
        Func := Some (Method "RuleInsertSelect") |});
    ("LCK.002",
     {| Item := "LCK.002";
        Severity := "L3";
        Summary := "Please use INSERT ON DUPLICATE KEY UPDATE with caution";
        Content := "Using INSERT ON DUPLICATE KEY UPDATE when the primary key is an auto-increment key may cause a large number of discontinuous and rapid growth of the primary key, resulting in rapid overflow of the primary key and unable to continue writing. In extreme cases, the master-slave data may be inconsistent. ";
        Case := "INSERT INTO t1(a,b,c) VALUES (1,2,3) ON DUPLICATE KEY UPDATE c=c+1;";
        Position := 0;
        Func := Some (Method "RuleInsertOnDup") |});
    ("LIT.001",
     {| Item := "LIT.001";
        Severity := "L2";
        Summary := "Use character type to store IP address";
        Content := "The string literally looks like an IP address, but it is not a parameter of INET_ATON(), indicating that the data is stored as characters instead of integers. It is more efficient to store the IP address as an integer. ";
        Case := "insert into tbl (IP,name) values('10.20.306.122','test')";
        Position := 0;
        Func := Some (Method "RuleIPString") |});
    ("LIT.002",
     {| Item := "LIT.002";
        Severity := "L4";
        Summary := "The date/time is not enclosed in quotation marks";
        Content := "Query such as " +:+ Go.dq +:+ "WHERE col <2010-02-12" +:+ Go.dq +:+ " is valid SQL, but it may be an error because it will be interpreted as " +:+ Go.dq +:+ "WHERE col <1996" +:+ Go.dq +:+ "; date/time text should be quoted. ";
        Case := "select col1,col2 from tbl where time <2018-01-10";
        Position := 0;
        Func := Some (Method "RuleDataNotQuote") |});
    ("LIT.003",
     {| Item := "LIT.003";
        Severity := "L3";
        Summary := "A collection of related data stored in a column";
        Content := "Store the ID as a list as a VARCHAR/TEXT column, which can cause performance and data integrity issues. Querying such columns requires the use of pattern matching expressions. Using a comma-separated list to do a multi-table join query to locate a row of data is extremely inelegant and time-consuming. This will make it more difficult to verify the ID. Consider, how much data can the list support at most? Store IDs in a separate table instead of using multi-valued attributes, so that each individual attribute value can occupy a row. In this way, the cross table realizes the many-to-many relationship between the two tables. This will simplify the query better and verify the ID more effectively. ";
        Case := "select c1,c2,c3,c4 from tab1 where col_id REGEXP'[[:<:]]12[[:>:]]'";
        Position := 0;
        Func := Some (Method "RuleMultiValueAttribute") |});
    ("LIT.004",
     {| Item := "LIT.004";
        Severity := "L1";
        Summary := "Please use a semicolon or the set DELIMITER ending";
        Content := "USE database, SHOW DATABASES and other commands also need to end with a semicolon or the set DELIMITER. ";
        Case := "USE db";
        Position := 0;
        Func := Some (Method "RuleOK") |});
    ("RES.001",
     {| Item := "RES.001";
        Severity := "L4";
        Summary := "Indeterministic GROUP BY";
        Content := "The column returned by SQL is neither in the aggregate function nor in the column of the GROUP BY expression, so the result of these values ​​will be non-deterministic. For example: select a, b, c from tbl where foo=" +:+ Go.dq +:+ "bar" +:+ Go.dq +:+ " group by a, the result returned by the SQL is uncertain. ";
        Case := "select c1,c2,c3 from t1 where c2='foo' group by c2";
        Position := 0;
        Func := Some (Method "RuleNoDeterministicGroupby") |});
    ("RES.002",
     {| Item := "RES.002";
        Severity := "L4";
        Summary := "LIMIT query without ORDER BY";
        Content := "LIMIT without ORDER BY will lead to non-deterministic results, depending on the query execution plan. ";
        Case := "select col1,col2 from tbl where name=xx limit 10";
        Position := 0;
        Func := Some (Method "RuleNoDeterministicLimit") |});
    ("RES.003",
     {| Item := "RES.003";
        Severity := "L4";
        Summary := "UPDATE/DELETE operation uses LIMIT conditions";
        Content := "UPDATE/DELETE operation using LIMIT condition is as dangerous as not adding WHERE condition, it may cause inconsistency of master-slave data or interruption of slave database synchronization. ";
        Case := "UPDATE film SET length = 120 WHERE title ='abc' LIMIT 1;";
        Position := 0;
        Func := Some (Method "RuleUpdateDeleteWithLimit") |});
    ("RES.004",
     {| Item := "RES.004";
        Severity := "L4";
        Summary := "UPDATE/DELETE operation specifies the ORDER BY condition";
        Content := "Do not specify ORDER BY conditions for UPDATE/DELETE operations. ";
        Case := "UPDATE film SET length = 120 WHERE title ='abc' ORDER BY title";
        Position := 0;
        Func := Some (Method "RuleUpdateDeleteWithOrderby") |});
    ("RES.005",
     {| Item := "RES.005";
        Severity := "L4";
        Summary := "There may be logic errors in the UPDATE statement, resulting in data corruption";
        Content := "In an UPDATE statement, if you want to update multiple fields, you cannot use AND between the fields, but should be separated by commas.";
        Case := "update tbl set col = 1 and cl = 2 where col=3;";
        Position := 0;
        Func := Some (Method "RuleUpdateSetAnd") |});
    ("RES.006",
     {| Item := "RES.006";
        Severity := "L4";
        Summary := "Never really compare conditions";
        Content := "The query condition is never true. If the condition appears in where, it may cause the query to have no matching results.";
        Case := "select * from tbl where 1 != 1;";
        Position := 0;
        Func := Some (Method "RuleImpossibleWhere") |});
    ("RES.007",
     {| Item := "RES.007";
        Severity := "L4";
        Summary := "Comparison condition is always true";
        Content := "The query condition is always true, which may cause the WHERE condition to become invalid for full table query.";
        Case := "select * from tbl where 1 = 1;";
        Position := 0;
        Func := Some (Method "RuleMeaninglessWhere") |});
    ("RES.008",
     {| Item := "RES.008";
        Severity := "L2";
        Summary := "It is not recommended to use LOAD DATA/SELECT ... INTO OUTFILE";
        Content := "SELECT INTO OUTFILE needs to be granted FILE permission, which will introduce security issues. Although LOAD DATA can increase the speed of data import, it may also cause excessive delay in synchronization from the library.";
        Case := "LOAD DATA INFILE'data.txt' INTO TABLE db2.my_table;";
        Position := 0;
        Func := Some (Method "RuleLoadFile") |});
    ("RES.009",
     {| Item := "RES.009";
        Severity := "L2";
        Summary := "Continuous judgment is not recommended";
        Content := "Similar to this SELECT * FROM tbl WHERE col = col ='abc' statement may be a writing error, the meaning you may want to express is col ='abc'. If it is indeed a business requirement, it is recommended to modify it to col = col and col ='abc'.";
        Case := "SELECT * FROM tbl WHERE col = col ='abc'";
        Position := 0;
        Func := Some (Method "RuleMultiCompare") |});
    ("RES.010",
     {| Item := "RES.010";
        Severity := "L2";
        Summary := "The field defined as ON UPDATE CURRENT_TIMESTAMP in the table building statement is not recommended to contain business logic";
        Content := "The field defined as ON UPDATE CURRENT_TIMESTAMP will be modified when other fields of the table are updated. If it contains business logic, the user will see hidden dangers. If you modify the data in batches but do not want to modify the field, it will cause data errors. ";
        Case := "CREATE TABLE category (category_id TINYINT UNSIGNED NOT NULL AUTO_INCREMENT, name VARCHAR(25) NOT NULL, last_update TIMESTAMP NOT NULL DEFAULT CURRENT_TIMESTAMP ON UPDATE CURRENT_TIMESTAMP, PRIMARY KEY (category_id)";
        Position := 0;
        Func := Some (Method "RuleCreateOnUpdate") |});
    ("RES.011",
     {| Item := "RES.011";
        Severity := "L2";
        Summary := "The table of the update request operation contains the ON UPDATE CURRENT_TIMESTAMP field";
        Content := "The field defined as ON UPDATE CURRENT_TIMESTAMP will be modified when other fields in the table are updated. Please check. If you don’t want to modify the update time of the field, you can use the following method: UPDATE category SET name='ActioN', last_update=last_update WHERE category_id=1";
        Case := "UPDATE category SET name='ActioN', last_update=last_update WHERE category_id=1";
        Position := 0;
        Func := Some (Method "RuleOK") |});
    ("SEC.001",
     {| Item := "SEC.001";
        Severity := "L0";
        Summary := "Please use TRUNCATE operation with caution";
        Content := "Generally speaking, the fastest way to empty a table is to use the TRUNCATE TABLE tbl_name; statement. However, the TRUNCATE operation is not without cost. TRUNCATE TABLE cannot return the exact number of deleted rows. If you need to return the number of deleted rows, it is recommended to use DELETE syntax. TRUNCATE operation will also reset AUTO_INCREMENT, if you don't want to reset the value, it is recommended to use DELETE FROM tbl_name WHERE 1; instead. The TRUNCATE operation will add source data locks (MDL) to the data dictionary. When TRUNCATE many tables are required at one time, it will affect all requests of the entire instance. Therefore, if you want to TRUNCATE multiple tables, it is recommended to use DROP+CREATE to reduce the lock duration. ";
        Case := "TRUNCATE TABLE tbl_name";
        Position := 0;
        Func := Some (Method "RuleTruncateTable") |});
    ("SEC.002",
     {| Item := "SEC.002";
        Severity := "L0";
        Summary := "Do not store passwords in clear text";
        Content := "It is not safe to store passwords in plain text or to transmit passwords in plain text on the network. If an attacker can intercept the SQL statement you use to insert the password, they can read the password directly. In addition, inserting the string entered by the user into a pure SQL statement in plaintext will also allow the attacker to discover it. If you can read the password, so can a hacker. The solution is to use a one-way hash function to encrypt the original password. Hashing refers to a function that transforms an input string into another new, unrecognizable string. Add a random string to the password encryption expression to defend against " +:+ Go.dq +:+ "dictionary attacks." +:+ Go.dq +:+ " Do not enter the plaintext password into the SQL query statement. Calculate the hash string in the application code, and only use the hash string in the SQL query. ";
        Case := "create table test(id int,name varchar(20) not null,password varchar(200)not null)";
        Position := 0;
        Func := Some (Method "RuleReadablePasswords") |});
    ("SEC.003",
     {| Item := "SEC.003";
        Severity := "L0";
        Summary := "Pay attention to backup when using DELETE/DROP/TRUNCATE and other operations";
        Content := "It is necessary to back up data before performing high-risk operations. ";
        Case := "delete from table where col ='condition'";
        Position := 0;
        Func := Some (Method "RuleDataDrop") |});
    ("SEC.004",
     {| Item := "SEC.004";
        Severity := "L0";
        Summary := "Found common SQL injection functions";
        Content := "SLEEP(), BENCHMARK(), GET_LOCK(), RELEASE_LOCK() and other functions usually appear in SQL injection statements, which will seriously affect database performance. ";
        Case := "SELECT BENCHMARK(10, RAND())";
        Position := 0;
        Func := Some (Method "RuleInjection") |});
    ("STA.001",
     {| Item := "STA.001";
        Severity := "L0";
        Summary := "'!=' operator is non-standard";
        Content := Go.dq +:+ "<>" +:+ Go.dq +:+ " is the inequality operator in standard SQL. ";
        Case := "select col1,col2 from tbl where type!=0";
        Position := 0;
        Func := Some (Method "RuleStandardINEQ") |});
    ("STA.002",
     {| Item := "STA.002";
        Severity := "L1";
        Summary := "It is recommended not to add spaces after the dot of the library name or table name";
        Content := "When using the db.table or table.column format to access a table or field, please do not add a space after the dot, although the syntax is correct. ";
        Case := "select col from sakila. film";
        Position := 0;
        Func := Some (Method "RuleSpaceAfterDot") |});
    ("STA.003",
     {| Item := "STA.003";
        Severity := "L1";
        Summary := "The index naming is not standardized";
        Content := "It is recommended that the common secondary index be prefixed with " +:+ IdxPrefix cfg +:+ ", and the unique index should be prefixed with" +:+ UkPrefix cfg +:+ ". ";
        Case := "select col from now where type!=0";
        Position := 0;
        Func := Some (Method "RuleIdxPrefix") |});
    ("STA.004",
     {| Item := "STA.004";
        Severity := "L1";
        Summary := "Please do not use characters other than letters, numbers and underscores when naming";
        Content := "Start with a letter or underscore. Only letters, numbers and underscores are allowed in the name. Please unify capitalization and do not use camel case nomenclature. Do not use consecutive underscores'__' in the name, as it is difficult to recognize. ";
        Case := "CREATE TABLE `abc` (a int);";
        Position := 0;
        Func := Some (Method "RuleStandardName") |});
    ("SUB.001",
     {| Item := "SUB.001";
        Severity := "L4";
        Summary := "MySQL has a poor optimization effect on subqueries";
        Content := "MySQL executes a subquery with each row in the external query as a dependent subquery. This is a common cause of severe performance problems. This may be improved in MySQL 5.6 version, but for 5.1 and earlier versions, it is recommended to rewrite this type of query as JOIN or LEFT OUTER JOIN respectively. ";
        Case := "select col1,col2,col3 from table1 where col2 in(select col from table2)";
        Position := 0;
        Func := Some (Method "RuleInSubquery") |});
    ("SUB.002",
     {| Item := "SUB.002";
        Severity := "L2";
        Summary := "If you don't care about duplication, it is recommended to use UNION ALL instead of UNION";
        Content := "Unlike UNION which removes duplicates, UNION ALL allows duplicate tuples. If you don't care about repeated tuples, then using UNION ALL will be a faster option. ";
        Case := "select teacher_id as id,people_name as name from t1,t2 where t1.teacher_id=t2.people_id union select student_id as id,people_name as name from t1,t2 where t1.student_id=t2.people_id";
        Position := 0;
        Func := Some (Method "RuleUNIONUsage") |});
    ("SUB.003",
     {| Item := "SUB.003";
        Severity := "L3";
        Summary := "Consider using EXISTS instead of DISTINCT subqueries";
        Content := "DISTINCT keyword deletes duplicates after sorting tuples. Instead, consider using a subquery with the EXISTS keyword, you can avoid returning the entire table. ";
        Case := "SELECT DISTINCT c.c_id, c.c_name FROM c,e WHERE e.c_id = c.c_id";
        Position := 0;
        Func := Some (Method "RuleDistinctJoinUsage") |});
    ("SUB.004",
     {| Item := "SUB.004";
        Severity := "L3";
        Summary := "The nested connection depth in the execution plan is too deep";
        Content := "MySQL's optimization effect on sub-queries is not good. MySQL will execute sub-queries as dependent sub-queries for each row in the external query. This is a common cause of severe performance problems. ";
        Case := "SELECT * from tb where id in (select id from (select id from tb))";
        Position := 0;
        Func := Some (Method "RuleSubqueryDepth") |});
    ("SUB.005",
     {| Item := "SUB.005";
        Severity := "L8";
        Summary := "Subqueries do not support LIMIT";
        Content := "The current MySQL version does not support'LIMIT & IN/ALL/ANY/SOME' in sub-queries. ";
        Case := "SELECT * FROM staff WHERE name IN (SELECT NAME FROM customer ORDER BY name LIMIT 1)";
        Position := 0;
        Func := Some (Method "RuleSubQueryLimit") |});
    ("SUB.006",
     {| Item := "SUB.006";
        Severity := "L2";
        Summary := "It is not recommended to use functions in subqueries";
        Content := "MySQL takes each row in the external query as a dependent subquery to execute a subquery. If a function is used in the subquery, it is difficult to perform an efficient query even with a semi-join. You can rewrite the subquery as an OUTER JOIN statement and filter the data with join conditions. ";
        Case := "SELECT * FROM staff WHERE name IN (SELECT max(NAME) FROM customer)";
        Position := 0;
        Func := Some (Method "RuleSubQueryFunctions") |});
    ("SUB.007",
     {| Item := "SUB.007";
        Severity := "L2";
        Summary := "For UNION joint queries with LIMIT output restrictions on the outer layer, it is recommended to add LIMIT output restrictions for the inner query.";
        Content := "Sometimes MySQL cannot " +:+ Go.dq +:+ "push down" +:+ Go.dq +:+ " the restriction conditions from the outer layer to the inner layer, which will make the conditions that could restrict the partial return results unable to be applied to the optimization of the inner query. For example: (SELECT * FROM tb1 ORDER BY name) UNION ALL (SELECT * FROM tb2 ORDER BY name) LIMIT 20; MySQL will put the results of the two sub-queries in a temporary table, and then take out 20 results, which can be passed in the two LIMIT 20 is added to each subquery to reduce the data in the temporary table. (SELECT * FROM tb1 ORDER BY name LIMIT 20) UNION ALL (SELECT * FROM tb2 ORDER BY name LIMIT 20) LIMIT 20;";
        Case := "(SELECT * FROM tb1 ORDER BY name LIMIT 20) UNION ALL (SELECT * FROM tb2 ORDER BY name LIMIT 20) LIMIT 20;";
        Position := 0;
        Func := Some (Method "RuleUNIONLimit") |});
    ("TBL.001",
     {| Item := "TBL.001";
        Severity := "L4";
        Summary := "Partition table is not recommended";
        Content := "Partition table is not recommended";
        Case := "CREATE TABLE trb3(id INT, name VARCHAR(50), purchased DATE) PARTITION BY RANGE(YEAR(purchased)) (PARTITION p0 VALUES LESS THAN (1990), PARTITION p1 VALUES LESS THAN (1995), PARTITION p2 VALUES LESS THAN (2000), PARTITION p3 VALUES LESS THAN (2005) );";
        Position := 0;
        Func := Some (Method "RulePartitionNotAllowed") |});
    ("TBL.002",
     {| Item := "TBL.002";
        Severity := "L4";
        Summary := "Please select the appropriate storage engine for the table";
        Content := "It is recommended to use the recommended storage engine when creating a table or modifying the storage engine of a table, such as: " +:+ Go.Join (AllowEngines cfg) ",";
        Case := "create table test(`id` int(11) NOT NULL AUTO_INCREMENT)";
        Position := 0;
        Func := Some (Method "RuleAllowEngine") |});
    ("TBL.003",
     {| Item := "TBL.003";
        Severity := "L8";
        Summary := "The table named DUAL has a special meaning in the database";
        Content := "DUAL table is a virtual table, you don't need to create it to use it, and it is not recommended that the service name the table with DUAL. ";
        Case := "create table dual(id int, primary key (id));";
        Position := 0;
        Func := Some (Method "RuleCreateDualTable") |});
    ("TBL.004",
     {| Item := "TBL.004";
        Severity := "L2";
        Summary := "The initial AUTO_INCREMENT value of the table is not 0";
        Content := "AUTO_INCREMENT is not 0 will cause data holes. ";
        Case := "CREATE TABLE tbl (a int) AUTO_INCREMENT = 10;";
        Position := 0;
        Func := Some (Method "RuleAutoIncrementInitNotZero") |});
    ("TBL.005",
     {| Item := "TBL.005";
        Severity := "L4";
        Summary := "Please use the recommended character set";
        Content := "The table character set is only allowed to be set to'" +:+ Go.Join (AllowCharsets cfg) "," +:+ "'";
        Case := "CREATE TABLE tbl (a int) DEFAULT CHARSET = latin1;";
        Position := 0;
        Func := Some (Method "RuleTableCharsetCheck") |});
    ("TBL.006",
     {| Item := "TBL.006";
        Severity := "L1";
        Summary := "View is not recommended";
        Content := "View is not recommended";
        Case := "create view v_today (today) AS SELECT CURRENT_DATE;";
        Position := 0;
        Func := Some (Method "RuleForbiddenView") |});
    ("TBL.007",
     {| Item := "TBL.007";
        Severity := "L1";
        Summary := "It is not recommended to use temporary tables";
        Content := "Temporary tables are not recommended";
        Case := "CREATE TEMPORARY TABLE `work` (`time` time DEFAULT NULL) ENGINE=InnoDB;";
        Position := 0;
        Func := Some (Method "RuleForbiddenTempTable") |});
    ("TBL.008",
     {| Item := "TBL.008";
        Severity := "L4";
        Summary := "Please use the recommended COLLATE";
        Content := "COLLATE is only allowed to be set to'" +:+ Go.Join (AllowCollates cfg) "," +:+ "'";
        Case := "CREATE TABLE tbl (a int) DEFAULT COLLATE = latin1_bin;";
        Position := 0;
        Func := Some (Method "RuleTableCharsetCheck") |})
  ].

Definition InitHeuristicRules (cfg : Config) : gmap string Rule :=
  list_to_map (catalog cfg).

(** ** External collaborators

    What [rules.go] calls outside the file: the fingerprint library, the
    pretty printers, the regular-expression and JSON libraries, and the
    helpers of the [common] and [ast] packages.  The advisor only composes
    them, so they are an interface. *)
Class Collaborators := {
  query_Fingerprint : string → string;
  query_Id : string → string;
  ast_Pretty : string → string → string;
  ast_SchemaMetaInfo : string → string → list string;
  common_MarkdownEscape : string → string;
  common_Score : Z → string;
  pretty_Sprint : Rule → string;
  json_MarshalIndent : JSONSuggest → option string;
  Regexp : Type;
  regexp_Compile : string → option Regexp;
  (** the text of the leftmost match of an expression in a string, [None]
      when the expression does not match *)
  regexp_Find : Regexp → string → option string;
  (** the side table of the conflict resolver, which the spec leaves to
      configuration: pairs (superseding identifier, subsumed identifier) *)
  SupersededBy : list (string * string)
}.

(** ** Iteration order of maps

    Go leaves the order of [for k := range m] unspecified.  Each [range]
    statement of the file asks an oracle for the order in which it visits
    the keys of the map it ranges over. *)
Inductive Loop :=
  | LMerge | LResolve | LIgnore | LText | LLint | LDefault
  | LMdErr | LMdExp | LMdPro | LMdTra | LMdIdx | LMdHeu
  | LJsonScore | LJsonExp | LJsonIdx | LJsonHeu.

Definition MapOrder := Loop → gmap string Rule → list string.

Definition keys (m : gmap string Rule) : list string := (map_to_list m).*1.

(** An oracle is a legal iteration order when it visits every key once. *)
Definition valid_order (o : MapOrder) : Prop := ∀ l m, o l m ≡ₚ keys m.

(** Two oracles any Go runtime could be: ascending and descending keys. *)
Definition ascending : MapOrder := λ _ m, Go.SortStrings (keys m).
Definition descending : MapOrder := λ _ m, reverse (Go.SortStrings (keys m)).

(** [var xs []string; for item := range suggest { if p(item) { xs = append(xs, item) } }] *)
Definition collect (p : string → bool) (ks : list string) : list string :=
  fold_left (λ xs item, if p item then xs ++ [item] else xs) ks [].

Section Advisor.
Context {C : Collaborators}.

(** [FindString] of a compiled expression: the text of the leftmost
    match, and the empty string when there is no match; a match of the
    empty string gives the empty string too. *)
Definition FindString (re : Regexp) (s : string) : string :=
  default "" (regexp_Find re s).

(** ** Rule filter *)

Fixpoint IsIgnoreRuleLoop (irs : list string) (item : string) : bool :=
  match irs with
  | [] => false
  | ir :: irs =>
      let ir := Go.Trim ir "*" in
      if Go.HasPrefix item ir && negb (String.eqb ir "OK") && negb (String.eqb ir "")
      then true
      else IsIgnoreRuleLoop irs item
  end.

Definition IsIgnoreRule (cfg : Config) (item : string) : bool :=
  IsIgnoreRuleLoop (IgnoreRules cfg) item.

Fixpoint InBlackListLoop (rs : list string) (sql : string) : bool :=
  match rs with
  | [] => false
  | r :: rs =>
      if String.eqb sql r then true
      else
        match regexp_Compile ("(?i)" +:+ r) with
        | Some re =>
            if negb (String.eqb (FindString re sql) "") then true
            else InBlackListLoop rs sql
        | None => InBlackListLoop rs sql
        end
  end.

Definition InBlackList (cfg : Config) (sql : string) : bool :=
  InBlackListLoop (BlackList cfg) sql.

(** ** Conflict resolver *)

(** Modelled from the spec: the test the resolver applies to an
    identifier.  [MergeConflictHeuristicRules] is called by [FormatSuggest]
    but defined in another file of the package, with its table of
    conflicts; by the spec (4.3) an identifier is subsumed when the side
    table pairs it with a superseding identifier that is present in the
    verdict set. *)
Definition subsumed (table : list (string * string)) (rules : gmap string Rule)
    (item : string) : bool :=
  existsb (λ p, String.eqb p.2 item && bool_decide (is_Some (rules !! p.1))) table.

(** Modelled from the spec: [MergeConflictHeuristicRules], missing from
    the file.  By the spec (4.3) it removes the verdict of a subsumed
    identifier whenever the superseding identifier is also present: a loop
    over the verdict set it is given, in the iteration order of the map,
    which deletes the entries that the set it was given subsumes. *)
Definition resolveStep (rules suggest : gmap string Rule) (item : string)
    : gmap string Rule :=
  if subsumed SupersededBy rules item then delete item suggest else suggest.

Definition MergeConflictHeuristicRules (o : MapOrder) (rules : gmap string Rule)
    : gmap string Rule :=
  fold_left (resolveStep rules) (o LResolve rules) rules.

(** ** Scoring steps *)

(** The deduction of the markdown loops: [minus, err := strconv.Atoi(strings.Trim(severity, "L"))],
    then [score - minus*5] without error and [0] with one. *)
Definition deduct (score : Z) (severity : string) : Z :=
  match Go.Atoi (Go.Trim severity "L") with
  | (minus, None) => Go.sub score (Go.mul minus 5)
  | (_, Some _) => 0
  end.

(** The body of the score loop of [formatJSON]: the value of [l] is used
    whether or not [Atoi] reported an error. *)
Definition jsonScoreStep (suggest : gmap string Rule) (score : Z) (item : string) : Z :=
  let '(l, _) := Go.Atoi (Go.TrimLeft (Severity (get suggest item)) "L") in
  let score := Go.sub score (Go.mul l 5) in
  if Go.HasPrefix item "ERR" && negb (String.eqb (Content (get suggest item)) "")
  then 0 else score.

Definition jsonScore (o : MapOrder) (suggest : gmap string Rule) : Z :=
  let score := fold_left (jsonScoreStep suggest) (o LJsonScore suggest) 100 in
  if score <? 0 then 0 else score.

(** ** formatJSON *)

(** The [sug] value that [formatJSON] hands to [json.MarshalIndent]. *)
Definition formatJSONSuggest (o : MapOrder) (sql db : string)
    (suggest : gmap string Rule) : JSONSuggest :=
  let fingerprint := query_Fingerprint sql in
  let id := query_Id fingerprint in
  let score := jsonScore o suggest in
  (* Explain info *)
  let sortItem := collect (λ item, Go.HasPrefix item "EXP") (o LJsonExp suggest) in
  let sortItem := Go.SortStrings sortItem in
  let explain := fold_left (λ a i, a ++ [get suggest i]) sortItem [] in
  (* Index advisor *)
  let sortItem := collect (λ item, Go.HasPrefix item "IDX") (o LJsonIdx suggest) in
  let sortItem := Go.SortStrings sortItem in
  let indexRules := fold_left (λ a i, a ++ [get suggest i]) sortItem [] in
  (* Heuristic rules *)
  let sortItem :=
    collect (λ item,
        if negb (Go.HasPrefix item "EXP") && negb (Go.HasPrefix item "IDX") then
          if Go.HasPrefix item "ERR" && String.eqb (Content (get suggest item)) ""
          then false else true
        else false)
      (o LJsonHeu suggest) in
  let sortItem := Go.SortStrings sortItem in
  let heuristicRules := fold_left (λ a i, a ++ [get suggest i]) sortItem [] in
  {| ID := id; Fingerprint := fingerprint; Score := score; Sample := sql;
     Explain := explain; HeuristicRules := heuristicRules;
     IndexRules := indexRules; Tables := ast_SchemaMetaInfo sql db |}.

Definition formatJSON (o : MapOrder) (sql db : string)
    (suggest : gmap string Rule) : string :=
  match json_MarshalIndent (formatJSONSuggest o sql db suggest) with
  | Some js => js
  | None => ""
  end.

(** ** FormatSuggest *)

(** The variables the format branches work on. *)
Record St := mkSt {
  st_suggest : gmap string Rule;
  st_buf : list string;
  st_score : Z
}.

Definition append (s : St) (lines : list string) : St :=
  mkSt (st_suggest s) (st_buf s ++ lines) (st_score s).

(** [case "text"]: the body of the loop and the loop. *)
Definition textStep (sql id : string) (s : St) (item : string) : St :=
  let rule := get (st_suggest s) item in
  append s [Go.Sprintln ["Query: "; sql];
            Go.Sprintln ["ID: "; id];
            Go.Sprintln ["Item: "; item];
            Go.Sprintln ["Severity: "; Severity rule];
            Go.Sprintln ["Summary: "; Summary rule];
            Go.Sprintln ["Content: "; Content rule]].

Definition formatText (o : MapOrder) (sql id : string) (s : St) : St :=
  fold_left (textStep sql id) (o LText (st_suggest s)) s.

(** [case "lint"] *)
Definition lintStep (s : St) (item : string) : St :=
  let rule := get (st_suggest s) item in
  (* lint ignores OK and EXP *)
  if negb (String.eqb item "OK") && negb (Go.HasPrefix item "EXP")
  then append s [item +:+ " " +:+ Summary rule]
  else s.

Definition formatLint (o : MapOrder) (s : St) : St :=
  fold_left lintStep (o LLint (st_suggest s)) s.

(** [default] *)
Definition defaultStep (s : St) (item : string) : St :=
  append s [pretty_Sprint (get (st_suggest s) item)].

Definition formatDefault (o : MapOrder) (sql : string) (s : St) : St :=
  fold_left defaultStep (o LDefault (st_suggest s))
    (append s [Go.Sprintln ["Query: "; sql]]).

(** [case "markdown", "html", "explain-digest", "duplicate-key-checker"],
    block by block. *)
Definition mdHeader (cfg : Config) (sql format id fingerprint : string) (s : St) : St :=
  if negb (String.eqb sql "") && (0 <? size (st_suggest s))%nat then
    let shown :=
      if String.eqb (ExplainSQLReportType cfg) "fingerprint" then fingerprint
      else if String.eqb (ExplainSQLReportType cfg) "sample" then sql
      else ast_Pretty sql format in
    append s ["# Query: " +:+ id +:+ Go.nl;
              "```sql" +:+ Go.nl +:+ shown +:+ Go.nl +:+ "```" +:+ Go.nl]
  else s.

(** MySQL: the first loop deletes the [ERR] entries without content and
    collects the others, the second renders and deletes the collected. *)
Definition mdMySQLScan (acc : gmap string Rule * list string) (item : string)
    : gmap string Rule * list string :=
  let '(suggest, sortedMySQLSuggest) := acc in
  if Go.HasPrefix item "ERR" then
    if String.eqb (Content (get suggest item)) ""
    then (delete item suggest, sortedMySQLSuggest)
    else (suggest, sortedMySQLSuggest ++ [item])
  else (suggest, sortedMySQLSuggest).

Definition mdMySQLStep (s : St) (item : string) : St :=
  mkSt (delete item (st_suggest s))
       (st_buf s ++ [Go.Sprintln [Content (get (st_suggest s) item)]])
       0.

Definition mdMySQL (o : MapOrder) (s : St) : St :=
  let '(suggest, sortedMySQLSuggest) :=
    fold_left mdMySQLScan (o LMdErr (st_suggest s)) (st_suggest s, []) in
  let sortedMySQLSuggest := Go.SortStrings sortedMySQLSuggest in
  let buf :=
    if (0 <? length sortedMySQLSuggest)%nat
    then st_buf s ++ ["## MySQL execute failed" +:+ Go.nl] else st_buf s in
  fold_left mdMySQLStep sortedMySQLSuggest (mkSt suggest buf (st_score s)).

(** Explain *)
Definition mdExplainTop (s : St) : St :=
  let top := get (st_suggest s) "EXP.000" in
  if negb (String.eqb (Item top) "") then
    mkSt (delete "EXP.000" (st_suggest s))
         (st_buf s ++ [Go.Sprintln ["## "; Summary top];
                       Go.Sprintln [Content top];
                       Go.Sprint [Case top; Go.nl]])
         (st_score s)
  else s.

Definition mdExplainStep (s : St) (item : string) : St :=
  let r := get (st_suggest s) item in
  append s [Go.Sprintln ["### "; Summary r];
            Go.Sprintln [Content r];
            Go.Sprint [Case r; Go.nl]].

Definition mdExplain (o : MapOrder) (s : St) : St :=
  let s := mdExplainTop s in
  let sortedExplainSuggest :=
    Go.SortStrings (collect (λ item, Go.HasPrefix item "EXP") (o LMdExp (st_suggest s))) in
  fold_left mdExplainStep sortedExplainSuggest s.

(** Profiling and Trace: the two blocks differ in the prefix, the title
    and the loop only. *)
Definition mdDumpStep (s : St) (item : string) : St :=
  mkSt (delete item (st_suggest s))
       (st_buf s ++ [Go.Sprintln [Content (get (st_suggest s) item)]])
       (st_score s).

Definition mdDump (prefix title : string) (l : Loop) (o : MapOrder) (s : St) : St :=
  let sorted :=
    Go.SortStrings (collect (λ item, Go.HasPrefix item prefix) (o l (st_suggest s))) in
  let s := if (0 <? length sorted)%nat then append s [title +:+ Go.nl] else s in
  fold_left mdDumpStep sorted s.

Definition mdProfiling := mdDump "PRO" "## Profiling信息" LMdPro.
Definition mdTrace := mdDump "TRA" "## Trace信息" LMdTra.

(** Index *)
Definition mdIndexStep (format : string) (s : St) (item : string) : St :=
  let r := get (st_suggest s) item in
  let buf := st_buf s ++
    [Go.Sprintln ["## "; common_MarkdownEscape (Summary r)];
     Go.Sprintln ["* **Item:** "; item];
     Go.Sprintln ["* **Severity:** "; Severity r]] in
  let score := deduct (st_score s) (Severity r) in
  let buf := buf ++ [Go.Sprintln ["* **Content:** "; common_MarkdownEscape (Content r)]] in
  let buf :=
    if String.eqb format "duplicate-key-checker" then
      buf ++ ["* **原建表语句:** " +:+ Go.nl +:+ "```sql" +:+ Go.nl +:+ Case r
                +:+ Go.nl +:+ "```" +:+ Go.nl;
              Go.nl +:+ Go.nl]
    else
      buf ++ [Go.Sprint ["* **Case:** "; common_MarkdownEscape (Case r); Go.nl +:+ Go.nl]] in
  mkSt (st_suggest s) buf score.

Definition mdIndex (o : MapOrder) (format : string) (s : St) : St :=
  let sortedIdxSuggest :=
    Go.SortStrings (collect (λ item, Go.HasPrefix item "IDX") (o LMdIdx (st_suggest s))) in
  fold_left (mdIndexStep format) sortedIdxSuggest s.

(** Heuristic *)
Definition mdHeuristicStep (s : St) (item : string) : St :=
  let r := get (st_suggest s) item in
  let buf := st_buf s ++ [Go.Sprintln ["##"; Summary r]] in
  if String.eqb item "OK" then mkSt (st_suggest s) buf (st_score s)
  else
    let buf := buf ++ [Go.Sprintln ["* **Item:** "; item];
                       Go.Sprintln ["* **Severity:** "; Severity r]] in
    let score := deduct (st_score s) (Severity r) in
    let buf := buf ++ [Go.Sprintln ["* **Content:** "; common_MarkdownEscape (Content r)]] in
    mkSt (st_suggest s) buf score.

Definition isHeuristic (item : string) : bool :=
  negb (Go.HasPrefix item "EXP") && negb (Go.HasPrefix item "IDX")
  && negb (Go.HasPrefix item "PRO").

Definition mdHeuristic (o : MapOrder) (s : St) : St :=
  let sortedHeuristicSuggest :=
    Go.SortStrings (collect isHeuristic (o LMdHeu (st_suggest s))) in
  fold_left mdHeuristicStep sortedHeuristicSuggest s.

Definition formatMarkdown (cfg : Config) (o : MapOrder)
    (sql format id fingerprint : string) (s : St) : St :=
  let s := mdHeader cfg sql format id fingerprint s in
  let s := mdMySQL o s in
  let s := mdExplain o s in
  let s := mdProfiling o s in
  let s := mdTrace o s in
  let s := mdIndex o format s in
  mdHeuristic o s.

(** The merge of the [suggests] arguments: later maps overwrite. *)
Definition mergeStep (s : gmap string Rule) (suggest : gmap string Rule) (item : string)
    : gmap string Rule :=
  match s !! item with
  | Some rule => <[item := rule]> suggest
  | None => suggest
  end.

Definition mergeSuggests (o : MapOrder) (suggests : list (gmap string Rule))
    : gmap string Rule :=
  fold_left (λ suggest s, fold_left (mergeStep s) (o LMerge s) suggest) suggests ∅.

(** The body of the loop that applies the ignore gate. *)
Definition ignoreStep (cfg : Config) (suggest : gmap string Rule) (k : string)
    : gmap string Rule :=
  if IsIgnoreRule cfg k then delete k suggest else suggest.

(** From the merged and resolved set to the set that is rendered.
    [heuristicRules] is the value the package variable [HeuristicRules]
    holds at the call: [InitHeuristicRules] assigns it, [ListHeuristicRules]
    deletes its [OK] entry when it is called on it, and a map without the
    key gives the zero [Rule]. *)
Definition normalize (cfg : Config) (heuristicRules : gmap string Rule) (o : MapOrder)
    (suggest : gmap string Rule) : gmap string Rule :=
  let ignoreOK :=
    fold_left (λ b r, if String.eqb "OK" r then true else b) (IgnoreRules cfg) false in
  let suggest :=
    if (size suggest <? 1)%nat
    then {[ "OK" := get heuristicRules "OK" ]} else suggest in
  let suggest :=
    if ignoreOK || (1 <? size suggest)%nat then delete "OK" suggest else suggest in
  fold_left (ignoreStep cfg) (o LIgnore suggest) suggest.

Definition isMarkdownFormat (format : string) : bool :=
  String.eqb format "markdown" || String.eqb format "html"
  || String.eqb format "explain-digest" || String.eqb format "duplicate-key-checker".

(** The state at the end of the [switch format]. *)
Definition render (cfg : Config) (heuristicRules : gmap string Rule) (o : MapOrder)
    (sql currentDB format : string) (suggests : list (gmap string Rule)) : St :=
  let fingerprint := if negb (String.eqb sql "") then query_Fingerprint sql else "" in
  let id := if negb (String.eqb sql "") then query_Id fingerprint else "" in
  let suggest := mergeSuggests o suggests in
  let suggest := MergeConflictHeuristicRules o suggest in
  let suggest := normalize cfg heuristicRules o suggest in
  let s := mkSt suggest [] 100 in
  if String.eqb format "json" then append s [formatJSON o sql currentDB suggest]
  else if String.eqb format "text" then formatText o sql id s
  else if String.eqb format "lint" then formatLint o s
  else if isMarkdownFormat format then formatMarkdown cfg o sql format id fingerprint s
  else formatDefault o sql s.

(** The [str] that the final [switch common.Config.ReportType] builds. *)
Definition scoreLine (cfg : Config) (s : St) : string :=
  if String.eqb (ReportType cfg) "markdown" || String.eqb (ReportType cfg) "html" then
    if (1 <? length (st_buf s))%nat then
      hd "" (st_buf s) +:+ Go.nl +:+ common_Score (st_score s) +:+ Go.nl +:+ Go.nl
         +:+ Go.Join (tail (st_buf s)) Go.nl
    else ""
  else Go.Join (st_buf s) Go.nl.

(** [FormatSuggest] reads two package variables, [common.Config] and
    [HeuristicRules]: [cfg] and [heuristicRules] are their values at the
    call. *)
Definition FormatSuggest (cfg : Config) (heuristicRules : gmap string Rule) (o : MapOrder)
    (sql currentDB format : string) (suggests : list (gmap string Rule))
    : gmap string Rule * string :=
  let s := render cfg heuristicRules o sql currentDB format suggests in
  (st_suggest s, scoreLine cfg s).

End Advisor.

(** ** Concrete inputs *)

(** Collaborators that do next to nothing, to run the advisor on concrete
    data.  The one regular expression this engine compiles is the empty
    one, which matches every text with the empty match. *)
Definition plain : Collaborators :=
  {| query_Fingerprint := λ sql, sql;
     query_Id := λ fp, fp;
     ast_Pretty := λ sql _, sql;
     ast_SchemaMetaInfo := λ _ _, [];
     common_MarkdownEscape := λ s, s;
     common_Score := λ score, pretty score;
     pretty_Sprint := Item;
     json_MarshalIndent := λ _, None;
     Regexp := unit;
     regexp_Compile := λ expr, if String.eqb expr "(?i)" then Some () else None;
     regexp_Find := λ _ _, Some "";
     SupersededBy := [] |}.

(** The same collaborators with a side table of two chained conflicts. *)
Definition chained : Collaborators :=
  {| query_Fingerprint := @query_Fingerprint plain; query_Id := @query_Id plain;
     ast_Pretty := @ast_Pretty plain; ast_SchemaMetaInfo := @ast_SchemaMetaInfo plain;
     common_MarkdownEscape := @common_MarkdownEscape plain;
     common_Score := @common_Score plain; pretty_Sprint := @pretty_Sprint plain;
     json_MarshalIndent := @json_MarshalIndent plain;
     Regexp := @Regexp plain; regexp_Compile := @regexp_Compile plain;
     regexp_Find := @regexp_Find plain;
     SupersededBy := [("SUB.001", "ARG.005"); ("SUB.004", "SUB.001")] |}.

Definition defaultConfig : Config :=
  {| IgnoreRules := []; ReportType := "markdown"; ExplainSQLReportType := "pretty";
     MaxTextColsCount := 2; MaxVarcharLength := 1024; ColumnNotAllowType := ["boolean"];
     IdxPrefix := "idx_"; UkPrefix := "uk_"; AllowEngines := ["innodb"];
     AllowCharsets := ["utf8"; "utf8mb4"]; AllowCollates := []; BlackList := [] |}.

(** The package variable [HeuristicRules] after [InitHeuristicRules] under
    the default configuration. *)
Definition loaded : gmap string Rule := InitHeuristicRules defaultConfig.

(** A verdict as a check returns it: the catalog entry, here with its
    severity and content only. *)
Definition verdict (item severity content : string) : Rule :=
  {| Item := item; Severity := severity; Summary := item; Content := content;
     Case := ""; Position := 0; Func := None |}.

Definition verdicts (l : list Rule) : gmap string Rule :=
  list_to_map ((λ r, (Item r, r)) <$> l).

Definition ignoring (irs : list string) : Config :=
  {| IgnoreRules := irs; ReportType := ReportType defaultConfig;
     ExplainSQLReportType := ExplainSQLReportType defaultConfig;
     MaxTextColsCount := MaxTextColsCount defaultConfig;
     MaxVarcharLength := MaxVarcharLength defaultConfig;
     ColumnNotAllowType := ColumnNotAllowType defaultConfig;
     IdxPrefix := IdxPrefix defaultConfig; UkPrefix := UkPrefix defaultConfig;
     AllowEngines := AllowEngines defaultConfig;
     AllowCharsets := AllowCharsets defaultConfig;
     AllowCollates := AllowCollates defaultConfig; BlackList := [] |}.

Definition blocking (rs : list string) : Config :=
  {| IgnoreRules := []; ReportType := ReportType defaultConfig;
     ExplainSQLReportType := ExplainSQLReportType defaultConfig;
     MaxTextColsCount := MaxTextColsCount defaultConfig;
     MaxVarcharLength := MaxVarcharLength defaultConfig;
     ColumnNotAllowType := ColumnNotAllowType defaultConfig;
     IdxPrefix := IdxPrefix defaultConfig; UkPrefix := UkPrefix defaultConfig;
     AllowEngines := AllowEngines defaultConfig;
     AllowCharsets := AllowCharsets defaultConfig;
     AllowCollates := AllowCollates defaultConfig; BlackList := rs |}.

(** ** Vocabulary of the statements *)

(** An ignore pattern suppresses an item: the pattern without its stars is
    neither empty nor [OK] and is a prefix of the item. *)
Definition suppresses (ir item : string) : Prop :=
  Go.Trim ir "*" ≠ "" ∧ Go.Trim ir "*" ≠ "OK" ∧ Go.HasPrefix item (Go.Trim ir "*") = true.

(** The items [COL.001] to [COL.019]. *)
Definition colItems : list string :=
  (λ n, "COL.0" +:+ (if (n <? 10)%nat then "0" else "") +:+ pretty n) <$> seq 1 19.

(** A severity of the catalog: [L] and one digit. *)
Definition isDigit (c : ascii) : bool :=
  (48 <=? nat_of_ascii c)%nat && (nat_of_ascii c <=? 57)%nat.

Definition severityForm (s : string) : Prop :=
  ∃ d, isDigit d = true ∧ s = String "L" (String d EmptyString).

Definition isSeverity (s : string) : bool :=
  match s with
  | String l (String d EmptyString) => Ascii.eqb l "L" && isDigit d
  | _ => false
  end.

Section Vocabulary.
Context {C : Collaborators}.

(** A pattern blocks a text: the pattern compiles, case-insensitively,
    and its leftmost match in the text is not empty. *)
Definition blocks (r sql : string) : Prop :=
  ∃ re t, regexp_Compile ("(?i)" +:+ r) = Some re ∧ regexp_Find re sql = Some t ∧ t ≠ "".

(** A pattern matches a text. *)
Definition matches (r sql : string) : Prop :=
  ∃ re, regexp_Compile ("(?i)" +:+ r) = Some re ∧ is_Some (regexp_Find re sql).

End Vocabulary.

(** An array of the JSON document holds a bucket of the verdict set: the
    verdicts whose key and value satisfy [p], each once, in ascending
    order of the keys. *)
Definition bucket (suggest : gmap string Rule) (p : string → Rule → bool)
    (arr : list Rule) : Prop :=
  ∃ ks, Sorted String.le ks ∧ NoDup ks
        ∧ (∀ k, k ∈ ks ↔ ∃ r, suggest !! k = Some r ∧ p k r = true)
        ∧ Forall2 (λ k r, suggest !! k = Some r) ks arr.

Definition inExplain (k : string) (_ : Rule) : bool := Go.HasPrefix k "EXP".
Definition inIndexRules (k : string) (_ : Rule) : bool := Go.HasPrefix k "IDX".
Definition inHeuristicRules (k : string) (r : Rule) : bool :=
  negb (Go.HasPrefix k "EXP") && negb (Go.HasPrefix k "IDX")
  && negb (Go.HasPrefix k "ERR" && String.eqb (Content r) "").

(** Every verdict is stored under its own [Item]. *)
Definition keyed (suggest : gmap string Rule) : Prop :=
  map_Forall (λ k r, Item r = k) suggest.

(** The keys with property [p], in ascending order. *)
Definition sortedKeys (p : string → bool) (m : gmap string Rule) : list string :=
  Go.SortStrings (filter (λ k, p k = true) (keys m)).

(** The ordinal a severity stands for in the markdown loops, which trim
    [L] on both sides and deduct only without an error ... *)
Definition mdOrdinal (severity : string) : Z :=
  match Go.Atoi (Go.Trim severity "L") with
  | (minus, None) => minus
  | (_, Some _) => 0
  end.

(** ... and in the score loop of [formatJSON], which trims on the left and
    uses the value [Atoi] returns in any case. *)
Definition jsonOrdinal (severity : string) : Z :=
  (Go.Atoi (Go.TrimLeft severity "L")).1.

Definition sumZ {A} (f : A → Z) (l : list A) : Z := foldr (λ x acc, f x + acc) 0 l.

Definition totalOrdinal (ord : string → Z) (m : gmap string Rule) : Z :=
  sumZ (λ kr, ord (Severity kr.2)) (map_to_list m).

(** No severity of the set stands for a negative ordinal, and the
    deductions of the whole set fit Go's [int]. *)
Definition tame (ord : string → Z) (m : gmap string Rule) : Prop :=
  Forall (λ kr, 0 ≤ ord (Severity kr.2)) (map_to_list m) ∧ 5 * totalOrdinal ord m < 2 ^ 63.

(** A verdict of the [ERR] namespace with a non-empty [Content]. *)
Definition isFailure (suggest : gmap string Rule) (item : string) : bool :=
  Go.HasPrefix item "ERR" && negb (String.eqb (Content (get suggest item)) "").

Definition failed (suggest : gmap string Rule) : Prop :=
  ∃ item, is_Some (suggest !! item) ∧ isFailure suggest item = true.

Section ScoreVocabulary.
Context {C : Collaborators}.

(** The value of [score] that the markdown branch leaves for the score
    line, and the lines it leaves in [buf]. *)
Definition markdownScore (cfg : Config) (o : MapOrder) (sql format id fingerprint : string)
    (suggest : gmap string Rule) : Z :=
  st_score (formatMarkdown cfg o sql format id fingerprint (mkSt suggest [] 100)).

Definition markdownLines (cfg : Config) (o : MapOrder) (sql format id fingerprint : string)
    (suggest : gmap string Rule) : list string :=
  st_buf (formatMarkdown cfg o sql format id fingerprint (mkSt suggest [] 100)).

End ScoreVocabulary.

(** The verdict set without the [ERR] entries that have no content. *)
Definition dropQuiet (m : gmap string Rule) : gmap string Rule :=
  filter (λ kr, ¬ (Go.HasPrefix kr.1 "ERR" = true ∧ Content kr.2 = "")) m.

(** A failed statement with two heuristic findings. *)
Definition failedSet : gmap string Rule :=
  verdicts [verdict "ERR.001" "L8" "syntax error";
            verdict "ARG.005" "L1" "in list";
            verdict "KEY.002" "L4" "no primary key"].

(** Three findings of the catalog's severity [L8]. *)
Definition severeSet : gmap string Rule :=
  verdicts [verdict "ALI.002" "L8" "alias of a wildcard";
            verdict "SUB.005" "L8" "subquery with limit";
            verdict "TBL.003" "L8" "table named dual"].

(** Four findings, three of them in the conflicts of [chained]. *)
Definition chainSet : gmap string Rule :=
  verdicts [verdict "SUB.004" "L3" "a"; verdict "SUB.001" "L4" "b";
            verdict "ARG.005" "L1" "c"; verdict "COL.001" "L1" "d"].

(** A finding whose severity is not a number. *)
Definition malformedSet : gmap string Rule :=
  verdicts [verdict "COL.001" "high" "select star"].

(** A failed statement with a finding of a negative severity. *)
Definition negativeSet : gmap string Rule :=
  verdicts [verdict "ERR.001" "L8" "syntax error"; verdict "COL.001" "L-3" "select star"].

(** The catalog entry of the sentinel. *)
Definition okRule : Rule :=
  {| Item := "OK"; Severity := "L0"; Summary := "OK"; Content := "OK"; Case := "OK";
     Position := 0; Func := Some (Method "RuleOK") |}.

(** The verdict set without the items the ignore gate suppresses. *)
Definition notIgnored (cfg : Config) (m : gmap string Rule) : gmap string Rule :=
  filter (λ kr, IsIgnoreRule cfg kr.1 = false) m.

Section RenderVocabulary.
Context {C : Collaborators}.

(** The merged set after conflict resolution, and the set that reaches
    the [switch format]. *)
Definition resolved (o : MapOrder) (suggests : list (gmap string Rule)) : gmap string Rule :=
  MergeConflictHeuristicRules o (mergeSuggests o suggests).

Definition rendered (cfg : Config) (heuristicRules : gmap string Rule) (o : MapOrder)
    (suggests : list (gmap string Rule)) : gmap string Rule :=
  normalize cfg heuristicRules o (resolved o suggests).

(** The record the text format prints for one verdict. *)
Definition textRecord (sql id : string) (m : gmap string Rule) (item : string) : list string :=
  [Go.Sprintln ["Query: "; sql]; Go.Sprintln ["ID: "; id]; Go.Sprintln ["Item: "; item];
   Go.Sprintln ["Severity: "; Severity (get m item)];
   Go.Sprintln ["Summary: "; Summary (get m item)];
   Go.Sprintln ["Content: "; Content (get m item)]].

(** The header of the markdown document. *)
Definition markdownHeader (cfg : Config) (sql format : string) : list string :=
  if String.eqb sql "" then []
  else st_buf (mdHeader cfg sql format (query_Id (query_Fingerprint sql))
                 (query_Fingerprint sql) (mkSt {[ "OK" := okRule ]} [] 100)).

End RenderVocabulary.

Section RecordVocabulary.
Context {C : Collaborators}.

(** The line the lint format prints for one verdict, and the dump the
    default format prints. *)
Definition lintRecord (m : gmap string Rule) (item : string) : list string :=
  if negb (String.eqb item "OK") && negb (Go.HasPrefix item "EXP")
  then [item +:+ " " +:+ Summary (get m item)] else [].

Definition defaultRecord (m : gmap string Rule) (item : string) : list string :=
  [pretty_Sprint (get m item)].

End RecordVocabulary.

(** Closes a decidable goal on concrete data by evaluation. *)
Ltac by_evaluation := apply (bool_decide_unpack _); vm_compute; exact I.

(** ** ListHeuristicRules *)

Section Listing.
Context {C : Collaborators}.

(** What [ListHeuristicRules] calls besides the collaborators above:
    [common.SortedKey], which returns the keys of a map in a list, and
    [json.MarshalIndent] on the list of maps. *)
Variable common_SortedKey : gmap string Rule → list string.
Variable json_MarshalRules : list (gmap string Rule) → option string.

(** The section [fmt.Print] writes for one rule: the operands are strings,
    so they are written one after the other. *)
Definition listSection (r : gmap string Rule) (item : string) : string :=
  Go.Sprint ["## "; common_MarkdownEscape (Summary (get r item));
             Go.nl +:+ Go.nl +:+ "* **Item**:"; Item (get r item);
             Go.nl +:+ "* **Severity**:"; Severity (get r item);
             Go.nl +:+ "* **Content**:"; common_MarkdownEscape (Content (get r item));
             Go.nl +:+ "* **Case**:" +:+ Go.nl +:+ Go.nl +:+ "```sql" +:+ Go.nl;
             Case (get r item); Go.nl +:+ "```" +:+ Go.nl].

(** The body of [for _, r := range rules]: [r] loses its [OK] entry, then
    one section is written per key [SortedKey] returns.  The state is the
    maps seen so far, as the loop leaves them, and what was written. *)
Definition listStep (acc : list (gmap string Rule) * list string) (r : gmap string Rule)
    : list (gmap string Rule) * list string :=
  let '(rules, out) := acc in
  let r := delete "OK" r in
  let out := fold_left (λ out item, out ++ [listSection r item]) (common_SortedKey r) out in
  (rules ++ [r], out).

(** [ListHeuristicRules]: the maps as the call leaves them, and the writes
    to standard output, one string per call of [fmt.Print] or
    [fmt.Println]. *)
Definition ListHeuristicRules (cfg : Config) (rules : list (gmap string Rule))
    : list (gmap string Rule) * list string :=
  if String.eqb (ReportType cfg) "json" then
    match json_MarshalRules rules with
    | Some js => (rules, [js +:+ Go.nl])
    | None => (rules, [])
    end
  else
    fold_left listStep rules
      ([], ["# 启发式规则建议" +:+ Go.nl +:+ Go.nl +:+ "[toc]" +:+ Go.nl +:+ Go.nl]).

End Listing.

(** ** Vocabulary of the further properties *)

(** The verdict the last of the maps that know the key holds for it. *)
Definition lastWins (suggests : list (gmap string Rule)) (k : string) : option Rule :=
  fold_left (λ acc s, match s !! k with Some r => Some r | None => acc end) suggests None.

(** The entries the markdown branch deletes while it renders: the [ERR],
    [PRO] and [TRA] namespaces, and [EXP.000] when it has an [Item]. *)
Definition consumed (k : string) (r : Rule) : bool :=
  Go.HasPrefix k "ERR" || Go.HasPrefix k "PRO" || Go.HasPrefix k "TRA"
  || (String.eqb k "EXP.000" && negb (String.eqb (Item r) "")).

Definition afterMarkdown (m : gmap string Rule) : gmap string Rule :=
  filter (λ kr, consumed kr.1 kr.2 = false) m.

(** The verdicts the markdown branch deducts for: the Index and the
    Heuristic bucket without the sentinel. *)
Definition deducted (k : string) : bool :=
  negb (Go.HasPrefix k "ERR") && negb (Go.HasPrefix k "EXP") && negb (Go.HasPrefix k "PRO")
  && negb (Go.HasPrefix k "TRA") && negb (String.eqb k "OK").

(** Every severity the markdown branch deducts for is a number. *)
Definition parses (m : gmap string Rule) : Prop :=
  map_Forall (λ k r, deducted k = true → (Go.Atoi (Go.Trim (Severity r) "L")).2 = None) m.

Definition values (m : gmap string Rule) : list Rule := (map_to_list m).*2.

(** A listing on concrete data. *)
Definition sortedKey (r : gmap string Rule) : list string := Go.SortStrings (keys r).

(** The scenario of two findings, [L1] and [L4]. *)
Definition twoFindings : gmap string Rule :=
  verdicts [verdict "ARG.005" "L1" "in list"; verdict "KEY.002" "L4" "no primary key"].

(** What the markdown branch deducts in all, in units of the ordinal. *)
Definition deductions (m : gmap string Rule) : Z :=
  sumZ (λ k, mdOrdinal (Severity (get m k))) (filter (λ k, deducted k = true) (keys m)).

(** * Properties *)

(** ** The Go layer *)

Lemma wrap_id z : Go.minInt ≤ z ≤ Go.maxInt → Go.wrap z = z.
Proof.
  unfold Go.minInt, Go.maxInt, Go.wrap. intros Hz.
  rewrite Z.mod_small; lia.
Qed.

Lemma wrap_range z : Go.minInt ≤ Go.wrap z ≤ Go.maxInt.
Proof.
  unfold Go.minInt, Go.maxInt, Go.wrap.
  pose proof (Z.mod_pos_bound (z + 2 ^ 63) (2 ^ 64)). lia.
Qed.

Lemma SortStrings_Permutation l : Go.SortStrings l ≡ₚ l.
Proof. apply merge_sort_Permutation. Qed.

Lemma SortStrings_Sorted l : Sorted String.le (Go.SortStrings l).
Proof. apply (Sorted_merge_sort String.le). Qed.

Lemma SortStrings_proper l l' : l ≡ₚ l' → Go.SortStrings l = Go.SortStrings l'.
Proof.
  intros Hp. apply (Sorted_unique String.le); try apply SortStrings_Sorted.
  by rewrite !SortStrings_Permutation.
Qed.

Lemma SortStrings_elem_of k l : k ∈ Go.SortStrings l ↔ k ∈ l.
Proof. by rewrite SortStrings_Permutation. Qed.

Lemma collect_acc (p : string → bool) (ks acc : list string) :
  fold_left (λ xs item, if p item then xs ++ [item] else xs) ks acc
  = acc ++ filter (λ k, p k = true) ks.
Proof.
  revert acc. induction ks as [|k ks IH]; intros acc; simpl.
  - by rewrite app_nil_r.
  - rewrite IH, filter_cons. destruct (p k) eqn:Hp.
    + rewrite decide_True by done. by rewrite <- app_assoc.
    + rewrite decide_False by done. done.
Qed.

Lemma collect_filter (p : string → bool) (ks : list string) : collect p ks = filter (λ k, p k = true) ks.
Proof. unfold collect. by rewrite collect_acc. Qed.

Lemma filter_ext_elem {A} (P Q : A → Prop) `{!∀ x, Decision (P x)} `{!∀ x, Decision (Q x)}
    (l : list A) :
  (∀ x, x ∈ l → P x ↔ Q x) → filter P l = filter Q l.
Proof.
  induction l as [|x l IH]; intros Hpq; [done|].
  rewrite !filter_cons, IH by (intros y Hy; apply Hpq; by right).
  destruct (decide (P x)) as [Hp|Hp], (decide (Q x)) as [Hq|Hq]; try done.
  - exfalso. apply Hq, Hpq; [by left|done].
  - exfalso. apply Hp, Hpq; [by left|done].
Qed.

Lemma keys_NoDup (m : gmap string Rule) : NoDup (keys m).
Proof. apply NoDup_fst_map_to_list. Qed.

Lemma elem_of_keys (m : gmap string Rule) k : k ∈ keys m ↔ is_Some (m !! k).
Proof.
  unfold keys. rewrite list_elem_of_fmap. split.
  - intros [[k' r] [-> Hin]]. apply elem_of_map_to_list in Hin. by exists r.
  - intros [r Hr]. exists (k, r). split; [done|]. by apply elem_of_map_to_list.
Qed.

Lemma ascending_valid : valid_order ascending.
Proof. intros l m. apply SortStrings_Permutation. Qed.

Lemma descending_valid : valid_order descending.
Proof. intros l m. unfold descending. by rewrite reverse_Permutation, SortStrings_Permutation. Qed.

(** ** Rule filter *)

Lemma IsIgnoreRuleLoop_spec irs item :
  IsIgnoreRuleLoop irs item = true ↔ ∃ ir, ir ∈ irs ∧ suppresses ir item.
Proof.
  unfold suppresses. induction irs as [|ir irs IH]; simpl.
  - split; [done|]. intros (ir & Hin & _). by apply elem_of_nil in Hin.
  - destruct (Go.HasPrefix item (Go.Trim ir "*")) eqn:Hp; simpl.
    + destruct (String.eqb_spec (Go.Trim ir "*") "OK") as [Hok|Hok]; simpl.
      * rewrite IH. split.
        -- intros (ir' & Hin & H'). exists ir'. split; [by right|done].
        -- intros (ir' & Hin & Hne & Hnok & Hpre). apply elem_of_cons in Hin as [->|Hin]; [done|].
           exists ir'. done.
      * destruct (String.eqb_spec (Go.Trim ir "*") "") as [He|He]; simpl.
        -- rewrite IH. split.
           ++ intros (ir' & Hin & H'). exists ir'. split; [by right|done].
           ++ intros (ir' & Hin & Hne & Hnok & Hpre). apply elem_of_cons in Hin as [->|Hin]; [done|].
              exists ir'. done.
        -- split; [|done]. intros _. exists ir. split; [by left|done].
    + rewrite IH. split.
      * intros (ir' & Hin & H'). exists ir'. split; [by right|done].
      * intros (ir' & Hin & Hne & Hnok & Hpre). apply elem_of_cons in Hin as [->|Hin]; [congruence|].
        exists ir'. done.
Qed.

(** Counterexample to C4 as stated: the pattern [COL] does suppress
    [COLX.001], the match being a plain prefix test; and the sentinel [OK]
    is suppressed by the pattern [O*]. *)
Lemma ignore_gate_no_namespace_boundary :
  IsIgnoreRule (ignoring ["COL"]) "COLX.001" = true
  ∧ IsIgnoreRule (ignoring ["O*"]) "OK" = true.
Proof. split; reflexivity. Qed.

(** C4 (amended): [IsIgnoreRule] suppresses an item exactly when some
    configured pattern, stars trimmed, is non-empty, is not [OK] and is a
    prefix of the item.  The match is a plain prefix test: with the pattern
    [COL] configured every item that starts with [COL] is suppressed, which
    are [COL.001] to [COL.019] and [COLX.001] as well.  A configuration
    whose patterns are all [OK] or empty suppresses nothing, the sentinel
    included. *)
Theorem ignore_gate_prefix (cfg : Config) :
  (∀ item, IsIgnoreRule cfg item = true ↔ ∃ ir, ir ∈ IgnoreRules cfg ∧ suppresses ir item)
  ∧ (∀ item, "COL" ∈ IgnoreRules cfg → Go.HasPrefix item "COL" = true →
       IsIgnoreRule cfg item = true)
  ∧ ("COL" ∈ IgnoreRules cfg →
       Forall (λ item, IsIgnoreRule cfg item = true) (colItems ++ ["COLX.001"]))
  ∧ (Forall (λ ir, Go.Trim ir "*" = "OK" ∨ Go.Trim ir "*" = "") (IgnoreRules cfg) →
       ∀ item, IsIgnoreRule cfg item = false).
Proof.
  assert (Hcol : ∀ item, "COL" ∈ IgnoreRules cfg → Go.HasPrefix item "COL" = true →
                         IsIgnoreRule cfg item = true).
  { intros item Hin Hp. apply IsIgnoreRuleLoop_spec. exists "COL".
    split; [done|]. unfold suppresses. by simpl. }
  split; [|split; [|split]].
  - intros item. apply IsIgnoreRuleLoop_spec.
  - exact Hcol.
  - intros Hin. apply Forall_forall. intros item Hitem. apply Hcol; [done|].
    revert item Hitem. apply Forall_forall. vm_compute. repeat constructor.
  - intros Hall item. destruct (IsIgnoreRule cfg item) eqn:Hi; [|done].
    apply IsIgnoreRuleLoop_spec in Hi as (ir & Hin & Hne & Hnok & _).
    rewrite Forall_forall in Hall. destruct (Hall ir Hin); congruence.
Qed.

Section BlackList.
Context {C : Collaborators}.

Lemma FindString_nonempty re sql :
  FindString re sql ≠ "" ↔ ∃ t, regexp_Find re sql = Some t ∧ t ≠ "".
Proof.
  unfold FindString. destruct (regexp_Find re sql) as [t|]; simpl.
  - split; [intros Ht; by exists t|]. by intros (t' & [= ->] & Ht).
  - split; [done|]. by intros (t' & Hn & _).
Qed.

Lemma InBlackListLoop_spec rs sql :
  InBlackListLoop rs sql = true ↔ ∃ r, r ∈ rs ∧ (sql = r ∨ blocks r sql).
Proof.
  unfold blocks. induction rs as [|r rs IH]; simpl.
  - split; [done|]. intros (r & Hin & _). by apply elem_of_nil in Hin.
  - destruct (String.eqb_spec sql r) as [->|Hne].
    { split; [|done]. intros _. exists r. split; [by left|by left]. }
    destruct (regexp_Compile ("(?i)" +:+ r)) as [re|] eqn:Hre.
    + destruct (String.eqb_spec (FindString re sql) "") as [He|He]; simpl.
      * rewrite IH. split.
        -- intros (r' & Hin & H'). exists r'. split; [by right|done].
        -- intros (r' & Hin & H'). apply elem_of_cons in Hin as [->|Hin]; [|by exists r'].
           destruct H' as [?|(re' & t & Hc & Hf & Ht)]; [done|].
           rewrite Hre in Hc. injection Hc as <-.
           exfalso. revert He. apply FindString_nonempty. by exists t.
      * split; [|done]. intros _. exists r. split; [by left|]. right.
        apply FindString_nonempty in He as (t & Hf & Ht). by exists re, t.
    + rewrite IH. split.
      * intros (r' & Hin & H'). exists r'. split; [by right|done].
      * intros (r' & Hin & H'). apply elem_of_cons in Hin as [->|Hin]; [|by exists r'].
        destruct H' as [?|(re' & t & Hc & _)]; [done|]. rewrite Hre in Hc. done.
Qed.

(** C7 (amended): [InBlackList] returns [true] exactly when the text is
    string-equal to some pattern, or some pattern compiles as a
    case-insensitive regular expression whose leftmost match in the text is
    not empty.  A pattern that does not compile blocks by equality only;
    nothing fails. *)
Theorem InBlackList_spec (cfg : Config) (sql : string) :
  (InBlackList cfg sql = true ↔
     ∃ r, r ∈ BlackList cfg ∧ (sql = r ∨ blocks r sql))
  ∧ ((∀ r, r ∈ BlackList cfg → regexp_Compile ("(?i)" +:+ r) = None) →
     (InBlackList cfg sql = true ↔ sql ∈ BlackList cfg)).
Proof.
  split; [apply InBlackListLoop_spec|].
  intros Hnone. unfold InBlackList. rewrite InBlackListLoop_spec. split.
  - intros (r & Hin & [->|(re & t & Hc & _)]); [done|].
    rewrite (Hnone r Hin) in Hc. done.
  - intros Hin. exists sql. split; [done|by left].
Qed.

End BlackList.

(** Counterexample to C7 as stated: the empty pattern compiles and matches
    the text, yet the text is not blocked, because the match is the empty
    string and [FindString] then returns what it returns without a match. *)
Lemma InBlackList_empty_match :
  @matches plain "" "select 1"
  ∧ "select 1" ≠ ""
  ∧ @InBlackList plain (blocking [""]) "select 1" = false.
Proof.
  split; [|split; [done|reflexivity]].
  exists (). split; [reflexivity|]. by exists "".
Qed.

(** ** Rule catalog *)

Lemma isSeverity_spec s : isSeverity s = true → severityForm s.
Proof.
  destruct s as [|l [|d [|]]]; simpl; try done.
  intros [Hl Hd]%andb_prop. apply Ascii.eqb_eq in Hl as ->. by exists d.
Qed.

(** C10: after [InitHeuristicRules] the keys of the catalog literal are
    pairwise distinct, and every entry of [HeuristicRules] is stored under
    its own [Item], has a severity [L] followed by one digit, and has a
    non-nil [Func]; so no two entries share an [Item]. *)
Theorem catalog_consistent (cfg : Config) :
  NoDup (catalog cfg).*1
  ∧ size (InitHeuristicRules cfg) = 133%nat
  ∧ map_Forall (λ k r, Item r = k ∧ severityForm (Severity r) ∧ is_Some (Func r))
      (InitHeuristicRules cfg)
  ∧ (∀ k1 k2 r1 r2,
       InitHeuristicRules cfg !! k1 = Some r1 →
       InitHeuristicRules cfg !! k2 = Some r2 →
       Item r1 = Item r2 → k1 = k2).
Proof.
  assert (Hnd : NoDup (catalog cfg).*1).
  { apply (bool_decide_unpack _). vm_compute. exact I. }
  assert (Hall : map_Forall (λ k r, Item r = k ∧ severityForm (Severity r) ∧ is_Some (Func r))
                   (InitHeuristicRules cfg)).
  { intros k r Hkr. apply elem_of_list_to_map in Hkr; [|done].
    assert (Hb : forallb (λ kr, String.eqb (Item kr.2) kr.1 && isSeverity (Severity kr.2)
                                && bool_decide (is_Some (Func kr.2))) (catalog cfg) = true).
    { vm_compute. reflexivity. }
    rewrite forallb_forall in Hb. apply list_elem_of_In, Hb in Hkr. simpl in Hkr.
    apply andb_prop in Hkr as [[Hi Hs]%andb_prop Hf].
    apply String.eqb_eq in Hi. apply isSeverity_spec in Hs.
    apply bool_decide_eq_true in Hf. done. }
  split; [done|]. split; [|split; [done|]].
  - unfold InitHeuristicRules. rewrite map_size_list_to_map by done. reflexivity.
  - intros k1 k2 r1 r2 H1 H2 Heq.
    destruct (Hall _ _ H1) as [<- _]. destruct (Hall _ _ H2) as [<- _]. done.
Qed.

(** The Go layer on concrete inputs. *)
Example Atoi_examples :
  Go.Atoi "4" = (4, None)
  ∧ Go.Atoi "-3" = (-3, None)
  ∧ Go.Atoi "+7" = (7, None)
  ∧ Go.Atoi "" = (0, Some Go.ErrSyntax)
  ∧ Go.Atoi "high" = (0, Some Go.ErrSyntax)
  ∧ Go.Atoi "5L" = (0, Some Go.ErrSyntax)
  ∧ Go.Atoi "9223372036854775807" = (Go.maxInt, None)
  ∧ Go.Atoi "9223372036854775808" = (Go.maxInt, Some Go.ErrRange)
  ∧ Go.Atoi "-9223372036854775808" = (Go.minInt, None)
  ∧ Go.Atoi "99999999999999999999" = (Go.maxInt, Some Go.ErrRange).
Proof. repeat split; by vm_compute. Qed.

Example Trim_examples :
  Go.Trim "LL5L" "L" = "5" ∧ Go.TrimLeft "L5L" "L" = "5L"
  ∧ Go.Trim "*COL*" "*" = "COL" ∧ Go.Trim "**" "*" = "".
Proof. repeat split. Qed.

Example SortStrings_example :
  Go.SortStrings ["IDX.003"; "COL.001"; "COL"; "ERR.000"]
  = ["COL"; "COL.001"; "ERR.000"; "IDX.003"].
Proof. by vm_compute. Qed.

Example colItems_example :
  colItems = ["COL.001"; "COL.002"; "COL.003"; "COL.004"; "COL.005"; "COL.006"; "COL.007";
              "COL.008"; "COL.009"; "COL.010"; "COL.011"; "COL.012"; "COL.013"; "COL.014";
              "COL.015"; "COL.016"; "COL.017"; "COL.018"; "COL.019"].
Proof. by vm_compute. Qed.

(** ** Conflict resolver *)

Section Resolver.
Context {C : Collaborators}.

Lemma subsumed_mono table (m1 m2 : gmap string Rule) item :
  m1 ⊆ m2 → subsumed table m1 item = true → subsumed table m2 item = true.
Proof.
  intros Hsub. unfold subsumed. rewrite !existsb_exists.
  intros (p & Hin & Hp). exists p. split; [done|].
  apply andb_prop in Hp as [Heq Hs]. rewrite Heq. simpl.
  apply bool_decide_eq_true in Hs as [r Hr]. apply bool_decide_eq_true.
  exists r. by eapply lookup_weaken.
Qed.

End Resolver.

(** ** The arrays of the JSON document *)

Section JSON.
Context {C : Collaborators}.

Lemma append_values (suggest : gmap string Rule) (l : list string) (acc : list Rule) :
  fold_left (λ a i, a ++ [get suggest i]) l acc = acc ++ (get suggest <$> l).
Proof.
  revert acc. induction l as [|k l IH]; intros acc; simpl.
  - by rewrite app_nil_r.
  - rewrite IH. by rewrite <- app_assoc.
Qed.

(** What a [range] loop that collects and sorts keys computes, whatever
    the order of the iteration. *)
Lemma sorted_collect (o : MapOrder) (l : Loop) (p : string → bool) (m : gmap string Rule) :
  valid_order o →
  Go.SortStrings (collect p (o l m)) = sortedKeys p m.
Proof.
  intros Ho. unfold sortedKeys. rewrite collect_filter. apply SortStrings_proper. by rewrite (Ho l m).
Qed.

Lemma formatJSONSuggest_arrays o sql db suggest :
  valid_order o →
  let j := formatJSONSuggest o sql db suggest in
  Explain j = get suggest <$> sortedKeys (λ k, inExplain k (get suggest k)) suggest
  ∧ IndexRules j = get suggest <$> sortedKeys (λ k, inIndexRules k (get suggest k)) suggest
  ∧ HeuristicRules j = get suggest <$> sortedKeys (λ k, inHeuristicRules k (get suggest k)) suggest.
Proof.
  intros Ho. simpl. rewrite !append_values. simpl.
  rewrite !(sorted_collect o) by done. unfold sortedKeys.
  split; [done|split; [done|]].
  apply (f_equal (fmap (get suggest))), (f_equal Go.SortStrings), list_filter_iff. intros k.
  unfold inHeuristicRules.
  destruct (Go.HasPrefix k "EXP"), (Go.HasPrefix k "IDX"), (Go.HasPrefix k "ERR"),
    (String.eqb (Content (get suggest k)) ""); simpl; done.
Qed.

Lemma sortedKeys_bucket (p : string → Rule → bool) suggest :
  bucket suggest p (get suggest <$> sortedKeys (λ k, p k (get suggest k)) suggest).
Proof.
  exists (sortedKeys (λ k, p k (get suggest k)) suggest). unfold sortedKeys.
  split; [apply SortStrings_Sorted|]. split; [|split].
  - rewrite SortStrings_Permutation. apply NoDup_filter, keys_NoDup.
  - intros k. rewrite SortStrings_elem_of, list_elem_of_filter, elem_of_keys.
    unfold get. split.
    + intros [Hp [r Hr]]. exists r. rewrite Hr in Hp. done.
    + intros (r & Hr & Hp). rewrite Hr. simpl. split; [done|by exists r].
  - apply Forall2_fmap_r, Forall_Forall2_diag, Forall_forall. intros k Hk.
    apply SortStrings_elem_of, list_elem_of_filter in Hk as [_ Hk].
    apply elem_of_keys in Hk as [r Hr]. unfold get, compose. by rewrite Hr.
Qed.

Lemma bucket_keyed_sorted suggest p arr :
  keyed suggest → bucket suggest p arr → Sorted String.le (Item <$> arr).
Proof.
  intros Hk (ks & Hs & _ & _ & Hf).
  assert (Item <$> arr = ks) as ->; [|done].
  clear Hs. induction Hf as [|k r ks arr Hkr _ IH]; [done|].
  rewrite fmap_cons, IH. f_equal. by apply Hk in Hkr.
Qed.

(** C8: whatever the iteration order, [Explain] holds exactly the
    verdicts whose key starts with [EXP], [IndexRules] those whose key
    starts with [IDX], and [HeuristicRules] all the others except the
    [ERR] ones with an empty [Content]; each array is in ascending order of
    the keys, which is the order of the [Item] fields when verdicts are
    stored under their [Item].  For the set of [IDX.003] and [COL.001],
    [IndexRules] is the one and [HeuristicRules] the other. *)
Theorem formatJSON_buckets (o : MapOrder) (sql db : string) (suggest : gmap string Rule) :
  valid_order o →
  let j := formatJSONSuggest o sql db suggest in
  (bucket suggest inExplain (Explain j)
   ∧ bucket suggest inIndexRules (IndexRules j)
   ∧ bucket suggest inHeuristicRules (HeuristicRules j))
  ∧ (keyed suggest →
     Sorted String.le (Item <$> Explain j)
     ∧ Sorted String.le (Item <$> IndexRules j)
     ∧ Sorted String.le (Item <$> HeuristicRules j))
  ∧ (∀ idx col,
       let j := formatJSONSuggest o sql db {[ "IDX.003" := idx; "COL.001" := col ]} in
       Explain j = [] ∧ IndexRules j = [idx] ∧ HeuristicRules j = [col]).
Proof.
  intros Ho j.
  destruct (formatJSONSuggest_arrays o sql db suggest Ho) as (He & Hi & Hh).
  fold j in He, Hi, Hh.
  assert (Hb : bucket suggest inExplain (Explain j)
               ∧ bucket suggest inIndexRules (IndexRules j)
               ∧ bucket suggest inHeuristicRules (HeuristicRules j)).
  { rewrite He, Hi, Hh. repeat split; apply sortedKeys_bucket. }
  split; [done|]. split.
  - intros Hk. destruct Hb as (H1 & H2 & H3).
    repeat split; by eapply bucket_keyed_sorted.
  - intros idx col j'.
    destruct (formatJSONSuggest_arrays o sql db {[ "IDX.003" := idx; "COL.001" := col ]} Ho)
      as (He' & Hi' & Hh').
    fold j' in He', Hi', Hh'. rewrite He', Hi', Hh'.
    assert (Hkeys : keys {[ "IDX.003" := idx; "COL.001" := col ]} ≡ₚ ["IDX.003"; "COL.001"]).
    { unfold keys. rewrite map_to_list_insert by done.
      by rewrite map_to_list_singleton. }
    unfold sortedKeys.
    rewrite !(SortStrings_proper _ _ (filter_Permutation _ _ _ Hkeys)).
    unfold get. repeat split; reflexivity.
Qed.

End JSON.

Lemma formatJSON_buckets_witness :
  let j := @formatJSONSuggest plain ascending "select 1" "" failedSet in
  (bucket failedSet inExplain (Explain j)
   ∧ bucket failedSet inIndexRules (IndexRules j)
   ∧ bucket failedSet inHeuristicRules (HeuristicRules j))
  ∧ (keyed failedSet →
     Sorted String.le (Item <$> Explain j)
     ∧ Sorted String.le (Item <$> IndexRules j)
     ∧ Sorted String.le (Item <$> HeuristicRules j))
  ∧ (∀ idx col,
       let j := @formatJSONSuggest plain ascending "select 1" ""
                  {[ "IDX.003" := idx; "COL.001" := col ]} in
       Explain j = [] ∧ IndexRules j = [idx] ∧ HeuristicRules j = [col]).
Proof.
  apply (@formatJSON_buckets plain ascending "select 1" "" failedSet).
  apply ascending_valid.
Defined.

(** The arrays of the failed statement with two findings: the failure and
    the findings are all heuristic rules, in ascending order. *)
Example formatJSON_failedSet :
  Item <$> HeuristicRules (@formatJSONSuggest plain descending "select 1" "" failedSet)
  = ["ARG.005"; "ERR.001"; "KEY.002"].
Proof. by vm_compute. Qed.

(** ** Scoring *)

Section Sums.
Context {A : Type}.
Implicit Types (f : A → Z) (l : list A).

Lemma sumZ_app f l1 l2 : sumZ f (l1 ++ l2) = sumZ f l1 + sumZ f l2.
Proof. unfold sumZ. induction l1 as [|x l1 IH]; simpl; lia. Qed.

Lemma sumZ_Permutation f l1 l2 : l1 ≡ₚ l2 → sumZ f l1 = sumZ f l2.
Proof. unfold sumZ. induction 1; simpl; lia. Qed.

Lemma sumZ_nonneg f l : Forall (λ x, 0 ≤ f x) l → 0 ≤ sumZ f l.
Proof. unfold sumZ. induction 1; simpl; lia. Qed.

Lemma sumZ_ext f g l : Forall (λ x, f x = g x) l → sumZ f l = sumZ g l.
Proof. unfold sumZ. induction 1; simpl; lia. Qed.

Lemma sumZ_submseteq f l1 l2 :
  l1 ⊆+ l2 → Forall (λ x, 0 ≤ f x) l2 → sumZ f l1 ≤ sumZ f l2.
Proof.
  intros [k Hk]%submseteq_Permutation Hall.
  rewrite (sumZ_Permutation f _ _ Hk), sumZ_app.
  rewrite Hk in Hall. apply Forall_app in Hall as [_ Hk2].
  pose proof (sumZ_nonneg f k Hk2). lia.
Qed.

Lemma sumZ_fmap {B} (g : B → A) f (l : list B) : sumZ f (g <$> l) = sumZ (f ∘ g) l.
Proof. induction l as [|x l IH]; [done|]. rewrite fmap_cons. unfold sumZ in *. simpl. by rewrite IH. Qed.
End Sums.

Section ScoreJSON.
Context {C : Collaborators}.
Implicit Types (suggest : gmap string Rule) (ks : list string).

Lemma jsonScoreStep_unfold suggest score item :
  jsonScoreStep suggest score item
  = if isFailure suggest item then 0
    else Go.sub score (Go.mul (jsonOrdinal (Severity (get suggest item))) 5).
Proof.
  unfold jsonScoreStep, jsonOrdinal, isFailure.
  by destruct (Go.Atoi (Go.TrimLeft (Severity (get suggest item)) "L")).
Qed.

(** The score loop on tame severities: no step wraps around. *)
Lemma jsonScore_fold suggest ks :
  let ord k := jsonOrdinal (Severity (get suggest k)) in
  ∀ score,
    Forall (λ k, 0 ≤ ord k) ks →
    5 * sumZ ord ks ≤ Go.maxInt + Z.min score 0 →
    score ≤ Go.maxInt →
    let r := fold_left (jsonScoreStep suggest) ks score in
    Z.min score 0 - 5 * sumZ ord ks ≤ r ≤ Z.max score 0
    ∧ (Exists (λ k, isFailure suggest k = true) ks → r ≤ 0)
    ∧ (Forall (λ k, isFailure suggest k = false) ks → r = score - 5 * sumZ ord ks).
Proof.
  intros ord. induction ks as [|k ks IH]; intros score Hpos Hfit Hmax; simpl.
  - unfold sumZ; simpl. split; [lia|]. split; [by intros ?%Exists_nil|]. intros _. lia.
  - apply Forall_cons in Hpos as [Hk Hpos].
    assert (Hs : 0 ≤ sumZ ord ks) by by apply sumZ_nonneg.
    change (sumZ ord (k :: ks)) with (ord k + sumZ ord ks) in *.
    unfold Go.maxInt in *.
    rewrite jsonScoreStep_unfold. fold (ord k).
    assert (Hm : Go.mul (ord k) 5 = ord k * 5).
    { apply wrap_id. unfold Go.minInt, Go.maxInt. lia. }
    assert (Hsub : Go.sub score (Go.mul (ord k) 5) = score - ord k * 5).
    { rewrite Hm. apply wrap_id. unfold Go.minInt, Go.maxInt. lia. }
    rewrite Hsub.
    destruct (isFailure suggest k) eqn:Hf.
    + destruct (IH 0) as (Hb & He & Ha); [done|lia|lia|].
      split; [lia|]. split.
      * intros _. lia.
      * intros Hall. apply Forall_cons in Hall as [? _]. congruence.
    + destruct (IH (score - ord k * 5)) as (Hb & He & Ha); [done|lia|lia|].
      split; [lia|]. split.
      * intros Hex. apply Exists_cons in Hex as [?|Hex]; [congruence|]. by apply He.
      * intros Hall. apply Forall_cons in Hall as [_ Hall]. rewrite (Ha Hall). lia.
Qed.

Lemma get_map_to_list suggest kr : kr ∈ map_to_list suggest → get suggest kr.1 = kr.2.
Proof.
  destruct kr as [k r]. intros Hin%elem_of_map_to_list. unfold get. simpl. by rewrite Hin.
Qed.

(** Sums and bounds over the keys in any iteration order are those of the
    verdict set. *)
Lemma sum_over_keys (ord : string → Z) suggest ks :
  ks ≡ₚ keys suggest →
  sumZ (λ k, ord (Severity (get suggest k))) ks = totalOrdinal ord suggest.
Proof.
  intros Hp. rewrite (sumZ_Permutation _ _ _ Hp). unfold keys, totalOrdinal.
  rewrite sumZ_fmap. apply sumZ_ext, Forall_forall. intros kr Hin. simpl.
  by rewrite (get_map_to_list _ _ Hin).
Qed.

Lemma nonneg_over_keys (ord : string → Z) suggest ks :
  ks ≡ₚ keys suggest →
  Forall (λ kr, 0 ≤ ord (Severity kr.2)) (map_to_list suggest) →
  Forall (λ k, 0 ≤ ord (Severity (get suggest k))) ks.
Proof.
  intros Hp Hall. rewrite Hp. unfold keys. apply Forall_fmap.
  apply Forall_forall. intros kr Hin. simpl.
  rewrite (get_map_to_list _ _ Hin). rewrite Forall_forall in Hall. by apply Hall.
Qed.

Lemma failed_Exists suggest ks :
  ks ≡ₚ keys suggest → failed suggest → Exists (λ k, isFailure suggest k = true) ks.
Proof.
  intros Hp (item & Hin & Hf). apply Exists_exists. exists item. split; [|done].
  rewrite Hp. by apply elem_of_keys.
Qed.

Lemma not_failed_Forall suggest ks :
  ks ≡ₚ keys suggest → ¬ failed suggest → Forall (λ k, isFailure suggest k = false) ks.
Proof.
  intros Hp Hnf. apply Forall_forall. intros k Hk.
  destruct (isFailure suggest k) eqn:Hf; [|done].
  exfalso. apply Hnf. exists k. split; [|done]. apply elem_of_keys. by rewrite <- Hp.
Qed.

Lemma failed_dec suggest : failed suggest ∨ ¬ failed suggest.
Proof.
  destruct (decide (Exists (λ k, isFailure suggest k = true) (keys suggest))) as [He|Hne].
  - left. apply Exists_exists in He as (k & Hk & Hf). exists k. split; [|done].
    by apply elem_of_keys.
  - right. intros Hf. apply Hne. by apply failed_Exists.
Qed.

(** The score of [formatJSON] on tame severities, whatever the order. *)
Lemma jsonScore_tame o suggest :
  valid_order o → tame jsonOrdinal suggest →
  (failed suggest → jsonScore o suggest = 0)
  ∧ (¬ failed suggest →
     jsonScore o suggest = Z.max 0 (100 - 5 * totalOrdinal jsonOrdinal suggest)).
Proof.
  intros Ho [Hpos Hfit]. unfold jsonScore.
  pose proof (sum_over_keys jsonOrdinal suggest _ (Ho LJsonScore suggest)) as Hsum.
  pose proof (nonneg_over_keys jsonOrdinal suggest _ (Ho LJsonScore suggest) Hpos) as Hnn.
  destruct (jsonScore_fold suggest (o LJsonScore suggest) 100) as (Hb & He & Ha).
  { done. } { rewrite Hsum. unfold Go.maxInt. lia. } { unfold Go.maxInt. lia. }
  split.
  - intros Hf. specialize (He (failed_Exists _ _ (Ho _ _) Hf)).
    destruct (Z.ltb_spec (fold_left (jsonScoreStep suggest) (o LJsonScore suggest) 100) 0); lia.
  - intros Hnf. rewrite (Ha (not_failed_Forall _ _ (Ho _ _) Hnf)), Hsum.
    destruct (Z.ltb_spec (100 - 5 * totalOrdinal jsonOrdinal suggest) 0); lia.
Qed.

Lemma jsonScore_nonneg o suggest : 0 ≤ jsonScore o suggest.
Proof.
  unfold jsonScore.
  destruct (Z.ltb_spec (fold_left (jsonScoreStep suggest) (o LJsonScore suggest) 100) 0); lia.
Qed.

End ScoreJSON.

Section ScoreMarkdown.
Context {C : Collaborators}.
Implicit Types (suggest : gmap string Rule) (ks : list string) (s : St).

Lemma deduct_unfold score severity :
  deduct score severity
  = match (Go.Atoi (Go.Trim severity "L")).2 with
    | None => Go.sub score (Go.mul (mdOrdinal severity) 5)
    | Some _ => 0
    end.
Proof.
  unfold deduct, mdOrdinal. by destruct (Go.Atoi (Go.Trim severity "L")) as [n [e|]].
Qed.

Lemma deduct_error score severity e :
  (Go.Atoi (Go.Trim severity "L")).2 = Some e → deduct score severity = 0.
Proof. intros He. by rewrite deduct_unfold, He. Qed.

(** The deduction loops on tame severities: no step wraps around, and the
    score never rises above where it started, or above [0]. *)
Lemma deduct_fold (sevs : list string) :
  ∀ score,
    Forall (λ sev, 0 ≤ mdOrdinal sev) sevs →
    5 * sumZ mdOrdinal sevs ≤ Go.maxInt + Z.min score 0 →
    score ≤ Go.maxInt →
    Z.min score 0 - 5 * sumZ mdOrdinal sevs ≤ fold_left deduct sevs score ≤ Z.max score 0.
Proof.
  induction sevs as [|sev sevs IH]; intros score Hpos Hfit Hmax; simpl.
  - unfold sumZ; simpl. lia.
  - apply Forall_cons in Hpos as [Hk Hpos].
    assert (Hs : 0 ≤ sumZ mdOrdinal sevs) by by apply sumZ_nonneg.
    change (sumZ mdOrdinal (sev :: sevs)) with (mdOrdinal sev + sumZ mdOrdinal sevs) in *.
    unfold Go.maxInt in *. rewrite deduct_unfold.
    destruct ((Go.Atoi (Go.Trim sev "L")).2).
    + specialize (IH 0 Hpos). lia.
    + assert (Hm : Go.mul (mdOrdinal sev) 5 = mdOrdinal sev * 5).
      { apply wrap_id. unfold Go.minInt, Go.maxInt. lia. }
      assert (Hsub : Go.sub score (Go.mul (mdOrdinal sev) 5) = score - mdOrdinal sev * 5).
      { rewrite Hm. apply wrap_id. unfold Go.minInt, Go.maxInt. lia. }
      rewrite Hsub. specialize (IH (score - mdOrdinal sev * 5) Hpos). lia.
Qed.

(** *** What each block does to the verdict set and to the score *)

Lemma mdHeader_suggest cfg sql format id fp s :
  st_suggest (mdHeader cfg sql format id fp s) = st_suggest s.
Proof. unfold mdHeader. by destruct (_ && _). Qed.

Lemma mdHeader_score cfg sql format id fp s :
  st_score (mdHeader cfg sql format id fp s) = st_score s.
Proof. unfold mdHeader. by destruct (_ && _). Qed.

Lemma mdMySQLScan_fold ks :
  NoDup ks →
  ∀ suggest acc,
    let r := fold_left mdMySQLScan ks (suggest, acc) in
    r.2 = acc ++ filter (λ k, isFailure suggest k = true) ks
    ∧ ∀ k, r.1 !! k
           = if decide (k ∈ ks ∧ Go.HasPrefix k "ERR" = true
                        ∧ Content (get suggest k) = "")
             then None else suggest !! k.
Proof.
  induction 1 as [|a ks Ha Hnd IH]; intros suggest acc; cbn [fold_left].
  { cbn [fst snd]. rewrite filter_nil, app_nil_r. split; [done|]. intros k.
    rewrite decide_False; [done|]. intros [?%elem_of_nil _]. done. }
  assert (Hget : ∀ k, k ∈ ks → get (delete a suggest) k = get suggest k).
  { intros k Hk. unfold get. rewrite lookup_delete_ne; [done|]. intros ->. done. }
  rewrite filter_cons. cbn [mdMySQLScan].
  destruct (Go.HasPrefix a "ERR") eqn:Hp.
  - destruct (String.eqb (Content (get suggest a)) "") eqn:He.
    + assert (Hfa : isFailure suggest a = false) by (unfold isFailure; by rewrite Hp, He).
      apply String.eqb_eq in He.
      rewrite decide_False by (rewrite Hfa; done).
      destruct (IH (delete a suggest) acc) as [H2 H1]. split.
      * rewrite H2. f_equal. apply filter_ext_elem. intros k Hk. unfold isFailure.
        by rewrite (Hget k Hk).
      * intros k. rewrite H1. destruct (decide (k = a)) as [->|Hne].
        -- rewrite lookup_delete_eq. rewrite (decide_True (P := a ∈ a :: ks ∧ _)).
           ++ by destruct (decide _).
           ++ split; [by left|done].
        -- rewrite lookup_delete_ne by done.
           destruct (decide (k ∈ ks ∧ _)) as [(Hk & H3 & H4)|Hn].
           ++ rewrite (Hget k Hk) in H4. rewrite decide_True; [done|].
              split; [by right|done].
           ++ rewrite decide_False; [done|]. intros (Hk & H3 & H4). apply Hn.
              apply elem_of_cons in Hk as [?|Hk]; [done|]. by rewrite (Hget k Hk).
    + assert (Hfa : isFailure suggest a = true) by (unfold isFailure; by rewrite Hp, He).
      apply String.eqb_neq in He.
      rewrite decide_True by done.
      destruct (IH suggest (acc ++ [a])) as [H2 H1]. split.
      * rewrite H2. by rewrite <- app_assoc.
      * intros k. rewrite H1.
        destruct (decide (k ∈ ks ∧ _)) as [(Hk & H3 & H4)|Hn].
        -- rewrite decide_True; [done|]. split; [by right|done].
        -- rewrite decide_False; [done|]. intros (Hk & H3 & H4). apply Hn.
           apply elem_of_cons in Hk as [->|Hk]; [done|done].
  - assert (Hfa : isFailure suggest a = false) by (unfold isFailure; by rewrite Hp).
    rewrite decide_False by (rewrite Hfa; done).
    destruct (IH suggest acc) as [H2 H1]. split; [done|].
    intros k. rewrite H1.
    destruct (decide (k ∈ ks ∧ _)) as [(Hk & H3 & H4)|Hn].
    + rewrite decide_True; [done|]. split; [by right|done].
    + rewrite decide_False; [done|]. intros (Hk & H3 & H4). apply Hn.
      apply elem_of_cons in Hk as [->|Hk]; [congruence|done].
Qed.

Lemma valid_order_NoDup o (l : Loop) suggest : valid_order o → NoDup (o l suggest).
Proof. intros Ho. rewrite (Ho l suggest). apply keys_NoDup. Qed.

Lemma valid_order_elem_of o (l : Loop) suggest k :
  valid_order o → k ∈ o l suggest ↔ is_Some (suggest !! k).
Proof. intros Ho. rewrite (Ho l suggest). apply elem_of_keys. Qed.

(** The MySQL block, whatever the order of the first loop. *)
Lemma mdMySQL_closed o s :
  valid_order o →
  mdMySQL o s
  = let m := st_suggest s in
    let sorted := sortedKeys (isFailure m) m in
    fold_left mdMySQLStep sorted
      (mkSt (dropQuiet m)
         (if (0 <? length sorted)%nat
          then st_buf s ++ ["## MySQL execute failed" +:+ Go.nl] else st_buf s)
         (st_score s)).
Proof.
  intros Ho. unfold mdMySQL.
  destruct (mdMySQLScan_fold (o LMdErr (st_suggest s)) (valid_order_NoDup o _ _ Ho)
              (st_suggest s) []) as [H2 H1].
  destruct (fold_left mdMySQLScan (o LMdErr (st_suggest s)) (st_suggest s, []))
    as [m' sorted]. simpl in H1, H2. subst sorted.
  assert (Hs : Go.SortStrings (filter (λ k, isFailure (st_suggest s) k = true)
                                 (o LMdErr (st_suggest s)))
               = sortedKeys (isFailure (st_suggest s)) (st_suggest s)).
  { apply SortStrings_proper. by rewrite (Ho LMdErr (st_suggest s)). }
  assert (Hm : m' = dropQuiet (st_suggest s)).
  { apply map_eq. intros k. rewrite H1. unfold dropQuiet. rewrite map_lookup_filter.
    unfold get. destruct (st_suggest s !! k) as [r|] eqn:Hr; simpl.
    - destruct (decide (k ∈ _ ∧ _)) as [(_ & H3 & H4)|Hn].
      + rewrite option_guard_False; [done|]. intros Hq. apply Hq. done.
      + rewrite option_guard_True; [done|]. intros [H3 H4]. apply Hn.
        split; [|done]. apply valid_order_elem_of; [done|]. by exists r.
    - by destruct (decide _). }
  simpl. rewrite Hs, Hm. done.
Qed.

Lemma mdMySQLStep_fold ks :
  ∀ s, let s' := fold_left mdMySQLStep ks s in
       st_suggest s' ⊆ st_suggest s
       ∧ st_score s' = match ks with [] => st_score s | _ => 0 end.
Proof.
  induction ks as [|k ks IH]; intros s; simpl; [done|].
  destruct (IH (mdMySQLStep s k)) as [Hsub Hsc]. split.
  - etrans; [exact Hsub|]. apply delete_subseteq.
  - rewrite Hsc. by destruct ks.
Qed.

Lemma fold_shrinks (step : St → string → St) ks :
  (∀ s k, st_suggest (step s k) ⊆ st_suggest s ∧ st_score (step s k) = st_score s) →
  ∀ s, st_suggest (fold_left step ks s) ⊆ st_suggest s
       ∧ st_score (fold_left step ks s) = st_score s.
Proof.
  intros Hstep. induction ks as [|k ks IH]; intros s; simpl; [done|].
  destruct (IH (step s k)) as [Hsub Hsc]. destruct (Hstep s k) as [Hsub' Hsc'].
  split; [by etrans|congruence].
Qed.

Lemma mdMySQL_shrinks o s :
  valid_order o →
  let s' := mdMySQL o s in
  st_suggest s' ⊆ st_suggest s
  ∧ (st_score s' = st_score s ∨ st_score s' = 0)
  ∧ (failed (st_suggest s) → st_score s' = 0).
Proof.
  intros Ho. simpl. rewrite mdMySQL_closed by done. simpl.
  match goal with |- context [fold_left mdMySQLStep ?l ?s0] =>
    destruct (mdMySQLStep_fold l s0) as [Hsub Hsc] end.
  simpl in Hsub, Hsc. split; [|split].
  - etrans; [exact Hsub|]. apply map_filter_subseteq.
  - rewrite Hsc. destruct (sortedKeys _ _); [by left|by right].
  - intros (item & Hin & Hf). rewrite Hsc.
    destruct (sortedKeys _ _) as [|? ?] eqn:Hnil; [|done].
    exfalso. assert (Hitem : item ∈ sortedKeys (isFailure (st_suggest s)) (st_suggest s)).
    { unfold sortedKeys. rewrite SortStrings_elem_of, list_elem_of_filter.
      split; [done|]. by apply elem_of_keys. }
    rewrite Hnil in Hitem. by apply elem_of_nil in Hitem.
Qed.

Lemma mdExplain_shrinks o s :
  st_suggest (mdExplain o s) ⊆ st_suggest s ∧ st_score (mdExplain o s) = st_score s.
Proof.
  unfold mdExplain.
  match goal with |- context [fold_left mdExplainStep ?l ?s0] =>
    destruct (fold_shrinks mdExplainStep l) with (s := s0) as [Hsub Hsc] end.
  { intros s' k. done. }
  rewrite Hsc. split.
  - etrans; [exact Hsub|]. unfold mdExplainTop. destruct (negb _); [|done].
    apply delete_subseteq.
  - unfold mdExplainTop. by destruct (negb _).
Qed.

Lemma mdDump_shrinks prefix title l o s :
  st_suggest (mdDump prefix title l o s) ⊆ st_suggest s
  ∧ st_score (mdDump prefix title l o s) = st_score s.
Proof.
  unfold mdDump.
  match goal with |- context [fold_left mdDumpStep ?l ?s0] =>
    destruct (fold_shrinks mdDumpStep l) with (s := s0) as [Hsub Hsc] end.
  { intros s' k. split; [apply delete_subseteq|done]. }
  rewrite Hsc. split.
  - etrans; [exact Hsub|]. by destruct (0 <? _)%nat.
  - by destruct (0 <? _)%nat.
Qed.

Lemma mdIndexStep_fold format ks :
  ∀ s, let s' := fold_left (mdIndexStep format) ks s in
       st_suggest s' = st_suggest s
       ∧ st_score s'
         = fold_left deduct ((λ k, Severity (get (st_suggest s) k)) <$> ks) (st_score s).
Proof.
  induction ks as [|k ks IH]; intros s; simpl; [done|].
  destruct (IH (mdIndexStep format s k)) as [Hsub Hsc]. split; [by rewrite Hsub|].
  rewrite Hsc. done.
Qed.

Lemma mdHeuristicStep_fold ks :
  ∀ s, let s' := fold_left mdHeuristicStep ks s in
       st_suggest s' = st_suggest s
       ∧ st_score s'
         = fold_left deduct
             ((λ k, Severity (get (st_suggest s) k))
                <$> filter (λ k, String.eqb k "OK" = false) ks)
             (st_score s).
Proof.
  induction ks as [|k ks IH]; intros s; [done|].
  cbn [fold_left]. destruct (IH (mdHeuristicStep s k)) as [Hsub Hsc].
  rewrite filter_cons. unfold mdHeuristicStep in *.
  destruct (String.eqb k "OK") eqn:Hk.
  - rewrite decide_False by done. simpl in *. split; [by rewrite Hsub|by rewrite Hsc].
  - rewrite decide_True by done. simpl in *. split; [by rewrite Hsub|by rewrite Hsc].
Qed.

Lemma tame_subseteq ord (m m' : gmap string Rule) : m ⊆ m' → tame ord m' → tame ord m.
Proof.
  intros Hsub [Hpos Hfit]. pose proof (map_to_list_submseteq _ _ Hsub) as Hl. split.
  - apply Forall_forall. intros kr Hin. rewrite Forall_forall in Hpos.
    apply Hpos. by eapply elem_of_submseteq.
  - unfold totalOrdinal in *.
    pose proof (sumZ_submseteq (λ kr, ord (Severity kr.2)) _ _ Hl Hpos). lia.
Qed.

Lemma sum_two_filters (g : string → Z) (P Q R : string → Prop)
    `{!∀ k, Decision (P k)} `{!∀ k, Decision (Q k)} `{!∀ k, Decision (R k)} ks :
  Forall (λ k, 0 ≤ g k) ks → (∀ k, P k → Q k → False) →
  sumZ g (filter P ks) + sumZ g (filter R (filter Q ks)) ≤ sumZ g ks.
Proof.
  intros Hpos Hdis. induction Hpos as [|k ks Hk Hpos IH]; [done|].
  rewrite !filter_cons.
  destruct (decide (P k)) as [Hp|Hp], (decide (Q k)) as [Hq|Hq];
    rewrite ?filter_cons; try destruct (decide (R k)); unfold sumZ in *; simpl; try lia.
  exfalso. eauto.
Qed.

(** The Index and the Heuristic block on a tame verdict set: the score
    does not rise, and does not fall by more than the deductions of the
    set. *)
Lemma deductions_bound o format s :
  valid_order o → tame mdOrdinal (st_suggest s) → 0 ≤ st_score s ≤ 100 →
  - 5 * totalOrdinal mdOrdinal (st_suggest s)
    ≤ st_score (mdHeuristic o (mdIndex o format s)) ≤ st_score s.
Proof.
  intros Ho [Hpos Hfit] Hs.
  set (m := st_suggest s) in *.
  set (g := λ k, mdOrdinal (Severity (get m k))).
  pose proof (nonneg_over_keys mdOrdinal m (keys m) (reflexivity _) Hpos) as Hnn.
  pose proof (sum_over_keys mdOrdinal m (keys m) (reflexivity _)) as Hsum.
  fold g in Hnn, Hsum.
  unfold mdHeuristic, mdIndex. rewrite !(sorted_collect o) by done.
  match goal with |- context [fold_left (mdIndexStep format) ?l ?s0] =>
    destruct (mdIndexStep_fold format l s0) as [Hm1 Hs1];
    set (s1 := fold_left (mdIndexStep format) l s0) in * end.
  rewrite Hm1. fold m.
  match goal with |- context [fold_left mdHeuristicStep ?l ?s0] =>
    destruct (mdHeuristicStep_fold l s0) as [Hm2 Hs2] end.
  rewrite Hs2, Hs1, Hm1. fold m.
  set (L1 := sortedKeys (λ item, Go.HasPrefix item "IDX") m).
  set (L2 := filter (λ k, String.eqb k "OK" = false) (sortedKeys isHeuristic m)).
  assert (H1 : sumZ mdOrdinal ((λ k, Severity (get m k)) <$> L1)
               = sumZ g (filter (λ k, Go.HasPrefix k "IDX" = true) (keys m))).
  { rewrite sumZ_fmap. apply sumZ_Permutation. apply SortStrings_Permutation. }
  assert (H2 : sumZ mdOrdinal ((λ k, Severity (get m k)) <$> L2)
               = sumZ g (filter (λ k, String.eqb k "OK" = false)
                           (filter (λ k, isHeuristic k = true) (keys m)))).
  { rewrite sumZ_fmap. apply sumZ_Permutation. unfold L2, sortedKeys.
    by rewrite SortStrings_Permutation. }
  assert (Hle : sumZ g (filter (λ k, Go.HasPrefix k "IDX" = true) (keys m))
                + sumZ g (filter (λ k, String.eqb k "OK" = false)
                            (filter (λ k, isHeuristic k = true) (keys m)))
                ≤ sumZ g (keys m)).
  { apply sum_two_filters; [done|]. intros k Hp Hq. unfold isHeuristic in Hq.
    rewrite Hp in Hq. by destruct (Go.HasPrefix k "EXP"). }
  assert (Hn1 : Forall (λ sev, 0 ≤ mdOrdinal sev) ((λ k, Severity (get m k)) <$> L1)).
  { apply Forall_fmap, Forall_forall. intros k Hk. rewrite Forall_forall in Hnn.
    apply Hnn. unfold L1, sortedKeys in Hk.
    by apply SortStrings_elem_of, list_elem_of_filter in Hk as [_ Hk]. }
  assert (Hn2 : Forall (λ sev, 0 ≤ mdOrdinal sev) ((λ k, Severity (get m k)) <$> L2)).
  { apply Forall_fmap, Forall_forall. intros k Hk. rewrite Forall_forall in Hnn.
    apply Hnn. unfold L2, sortedKeys in Hk.
    apply list_elem_of_filter in Hk as [_ Hk].
    by apply SortStrings_elem_of, list_elem_of_filter in Hk as [_ Hk]. }
  assert (Hp1 : 0 ≤ sumZ mdOrdinal ((λ k, Severity (get m k)) <$> L1))
    by by apply sumZ_nonneg.
  assert (Hp2 : 0 ≤ sumZ mdOrdinal ((λ k, Severity (get m k)) <$> L2))
    by by apply sumZ_nonneg.
  pose proof (deduct_fold _ (st_score s) Hn1) as Hd1.
  unfold Go.maxInt in *.
  specialize (Hd1 ltac:(lia) ltac:(lia)).
  pose proof (deduct_fold _ (fold_left deduct ((λ k, Severity (get m k)) <$> L1) (st_score s))
                Hn2) as Hd2.
  unfold Go.maxInt in *.
  specialize (Hd2 ltac:(lia) ltac:(lia)).
  lia.
Qed.

(** The state in which the markdown branch reaches the Index block. *)
Lemma markdown_before_index cfg o sql format id fp suggest :
  valid_order o →
  let s := mdTrace o (mdProfiling o (mdExplain o (mdMySQL o
             (mdHeader cfg sql format id fp (mkSt suggest [] 100))))) in
  st_suggest s ⊆ suggest
  ∧ (st_score s = 100 ∨ st_score s = 0)
  ∧ (failed suggest → st_score s = 0).
Proof.
  intros Ho. simpl.
  set (s0 := mdHeader cfg sql format id fp (mkSt suggest [] 100)).
  assert (Hm0 : st_suggest s0 = suggest) by apply mdHeader_suggest.
  assert (Hs0 : st_score s0 = 100) by apply mdHeader_score.
  destruct (mdMySQL_shrinks o s0 Ho) as (Hm1 & Hs1 & Hf1).
  destruct (mdExplain_shrinks o (mdMySQL o s0)) as [Hm2 Hs2].
  destruct (mdDump_shrinks "PRO" "## Profiling信息" LMdPro o (mdExplain o (mdMySQL o s0)))
    as [Hm3 Hs3].
  destruct (mdDump_shrinks "TRA" "## Trace信息" LMdTra o
              (mdProfiling o (mdExplain o (mdMySQL o s0)))) as [Hm4 Hs4].
  fold mdProfiling in Hm3, Hs3. fold mdTrace in Hm4, Hs4.
  rewrite Hm0 in *. rewrite Hs0 in *.
  split; [|split].
  - etrans; [exact Hm4|]. etrans; [exact Hm3|]. by etrans.
  - rewrite Hs4, Hs3, Hs2. done.
  - intros Hf. rewrite Hs4, Hs3, Hs2. by apply Hf1.
Qed.

Lemma markdownScore_tame cfg o sql format id fp suggest :
  valid_order o → tame mdOrdinal suggest →
  markdownScore cfg o sql format id fp suggest ≤ 100
  ∧ (failed suggest → markdownScore cfg o sql format id fp suggest ≤ 0).
Proof.
  intros Ho Ht. unfold markdownScore, formatMarkdown.
  destruct (markdown_before_index cfg o sql format id fp suggest Ho) as (Hm & Hs & Hf).
  set (s := mdTrace o _) in *.
  pose proof (tame_subseteq _ _ _ Hm Ht) as Ht'.
  split.
  - destruct Hs as [Hs|Hs].
    + pose proof (deductions_bound o format s Ho Ht' ltac:(lia)). lia.
    + pose proof (deductions_bound o format s Ho Ht' ltac:(lia)). lia.
  - intros Hfailed. specialize (Hf Hfailed).
    pose proof (deductions_bound o format s Ho Ht' ltac:(lia)). lia.
Qed.

End ScoreMarkdown.

(** *** Bounds and forcing of the score *)

Lemma tame_md_failedSet : tame mdOrdinal failedSet.
Proof. split; [by_evaluation|by vm_compute]. Qed.

Lemma tame_json_failedSet : tame jsonOrdinal failedSet.
Proof. split; [by_evaluation|by vm_compute]. Qed.

Lemma failed_failedSet : failed failedSet.
Proof. exists "ERR.001". split; [by_evaluation|by vm_compute]. Qed.

Section ScoreProperties.
Context {C : Collaborators}.

(** C1 (amended): when a verdict of the [ERR] namespace with a non-empty
    [Content] is in the set, no severity stands for a negative number and
    the deductions fit Go's [int], the [Score] field of the JSON document
    is [0], and the value the markdown branch leaves for the score line is
    at most [0]: the failure sets it to [0], and the Index and Heuristic
    blocks that follow still deduct from it. *)
Theorem score_forcing (cfg : Config) (o : MapOrder) (sql db format id fingerprint : string)
    (suggest : gmap string Rule) :
  valid_order o → failed suggest →
  tame jsonOrdinal suggest → tame mdOrdinal suggest →
  Score (formatJSONSuggest o sql db suggest) = 0
  ∧ markdownScore cfg o sql format id fingerprint suggest ≤ 0.
Proof.
  intros Ho Hf Hj Hm. split.
  - by apply jsonScore_tame.
  - by apply markdownScore_tame.
Qed.

(** C2 (amended): the [Score] field of the JSON document is never
    negative; when no severity stands for a negative number and the
    deductions fit Go's [int], it is at most [100], and so is the value the
    markdown branch leaves for the score line.  The markdown branch itself
    does not clamp that value at [0]. *)
Theorem score_bounds (cfg : Config) (o : MapOrder) (sql db format id fingerprint : string)
    (suggest : gmap string Rule) :
  valid_order o →
  0 ≤ Score (formatJSONSuggest o sql db suggest)
  ∧ (tame jsonOrdinal suggest → Score (formatJSONSuggest o sql db suggest) ≤ 100)
  ∧ (tame mdOrdinal suggest → markdownScore cfg o sql format id fingerprint suggest ≤ 100).
Proof.
  intros Ho. split; [apply jsonScore_nonneg|]. split.
  - intros Ht. simpl. destruct (jsonScore_tame o suggest Ho Ht) as [H1 H2].
    destruct (failed_dec suggest) as [Hf|Hf].
    + rewrite (H1 Hf). lia.
    + rewrite (H2 Hf). destruct Ht as [Hpos _].
      pose proof (sumZ_nonneg _ _ Hpos). unfold totalOrdinal. lia.
  - intros Ht. by apply markdownScore_tame.
Qed.

Lemma Atoi_syntax_zero s v : Go.Atoi s = (v, Some Go.ErrSyntax) → v = 0.
Proof.
  unfold Go.Atoi, Go.ParseInt. destruct s as [|c s]; [by intros [= <-]|].
  destruct (Go.ParseUint _) as [un [[]|]]; [by intros [= <-]| |];
    repeat case_match; by intros [=].
Qed.

Lemma jsonScoreStep_range suggest score item :
  Go.minInt ≤ jsonScoreStep suggest score item ≤ Go.maxInt.
Proof.
  rewrite jsonScoreStep_unfold. destruct (isFailure suggest item).
  - unfold Go.minInt, Go.maxInt. lia.
  - apply wrap_range.
Qed.

Lemma jsonScore_fold_range suggest ks score :
  Go.minInt ≤ score ≤ Go.maxInt →
  Go.minInt ≤ fold_left (jsonScoreStep suggest) ks score ≤ Go.maxInt.
Proof.
  revert score. induction ks as [|k ks IH]; intros score Hs; simpl; [done|].
  apply IH, jsonScoreStep_range.
Qed.

End ScoreProperties.

(** Counterexample to C1 as stated: a failed statement with two heuristic
    findings of severities [L1] and [L4]; the markdown branch leaves [-25]
    for the score line, not [0]. *)
Lemma score_forcing_markdown_negative :
  failed failedSet
  ∧ @markdownScore plain defaultConfig ascending "select 1" "markdown" "id" "fp" failedSet = -25
  ∧ @markdownScore plain defaultConfig descending "select 1" "markdown" "id" "fp" failedSet = -25.
Proof. split; [apply failed_failedSet|]. split; by vm_compute. Qed.

Lemma score_forcing_witness :
  Score (@formatJSONSuggest plain ascending "select 1" "" failedSet) = 0
  ∧ @markdownScore plain defaultConfig ascending "select 1" "markdown" "id" "fp" failedSet ≤ 0.
Proof.
  apply (@score_forcing plain defaultConfig ascending "select 1" "" "markdown" "id" "fp" failedSet).
  - apply ascending_valid.
  - apply failed_failedSet.
  - apply tame_json_failedSet.
  - apply tame_md_failedSet.
Defined.

(** Why C1 asks for tame severities: after the failure a negative
    severity raises the JSON score again, in one iteration order and not in
    the other. *)
Example score_forcing_negative_severity :
  failed negativeSet
  ∧ jsonScore descending negativeSet = 15
  ∧ jsonScore ascending negativeSet = 0.
Proof.
  split; [|split; by vm_compute].
  exists "ERR.001". split; [by_evaluation|by vm_compute].
Qed.

(** Counterexample to C2 as stated: three findings of severity [L8]; the
    markdown branch leaves [100 - 3 * 40 = -20] for the score line. *)
Lemma score_bounds_markdown_negative :
  @markdownScore plain defaultConfig ascending "select 1" "markdown" "id" "fp" severeSet = -20
  ∧ ¬ (0 ≤ @markdownScore plain defaultConfig ascending "select 1" "markdown" "id" "fp" severeSet
       ≤ 100).
Proof.
  assert (H : @markdownScore plain defaultConfig ascending "select 1" "markdown" "id" "fp"
                severeSet = -20) by by vm_compute.
  split; [done|]. rewrite H. lia.
Qed.

Lemma score_bounds_witness :
  0 ≤ Score (@formatJSONSuggest plain ascending "select 1" "" severeSet)
  ∧ (tame jsonOrdinal severeSet →
     Score (@formatJSONSuggest plain ascending "select 1" "" severeSet) ≤ 100)
  ∧ (tame mdOrdinal severeSet →
     @markdownScore plain defaultConfig ascending "select 1" "markdown" "id" "fp" severeSet ≤ 100).
Proof.
  apply (@score_bounds plain defaultConfig ascending "select 1" "" "markdown" "id" "fp" severeSet).
  apply ascending_valid.
Defined.

(** Why C2 asks for tame severities: a negative severity raises the JSON
    score above [100], and two severities out of the range of [int] wrap it
    around. *)
Example score_bounds_untamed :
  jsonScore ascending (verdicts [verdict "COL.001" "L-5" "select star"]) = 125
  ∧ jsonScore ascending
      (verdicts [verdict "COL.001" "L99999999999999999999" "select star";
                 verdict "COL.002" "L99999999999999999999" "not null"]) = 110.
Proof. split; by vm_compute. Qed.

(** ** Normalization and rendering *)

Section Render.
Context {C : Collaborators}.

(** The value of the package variable [HeuristicRules] at the call. *)
Variable heuristicRules : gmap string Rule.
Implicit Types (suggest m : gmap string Rule) (ks : list string) (s : St).

(** *** Merging *)

Lemma mergeStep_fold (src : gmap string Rule) ks :
  ∀ m k, fold_left (mergeStep src) ks m !! k
         = match src !! k with
           | Some r => if decide (k ∈ ks) then Some r else m !! k
           | None => m !! k
           end.
Proof.
  induction ks as [|a ks IH]; intros m k; cbn [fold_left].
  { destruct (src !! k); [|done]. rewrite decide_False; [done|]. apply not_elem_of_nil. }
  rewrite IH. unfold mergeStep.
  destruct (src !! k) as [r|] eqn:Hk.
  - destruct (decide (k ∈ ks)) as [Hin|Hin].
    + rewrite decide_True; [done|by right].
    + destruct (decide (k = a)) as [->|Hne].
      * rewrite Hk, lookup_insert_eq. rewrite decide_True; [done|by left].
      * rewrite decide_False by (intros [?|?]%elem_of_cons; done).
        destruct (src !! a); [by rewrite lookup_insert_ne|done].
  - destruct (src !! a) eqn:Ha; [|done].
    rewrite lookup_insert_ne; [done|]. intros ->. congruence.
Qed.

Lemma mergeStep_valid o (src m : gmap string Rule) :
  valid_order o → fold_left (mergeStep src) (o LMerge src) m = src ∪ m.
Proof.
  intros Ho. apply map_eq. intros k. rewrite mergeStep_fold, lookup_union.
  destruct (src !! k) as [r|] eqn:Hk.
  - rewrite decide_True; [by destruct (m !! k)|].
    apply valid_order_elem_of; [done|]. by exists r.
  - by destruct (m !! k).
Qed.

Lemma mergeSuggests_order o o' suggests :
  valid_order o → valid_order o' → mergeSuggests o suggests = mergeSuggests o' suggests.
Proof.
  intros Ho Ho'. unfold mergeSuggests. generalize (∅ : gmap string Rule).
  induction suggests as [|src suggests IH]; intros m; simpl; [done|].
  rewrite !mergeStep_valid by done. apply IH.
Qed.

(** *** The resolver loop *)

Lemma resolveStep_fold (rules : gmap string Rule) ks :
  ∀ m k, fold_left (resolveStep rules) ks m !! k
         = if decide (k ∈ ks ∧ subsumed SupersededBy rules k = true) then None else m !! k.
Proof.
  induction ks as [|a ks IH]; intros m k; cbn [fold_left].
  { rewrite decide_False; [done|]. intros [?%elem_of_nil _]. done. }
  rewrite IH. unfold resolveStep.
  destruct (decide (k ∈ ks ∧ _)) as [[Hin Hi]|Hn].
  - rewrite decide_True; [done|]. split; [by right|done].
  - destruct (decide (k = a)) as [->|Hne].
    + destruct (subsumed SupersededBy rules a) eqn:Hi.
      * rewrite lookup_delete_eq. rewrite decide_True; [done|]. split; [by left|done].
      * rewrite decide_False; [done|]. intros [_ ?]. done.
    + rewrite decide_False.
      * destruct (subsumed SupersededBy rules a); [by rewrite lookup_delete_ne|done].
      * intros [Hin Hi]. apply Hn. apply elem_of_cons in Hin as [?|?]; done.
Qed.

(** The resolver, whatever the order of its loop: an entry stays unless
    the set that was given subsumes it. *)
Lemma MergeConflictHeuristicRules_lookup o rules item :
  valid_order o →
  MergeConflictHeuristicRules o rules !! item
  = if subsumed SupersededBy rules item then None else rules !! item.
Proof.
  intros Ho. unfold MergeConflictHeuristicRules. rewrite resolveStep_fold.
  destruct (decide (_ ∧ _)) as [[_ Hs]|Hn]; [by rewrite Hs|].
  destruct (subsumed SupersededBy rules item) eqn:Hs; [|done].
  destruct (rules !! item) as [r|] eqn:Hr; [|done].
  exfalso. apply Hn. split; [|done]. apply valid_order_elem_of; [done|]. by exists r.
Qed.

Lemma MergeConflictHeuristicRules_subseteq o rules :
  valid_order o → MergeConflictHeuristicRules o rules ⊆ rules.
Proof.
  intros Ho. apply map_subseteq_spec. intros k r.
  rewrite MergeConflictHeuristicRules_lookup by done.
  by destruct (subsumed SupersededBy rules k).
Qed.

Lemma MergeConflictHeuristicRules_order o o' rules :
  valid_order o → valid_order o' →
  MergeConflictHeuristicRules o rules = MergeConflictHeuristicRules o' rules.
Proof.
  intros Ho Ho'. apply map_eq. intros k.
  by rewrite !MergeConflictHeuristicRules_lookup.
Qed.

Lemma resolved_order o o' suggests :
  valid_order o → valid_order o' → resolved o suggests = resolved o' suggests.
Proof.
  intros Ho Ho'. unfold resolved. rewrite (mergeSuggests_order o o') by done.
  by apply MergeConflictHeuristicRules_order.
Qed.

(** *** The ignore loop *)

Lemma ignoreStep_fold cfg ks :
  ∀ m k, fold_left (ignoreStep cfg) ks m !! k
         = if decide (k ∈ ks ∧ IsIgnoreRule cfg k = true) then None else m !! k.
Proof.
  induction ks as [|a ks IH]; intros m k; cbn [fold_left].
  { rewrite decide_False; [done|]. intros [?%elem_of_nil _]. done. }
  rewrite IH. unfold ignoreStep.
  destruct (decide (k ∈ ks ∧ _)) as [[Hin Hi]|Hn].
  - rewrite decide_True; [done|]. split; [by right|done].
  - destruct (decide (k = a)) as [->|Hne].
    + destruct (IsIgnoreRule cfg a) eqn:Hi.
      * rewrite lookup_delete_eq. rewrite decide_True; [done|]. split; [by left|done].
      * rewrite decide_False; [done|]. intros [_ ?]. done.
    + rewrite decide_False.
      * destruct (IsIgnoreRule cfg a); [by rewrite lookup_delete_ne|done].
      * intros [Hin Hi]. apply Hn. apply elem_of_cons in Hin as [?|?]; done.
Qed.

Lemma ignoreStep_valid cfg o m :
  valid_order o → fold_left (ignoreStep cfg) (o LIgnore m) m = notIgnored cfg m.
Proof.
  intros Ho. apply map_eq. intros k. rewrite ignoreStep_fold. unfold notIgnored.
  rewrite map_lookup_filter. destruct (m !! k) as [r|] eqn:Hk; simpl.
  - destruct (decide (_ ∧ _)) as [[_ Hi]|Hn].
    + rewrite option_guard_False; [done|]. rewrite Hi. done.
    + rewrite option_guard_True; [done|].
      destruct (IsIgnoreRule cfg k) eqn:Hi; [|done]. exfalso. apply Hn.
      split; [|done]. apply valid_order_elem_of; [done|]. by exists r.
  - by destruct (decide _).
Qed.

Lemma ignoreOK_fold (irs : list string) (b : bool) :
  fold_left (λ b r, if String.eqb "OK" r then true else b) irs b
  = b || bool_decide ("OK" ∈ irs).
Proof.
  revert b. induction irs as [|r irs IH]; intros b; cbn [fold_left].
  { rewrite bool_decide_eq_false_2; [by rewrite orb_false_r|]. apply not_elem_of_nil. }
  rewrite IH. destruct (String.eqb_spec "OK" r) as [<-|Hne].
  - rewrite (bool_decide_eq_true_2 ("OK" ∈ "OK" :: irs)) by by left.
    by rewrite orb_true_r.
  - f_equal. apply bool_decide_ext. rewrite elem_of_cons.
    split; [by right|intros [?|?]; done].
Qed.

(** Normalization, whatever the iteration order. *)
Lemma normalize_closed cfg o m :
  valid_order o →
  normalize cfg heuristicRules o m
  = let m1 := if (size m <? 1)%nat then {[ "OK" := get heuristicRules "OK" ]} else m in
    let m2 := if bool_decide ("OK" ∈ IgnoreRules cfg) || (1 <? size m1)%nat
              then delete "OK" m1 else m1 in
    notIgnored cfg m2.
Proof.
  intros Ho. unfold normalize. rewrite ignoreOK_fold. simpl.
  by rewrite ignoreStep_valid.
Qed.

Lemma normalize_order cfg o o' m :
  valid_order o → valid_order o' →
  normalize cfg heuristicRules o m = normalize cfg heuristicRules o' m.
Proof. intros Ho Ho'. by rewrite !normalize_closed. Qed.

Lemma rendered_order cfg o o' suggests :
  valid_order o → valid_order o' →
  rendered cfg heuristicRules o suggests = rendered cfg heuristicRules o' suggests.
Proof.
  intros Ho Ho'. unfold rendered.
  rewrite (resolved_order o o') by done. by apply normalize_order.
Qed.

Lemma catalog_OK cfg : get (InitHeuristicRules cfg) "OK" = okRule.
Proof. reflexivity. Qed.

(** *** The markdown branch *)

Lemma mdExplain_order o o' s : valid_order o → valid_order o' → mdExplain o s = mdExplain o' s.
Proof. intros Ho Ho'. unfold mdExplain. by rewrite !(sorted_collect _ LMdExp). Qed.

Lemma mdDump_order prefix title l o o' s :
  valid_order o → valid_order o' → mdDump prefix title l o s = mdDump prefix title l o' s.
Proof. intros Ho Ho'. unfold mdDump. by rewrite !(sorted_collect _ l). Qed.

Lemma mdIndex_order o o' format s :
  valid_order o → valid_order o' → mdIndex o format s = mdIndex o' format s.
Proof. intros Ho Ho'. unfold mdIndex. by rewrite !(sorted_collect _ LMdIdx). Qed.

Lemma mdHeuristic_order o o' s :
  valid_order o → valid_order o' → mdHeuristic o s = mdHeuristic o' s.
Proof. intros Ho Ho'. unfold mdHeuristic. by rewrite !(sorted_collect _ LMdHeu). Qed.

Lemma formatMarkdown_order cfg o o' sql format id fp s :
  valid_order o → valid_order o' →
  formatMarkdown cfg o sql format id fp s = formatMarkdown cfg o' sql format id fp s.
Proof.
  intros Ho Ho'. unfold formatMarkdown, mdProfiling, mdTrace.
  rewrite (mdMySQL_closed o), (mdMySQL_closed o') by done.
  rewrite (mdExplain_order o o') by done.
  rewrite (mdDump_order _ _ LMdPro o o') by done.
  rewrite (mdDump_order _ _ LMdTra o o') by done.
  rewrite (mdIndex_order o o') by done.
  by rewrite (mdHeuristic_order o o').
Qed.

(** *** The JSON branch *)

Lemma formatJSONSuggest_order o o' sql db suggest :
  valid_order o → valid_order o' → tame jsonOrdinal suggest →
  formatJSONSuggest o sql db suggest = formatJSONSuggest o' sql db suggest.
Proof.
  intros Ho Ho' Ht.
  destruct (formatJSONSuggest_arrays o sql db suggest Ho) as (He & Hi & Hh).
  destruct (formatJSONSuggest_arrays o' sql db suggest Ho') as (He' & Hi' & Hh').
  assert (Hs : jsonScore o suggest = jsonScore o' suggest).
  { destruct (jsonScore_tame o suggest Ho Ht) as [H1 H2].
    destruct (jsonScore_tame o' suggest Ho' Ht) as [H1' H2'].
    destruct (failed_dec suggest) as [Hf|Hf].
    - by rewrite H1, H1'.
    - by rewrite H2, H2'. }
  simpl in *. unfold formatJSONSuggest. rewrite He, Hi, Hh, He', Hi', Hh', Hs. done.
Qed.

(** *** The branches that print in iteration order *)

Lemma textStep_fold sql id ks :
  ∀ s, fold_left (textStep sql id) ks s
       = mkSt (st_suggest s) (st_buf s ++ (ks ≫= textRecord sql id (st_suggest s)))
           (st_score s).
Proof.
  induction ks as [|k ks IH]; intros s; simpl.
  - rewrite app_nil_r. by destruct s.
  - rewrite IH. simpl. by rewrite <- app_assoc.
Qed.

Lemma lintStep_suggest ks :
  ∀ s, st_suggest (fold_left lintStep ks s) = st_suggest s.
Proof.
  induction ks as [|k ks IH]; intros s; simpl; [done|].
  rewrite IH. unfold lintStep. by destruct (_ && _).
Qed.

Lemma defaultStep_suggest ks :
  ∀ s, st_suggest (fold_left defaultStep ks s) = st_suggest s.
Proof. induction ks as [|k ks IH]; intros s; simpl; [done|]. by rewrite IH. Qed.

(** The verdict set a branch returns is a part of the set it was given. *)
Lemma formatMarkdown_shrinks cfg o sql format id fp s :
  valid_order o → st_suggest (formatMarkdown cfg o sql format id fp s) ⊆ st_suggest s.
Proof.
  intros Ho. unfold formatMarkdown.
  set (s0 := mdHeader cfg sql format id fp s).
  assert (Hm0 : st_suggest s0 = st_suggest s) by apply mdHeader_suggest.
  destruct (mdMySQL_shrinks o s0 Ho) as (Hm1 & _ & _).
  destruct (mdExplain_shrinks o (mdMySQL o s0)) as [Hm2 _].
  destruct (mdDump_shrinks "PRO" "## Profiling信息" LMdPro o (mdExplain o (mdMySQL o s0)))
    as [Hm3 _].
  destruct (mdDump_shrinks "TRA" "## Trace信息" LMdTra o
              (mdProfiling o (mdExplain o (mdMySQL o s0)))) as [Hm4 _].
  fold mdProfiling in Hm3. fold mdTrace in Hm4.
  unfold mdHeuristic, mdIndex.
  match goal with |- context [fold_left mdHeuristicStep ?l ?s1] =>
    destruct (mdHeuristicStep_fold l s1) as [-> _] end.
  match goal with |- context [fold_left (mdIndexStep format) ?l ?s1] =>
    destruct (mdIndexStep_fold format l s1) as [-> _] end.
  rewrite <- Hm0. etrans; [exact Hm4|]. etrans; [exact Hm3|]. by etrans.
Qed.

Lemma render_shrinks cfg o sql db format suggests :
  valid_order o →
  st_suggest (render cfg heuristicRules o sql db format suggests)
    ⊆ rendered cfg heuristicRules o suggests.
Proof.
  intros Ho. unfold render. fold (resolved o suggests).
  fold (rendered cfg heuristicRules o suggests).
  destruct (String.eqb format "json"); [done|].
  destruct (String.eqb format "text").
  { unfold formatText. by rewrite textStep_fold. }
  destruct (String.eqb format "lint").
  { unfold formatLint. by rewrite lintStep_suggest. }
  destruct (isMarkdownFormat format).
  { by apply formatMarkdown_shrinks. }
  unfold formatDefault. by rewrite defaultStep_suggest.
Qed.

End Render.

Section RenderProperties.
Context {C : Collaborators}.

(** The value of the package variable [HeuristicRules] at the call. *)
Variable heuristicRules : gmap string Rule.
Implicit Types (suggest m : gmap string Rule) (ks : list string) (s : St).

Lemma lintStep_fold ks :
  ∀ s, fold_left lintStep ks s
       = mkSt (st_suggest s) (st_buf s ++ (ks ≫= lintRecord (st_suggest s))) (st_score s).
Proof.
  induction ks as [|k ks IH]; intros s; simpl.
  - rewrite app_nil_r. by destruct s.
  - rewrite IH. unfold lintStep, lintRecord. destruct (_ && _); simpl.
    + by rewrite <- app_assoc.
    + done.
Qed.

Lemma defaultStep_fold ks :
  ∀ s, fold_left defaultStep ks s
       = mkSt (st_suggest s) (st_buf s ++ (ks ≫= defaultRecord (st_suggest s))) (st_score s).
Proof.
  induction ks as [|k ks IH]; intros s; simpl.
  - rewrite app_nil_r. by destruct s.
  - rewrite IH. simpl. by rewrite <- app_assoc.
Qed.

Lemma isMarkdownFormat_not_other format :
  isMarkdownFormat format = true →
  String.eqb format "json" = false ∧ String.eqb format "text" = false
  ∧ String.eqb format "lint" = false.
Proof.
  unfold isMarkdownFormat. intros H.
  repeat (apply orb_prop in H as [H|H]); apply String.eqb_eq in H; by subst.
Qed.

Lemma render_markdown cfg o sql db format suggests :
  isMarkdownFormat format = true →
  render cfg heuristicRules o sql db format suggests
  = let fingerprint := if negb (String.eqb sql "") then query_Fingerprint sql else "" in
    let id := if negb (String.eqb sql "") then query_Id fingerprint else "" in
    formatMarkdown cfg o sql format id fingerprint (mkSt (rendered cfg heuristicRules o suggests) [] 100).
Proof.
  intros Hmd. destruct (isMarkdownFormat_not_other _ Hmd) as (Hj & Ht & Hl).
  unfold render. fold (resolved o suggests). fold (rendered cfg heuristicRules o suggests).
  by rewrite Hj, Ht, Hl, Hmd.
Qed.

(** The lines of the buffer at the end of the [switch format], for the
    formats that print in iteration order. *)
Lemma render_in_order cfg o sql db format suggests :
  let m := rendered cfg heuristicRules o suggests in
  let id := if negb (String.eqb sql "") then query_Id (query_Fingerprint sql) else "" in
  (format = "text" →
   render cfg heuristicRules o sql db format suggests
   = mkSt m (o LText m ≫= textRecord sql id m) 100)
  ∧ (format = "lint" →
     render cfg heuristicRules o sql db format suggests = mkSt m (o LLint m ≫= lintRecord m) 100)
  ∧ (String.eqb format "json" = false → String.eqb format "text" = false →
     String.eqb format "lint" = false → isMarkdownFormat format = false →
     render cfg heuristicRules o sql db format suggests
     = mkSt m (Go.Sprintln ["Query: "; sql] :: (o LDefault m ≫= defaultRecord m)) 100).
Proof.
  intros m id. unfold render. fold (resolved o suggests).
  fold (rendered cfg heuristicRules o suggests).
  fold m. split; [|split].
  - intros ->. simpl. unfold formatText. rewrite textStep_fold. simpl.
    subst id. by destruct (String.eqb sql "").
  - intros ->. simpl. unfold formatLint. by rewrite lintStep_fold.
  - intros -> -> -> ->. unfold formatDefault. by rewrite defaultStep_fold.
Qed.

(** C5 (amended): for a fixed input and format selector, two runs of
    [FormatSuggest] under any two iteration orders return the same verdict
    set.  The outputs of the markdown family are byte-identical, and so is
    the [json] output when no severity stands for a negative number and the
    deductions fit Go's [int].  The [text], [lint] and default outputs
    print the verdicts in the order of the map iteration: the two runs
    print the same lines, in an order that may differ. *)
Theorem render_determinism (cfg : Config) (o o' : MapOrder) (sql db format : string)
    (suggests : list (gmap string Rule)) :
  valid_order o → valid_order o' →
  (FormatSuggest cfg heuristicRules o sql db format suggests).1
  = (FormatSuggest cfg heuristicRules o' sql db format suggests).1
  ∧ (isMarkdownFormat format = true →
     FormatSuggest cfg heuristicRules o sql db format suggests
       = FormatSuggest cfg heuristicRules o' sql db format suggests)
  ∧ (format = "json" → tame jsonOrdinal (rendered cfg heuristicRules o suggests) →
     FormatSuggest cfg heuristicRules o sql db format suggests
       = FormatSuggest cfg heuristicRules o' sql db format suggests)
  ∧ (format ≠ "json" →
     st_buf (render cfg heuristicRules o sql db format suggests)
     ≡ₚ st_buf (render cfg heuristicRules o' sql db format suggests)).
Proof.
  intros Ho Ho'.
  pose proof (rendered_order heuristicRules cfg o o' suggests Ho Ho') as Hr.
  assert (Hmd : isMarkdownFormat format = true →
                render cfg heuristicRules o sql db format suggests
                  = render cfg heuristicRules o' sql db format suggests).
  { intros Hmd. rewrite !render_markdown by done. simpl. rewrite Hr.
    by apply formatMarkdown_order. }
  assert (Hjs : format = "json" → tame jsonOrdinal (rendered cfg heuristicRules o suggests) →
                render cfg heuristicRules o sql db format suggests
                  = render cfg heuristicRules o' sql db format suggests).
  { intros -> Ht. unfold render.
    fold (resolved o suggests) (resolved o' suggests).
    fold (rendered cfg heuristicRules o suggests) (rendered cfg heuristicRules o' suggests). simpl.
    rewrite <- Hr. unfold formatJSON. by rewrite (formatJSONSuggest_order o o'). }
  destruct (render_in_order cfg o sql db format suggests) as (Ht & Hl & Hd).
  destruct (render_in_order cfg o' sql db format suggests) as (Ht' & Hl' & Hd').
  simpl in *. rewrite <- Hr in Ht', Hl', Hd'.
  assert (Hbuf : format ≠ "json" →
                 st_suggest (render cfg heuristicRules o sql db format suggests)
                 = st_suggest (render cfg heuristicRules o' sql db format suggests)
                 ∧ st_buf (render cfg heuristicRules o sql db format suggests)
                   ≡ₚ st_buf (render cfg heuristicRules o' sql db format suggests)).
  { intros Hnj.
    destruct (decide (format = "text")) as [Heq|Hnt].
    { rewrite (Ht Heq), (Ht' Heq). simpl. split; [done|].
      by rewrite (Ho LText _), (Ho' LText _). }
    destruct (decide (format = "lint")) as [Heq|Hnl].
    { rewrite (Hl Heq), (Hl' Heq). simpl. split; [done|].
      by rewrite (Ho LLint _), (Ho' LLint _). }
    assert (isMarkdownFormat format = true ∨ isMarkdownFormat format = false) as [Hm|Hm]
      by (destruct (isMarkdownFormat format); auto).
    { by rewrite Hmd. }
    apply String.eqb_neq in Hnj, Hnt, Hnl.
    rewrite (Hd Hnj Hnt Hnl Hm), (Hd' Hnj Hnt Hnl Hm). simpl. split; [done|].
    by rewrite (Ho LDefault _), (Ho' LDefault _). }
  unfold FormatSuggest. simpl. split; [|split; [|split]].
  - destruct (String.eqb_spec format "json") as [->|Hnj].
    + unfold render.
      fold (resolved o suggests) (resolved o' suggests).
      fold (rendered cfg heuristicRules o suggests) (rendered cfg heuristicRules o' suggests). by simpl.
    + by apply Hbuf.
  - intros Hm. by rewrite Hmd.
  - intros Hj Htame. by rewrite Hjs.
  - intros Hnj. by apply Hbuf.
Qed.

(** C9: the conflict resolver is idempotent, and its result does not
    depend on the order in which its loop visits the verdict set.  Under
    any two legal iteration orders: resolving a resolved set changes
    nothing; two runs on one set end with the same set; an entry stays
    exactly when the given set does not subsume it; and the resolved set
    [FormatSuggest] works on is the same. *)
Theorem resolve_idempotent_order_independent (o o' : MapOrder) (rules : gmap string Rule)
    (suggests : list (gmap string Rule)) :
  valid_order o → valid_order o' →
  MergeConflictHeuristicRules o' (MergeConflictHeuristicRules o rules)
  = MergeConflictHeuristicRules o rules
  ∧ MergeConflictHeuristicRules o rules = MergeConflictHeuristicRules o' rules
  ∧ (∀ item, MergeConflictHeuristicRules o rules !! item
             = if subsumed SupersededBy rules item then None else rules !! item)
  ∧ resolved o suggests = resolved o' suggests.
Proof.
  intros Ho Ho'. split; [|split; [|split]].
  - apply map_eq. intros item.
    rewrite (MergeConflictHeuristicRules_lookup o' (MergeConflictHeuristicRules o rules))
      by done.
    destruct (subsumed SupersededBy (MergeConflictHeuristicRules o rules) item) eqn:Hs;
      [|done].
    apply (subsumed_mono _ _ rules) in Hs; [|by apply MergeConflictHeuristicRules_subseteq].
    rewrite MergeConflictHeuristicRules_lookup by done. by rewrite Hs.
  - by apply MergeConflictHeuristicRules_order.
  - intros item. by apply MergeConflictHeuristicRules_lookup.
  - by apply resolved_order.
Qed.

(** The markdown blocks on a verdict set that holds an [OK] entry only. *)
Lemma markdown_OK_only o format (r : Rule) (buf : list string) :
  valid_order o →
  mdHeuristic o (mdIndex o format (mdTrace o (mdProfiling o (mdExplain o (mdMySQL o
    (mkSt {[ "OK" := r ]} buf 100))))))
  = mkSt {[ "OK" := r ]} (buf ++ [Go.Sprintln ["##"; Summary r]]) 100.
Proof.
  intros Ho.
  rewrite (mdMySQL_closed o) by done.
  rewrite (mdExplain_order o ascending) by (done || apply ascending_valid).
  unfold mdProfiling, mdTrace.
  rewrite (mdDump_order _ _ LMdPro o ascending) by (done || apply ascending_valid).
  rewrite (mdDump_order _ _ LMdTra o ascending) by (done || apply ascending_valid).
  rewrite (mdIndex_order o ascending) by (done || apply ascending_valid).
  rewrite (mdHeuristic_order o ascending) by (done || apply ascending_valid).
  vm_compute. reflexivity.
Qed.

(** The JSON document of a verdict set that holds an [OK] entry only. *)
Lemma json_OK_only o sql db (r : Rule) :
  valid_order o →
  let j := formatJSONSuggest o sql db {[ "OK" := r ]} in
  Explain j = [] ∧ IndexRules j = [] ∧ HeuristicRules j = [r]
  ∧ (jsonOrdinal (Severity r) = 0 → Score j = 100).
Proof.
  intros Ho j.
  destruct (formatJSONSuggest_arrays o sql db {[ "OK" := r ]} Ho) as (He & Hi & Hh).
  fold j in He, Hi, Hh. rewrite He, Hi, Hh.
  split; [by vm_compute|]. split; [by vm_compute|]. split; [by vm_compute|].
  intros Hz. subst j. simpl. unfold jsonScore.
  assert (Hk : o LJsonScore {[ "OK" := r ]} = ["OK"]).
  { apply Permutation_singleton_r. rewrite (Ho LJsonScore _). unfold keys.
    by rewrite map_to_list_singleton. }
  rewrite Hk. cbn [fold_left]. rewrite jsonScoreStep_unfold.
  assert (Hf : isFailure {[ "OK" := r ]} "OK" = false) by done.
  rewrite Hf. unfold get. rewrite lookup_singleton_eq. simpl. rewrite Hz. by vm_compute.
Qed.

(** The lines of the header: none without a query text, two with one. *)
Lemma markdownHeader_lines cfg sql format :
  (sql = "" → markdownHeader cfg sql format = [])
  ∧ (sql ≠ "" →
     ∃ fence, markdownHeader cfg sql format
              = ["# Query: " +:+ query_Id (query_Fingerprint sql) +:+ Go.nl; fence]).
Proof.
  unfold markdownHeader. split.
  - by intros ->.
  - intros Hne. apply String.eqb_neq in Hne. rewrite Hne. unfold mdHeader. rewrite Hne.
    cbn [st_suggest]. rewrite map_size_singleton. simpl. by eexists.
Qed.

Lemma normalize_lookup cfg o m k :
  valid_order o → k ≠ "OK" →
  normalize cfg heuristicRules o m !! k = if IsIgnoreRule cfg k then None else m !! k.
Proof.
  intros Ho Hk. rewrite normalize_closed by done. simpl. unfold notIgnored.
  rewrite map_lookup_filter.
  set (m1 := if (size m <? 1)%nat then _ else m).
  assert (H1 : m1 !! k = m !! k).
  { subst m1. destruct (Nat.ltb_spec (size m) 1) as [Hs|Hs]; [|done].
    rewrite lookup_singleton_ne by done.
    assert (m = ∅) as -> by (apply map_size_empty_iff; lia). done. }
  assert (H2 : (if bool_decide ("OK" ∈ IgnoreRules cfg) || (1 <? size m1)%nat
                then delete "OK" m1 else m1) !! k = m !! k).
  { destruct (_ || _); [by rewrite lookup_delete_ne|done]. }
  rewrite H2. destruct (m !! k) as [r|]; simpl.
  - destruct (IsIgnoreRule cfg k) eqn:Hi.
    + by rewrite option_guard_False.
    + by rewrite option_guard_True.
  - by destruct (IsIgnoreRule cfg k).
Qed.

Lemma normalize_drops_OK cfg o m :
  valid_order o → (1 < size m)%nat ∨ "OK" ∈ IgnoreRules cfg →
  normalize cfg heuristicRules o m !! "OK" = None.
Proof.
  intros Ho Hcase. rewrite normalize_closed by done. simpl. unfold notIgnored.
  rewrite map_lookup_filter.
  set (m1 := if (size m <? 1)%nat then _ else m).
  assert (Hcond : bool_decide ("OK" ∈ IgnoreRules cfg) || (1 <? size m1)%nat = true).
  { destruct Hcase as [Hs|Hin].
    - subst m1. destruct (Nat.ltb_spec (size m) 1); [lia|].
      apply orb_true_intro. right. by apply Nat.ltb_lt.
    - by rewrite bool_decide_eq_true_2. }
  rewrite Hcond. by rewrite lookup_delete_eq.
Qed.

Lemma normalize_empty cfg o :
  valid_order o → "OK" ∉ IgnoreRules cfg → IsIgnoreRule cfg "OK" = false →
  normalize cfg heuristicRules o ∅ = {[ "OK" := get heuristicRules "OK" ]}.
Proof.
  intros Ho Hnin Hi. rewrite normalize_closed by done. simpl.
  rewrite map_size_empty. simpl. rewrite map_size_singleton. simpl.
  rewrite bool_decide_eq_false_2 by done. simpl. unfold notIgnored.
  apply map_filter_id. intros k r [<- <-]%lookup_singleton_Some. done.
Qed.

(** C6 (amended): the empty merged set becomes the set of one entry under
    the key [OK], the value the package variable [HeuristicRules] holds
    under that key at the call, provided the ignore configuration neither
    lists [OK] nor suppresses it; when the set has more than one entry, or
    the ignore configuration lists [OK], the [OK] entry is removed, and the
    verdict set [FormatSuggest] returns for any format has no [OK] entry;
    every other entry stays unless the ignore gate suppresses it.  For the
    empty set with [OK] not suppressed, the document [FormatSuggest]
    returns in the markdown family is: under the report types [markdown]
    and [html], the empty string when the query text is empty, and
    otherwise the title, the score line of [100], the query block and the
    [OK] section; under any other report type the header and the [OK]
    section without a score line.  With the format [json] and a report
    type other than these two, the document is the JSON document whose
    arrays hold the [OK] entry alone, with [Score] [100] when its severity
    stands for the ordinal [0].  The catalog [InitHeuristicRules] builds
    holds the sentinel under [OK]; a catalog without the key gives the zero
    [Rule]. *)
Theorem ok_normalization (cfg : Config) (o : MapOrder) (sql db format : string)
    (suggests : list (gmap string Rule)) :
  valid_order o →
  let merged := resolved o suggests in
  let ok := get heuristicRules "OK" in
  let section := Go.Sprintln ["##"; Summary ok] in
  let document := (FormatSuggest cfg heuristicRules o sql db format suggests).2 in
  (merged = ∅ → "OK" ∉ IgnoreRules cfg → IsIgnoreRule cfg "OK" = false →
     rendered cfg heuristicRules o suggests = {[ "OK" := ok ]})
  ∧ ((1 < size merged)%nat ∨ "OK" ∈ IgnoreRules cfg →
     rendered cfg heuristicRules o suggests !! "OK" = None
     ∧ (FormatSuggest cfg heuristicRules o sql db format suggests).1 !! "OK" = None)
  ∧ (∀ k, k ≠ "OK" →
       rendered cfg heuristicRules o suggests !! k
       = if IsIgnoreRule cfg k then None else merged !! k)
  ∧ (merged = ∅ → "OK" ∉ IgnoreRules cfg → IsIgnoreRule cfg "OK" = false →
     isMarkdownFormat format = true →
     (FormatSuggest cfg heuristicRules o sql db format suggests).1 = {[ "OK" := ok ]}
     ∧ st_score (render cfg heuristicRules o sql db format suggests) = 100
     ∧ (ReportType cfg = "markdown" ∨ ReportType cfg = "html" → sql = "" → document = "")
     ∧ (ReportType cfg = "markdown" ∨ ReportType cfg = "html" → sql ≠ "" →
        ∃ title fence,
          markdownHeader cfg sql format = [title; fence]
          ∧ title = "# Query: " +:+ query_Id (query_Fingerprint sql) +:+ Go.nl
          ∧ document = title +:+ Go.nl +:+ common_Score 100 +:+ Go.nl +:+ Go.nl
                         +:+ fence +:+ Go.nl +:+ section)
     ∧ (ReportType cfg ≠ "markdown" → ReportType cfg ≠ "html" →
        document = Go.Join (markdownHeader cfg sql format ++ [section]) Go.nl))
  ∧ (merged = ∅ → "OK" ∉ IgnoreRules cfg → IsIgnoreRule cfg "OK" = false →
     format = "json" → ReportType cfg ≠ "markdown" → ReportType cfg ≠ "html" →
     let j := formatJSONSuggest o sql db {[ "OK" := ok ]} in
     (FormatSuggest cfg heuristicRules o sql db format suggests).1 = {[ "OK" := ok ]}
     ∧ document = formatJSON o sql db {[ "OK" := ok ]}
     ∧ Explain j = [] ∧ IndexRules j = [] ∧ HeuristicRules j = [ok]
     ∧ (jsonOrdinal (Severity ok) = 0 → Score j = 100))
  ∧ (∀ cfg', get (InitHeuristicRules cfg') "OK" = okRule
             ∧ get (delete "OK" (InitHeuristicRules cfg')) "OK" = zeroRule).
Proof.
  intros Ho merged ok section document.
  assert (H1 : merged = ∅ → "OK" ∉ IgnoreRules cfg → IsIgnoreRule cfg "OK" = false →
               rendered cfg heuristicRules o suggests = {[ "OK" := ok ]}).
  { intros He Hnin Hi. unfold rendered. fold merged. rewrite He. by apply normalize_empty. }
  split; [done|]. split; [|split; [|split; [|split]]].
  - intros Hcase.
    assert (Hn : rendered cfg heuristicRules o suggests !! "OK" = None)
      by by apply normalize_drops_OK.
    split; [done|]. unfold FormatSuggest. simpl.
    eapply lookup_weaken_None; [exact Hn|]. by apply render_shrinks.
  - intros k Hk. by apply normalize_lookup.
  - intros He Hnin Hi Hmd.
    assert (Hr : render cfg heuristicRules o sql db format suggests
                 = mkSt {[ "OK" := ok ]} (markdownHeader cfg sql format ++ [section]) 100).
    { rewrite render_markdown by done. simpl.
      rewrite (H1 He Hnin Hi). unfold formatMarkdown, markdownHeader.
      destruct (String.eqb sql "") eqn:Hsql; simpl.
      - unfold mdHeader. rewrite Hsql. simpl. by rewrite markdown_OK_only.
      - unfold mdHeader. rewrite Hsql. cbn [st_suggest]. rewrite !map_size_singleton.
        change (negb false && (0 <? 1)%nat) with true. unfold append.
        cbn [st_suggest st_buf st_score app]. by rewrite markdown_OK_only. }
    subst document. unfold FormatSuggest. rewrite Hr. simpl.
    destruct (markdownHeader_lines cfg sql format) as [Hnone Htwo].
    split; [done|]. split; [done|]. unfold scoreLine. simpl. split; [|split].
    + intros Hrt ->. rewrite (Hnone eq_refl). simpl.
      by destruct Hrt as [->| ->].
    + intros Hrt Hne. destruct (Htwo Hne) as [fence Hh]. rewrite Hh.
      eexists _, fence. split; [done|]. split; [done|].
      by destruct Hrt as [->| ->].
    + intros Hm Hh. apply String.eqb_neq in Hm, Hh. by rewrite Hm, Hh.
  - intros He Hnin Hi -> Hm Hh j.
    split; [|split; [|by apply json_OK_only]].
    + unfold FormatSuggest, render.
      fold (resolved o suggests). fold (rendered cfg heuristicRules o suggests).
      by rewrite (H1 He Hnin Hi).
    + subst document. unfold FormatSuggest, render, scoreLine.
      fold (resolved o suggests). fold (rendered cfg heuristicRules o suggests).
      rewrite (H1 He Hnin Hi). simpl.
      apply String.eqb_neq in Hm, Hh. rewrite Hm, Hh. simpl.
      unfold Go.Join. simpl. done.
  - intros cfg'. split; reflexivity.
Qed.

End RenderProperties.

(** Counterexample to C5 as stated: the text and the lint output of one
    verdict set under two iteration orders. *)
Lemma text_output_depends_on_order :
  @FormatSuggest plain defaultConfig loaded ascending "select 1" "" "text" [failedSet]
  ≠ @FormatSuggest plain defaultConfig loaded descending "select 1" "" "text" [failedSet]
  ∧ @FormatSuggest plain defaultConfig loaded ascending "select 1" "" "lint" [failedSet]
    ≠ @FormatSuggest plain defaultConfig loaded descending "select 1" "" "lint" [failedSet].
Proof.
  split; intros H; apply (f_equal snd) in H; vm_compute in H; discriminate H.
Qed.

Lemma render_determinism_witness :
  (@FormatSuggest plain defaultConfig loaded ascending "select 1" "" "markdown" [failedSet]).1
  = (@FormatSuggest plain defaultConfig loaded descending "select 1" "" "markdown" [failedSet]).1
  ∧ (isMarkdownFormat "markdown" = true →
     @FormatSuggest plain defaultConfig loaded ascending "select 1" "" "markdown" [failedSet]
     = @FormatSuggest plain defaultConfig loaded descending "select 1" "" "markdown" [failedSet])
  ∧ ("markdown" = "json" →
     tame jsonOrdinal (@rendered plain defaultConfig loaded ascending [failedSet]) →
     @FormatSuggest plain defaultConfig loaded ascending "select 1" "" "markdown" [failedSet]
     = @FormatSuggest plain defaultConfig loaded descending "select 1" "" "markdown" [failedSet])
  ∧ ("markdown" ≠ "json" →
     st_buf (@render plain defaultConfig loaded ascending "select 1" "" "markdown" [failedSet])
     ≡ₚ st_buf (@render plain defaultConfig loaded
         descending "select 1" "" "markdown" [failedSet])).
Proof.
  apply (@render_determinism plain loaded defaultConfig ascending
      descending "select 1" "" "markdown"
           [failedSet]).
  - apply ascending_valid.
  - apply descending_valid.
Defined.

(** Counterexample to C6 as stated: with [OK] listed in the ignore
    configuration, or suppressed by the pattern [O*], rendering the empty set
    yields no [OK] section: the set that is rendered is empty and so is the
    document.  Without a query text the set holds the sentinel, and the
    document is empty all the same: the buffer holds the [OK] section alone,
    and the score line asks for more than one element. *)
Lemma empty_set_without_OK_section :
  @FormatSuggest plain (ignoring ["OK"]) (InitHeuristicRules (ignoring ["OK"])) ascending
    "select 1" "" "markdown" [] = (∅, "")
  ∧ @FormatSuggest plain (ignoring ["O*"]) (InitHeuristicRules (ignoring ["O*"])) ascending
      "select 1" "" "markdown" [] = (∅, "")
  ∧ @FormatSuggest plain defaultConfig loaded ascending
      "" "" "markdown" [] = ({[ "OK" := okRule ]}, "").
Proof. split; [|split]; by vm_compute. Qed.

Lemma ok_normalization_witness :
  let heuristicRules := loaded in
  let merged := @resolved plain ascending [] in
  let ok := get heuristicRules "OK" in
  let section := Go.Sprintln ["##"; Summary ok] in
  let document :=
    (@FormatSuggest plain defaultConfig heuristicRules ascending "select 1" "" "markdown" []).2 in
  (merged = ∅ → "OK" ∉ IgnoreRules defaultConfig → IsIgnoreRule defaultConfig "OK" = false →
     @rendered plain defaultConfig heuristicRules ascending [] = {[ "OK" := ok ]})
  ∧ ((1 < size merged)%nat ∨ "OK" ∈ IgnoreRules defaultConfig →
     @rendered plain defaultConfig heuristicRules ascending [] !! "OK" = None
     ∧ (@FormatSuggest plain defaultConfig heuristicRules ascending "select 1" "" "markdown"
          []).1 !! "OK" = None)
  ∧ (∀ k, k ≠ "OK" →
       @rendered plain defaultConfig heuristicRules ascending [] !! k
       = if IsIgnoreRule defaultConfig k then None else merged !! k)
  ∧ (merged = ∅ → "OK" ∉ IgnoreRules defaultConfig → IsIgnoreRule defaultConfig "OK" = false →
     isMarkdownFormat "markdown" = true →
     (@FormatSuggest plain defaultConfig heuristicRules ascending "select 1" "" "markdown" []).1
     = {[ "OK" := ok ]}
     ∧ st_score (@render plain defaultConfig heuristicRules ascending "select 1" "" "markdown" [])
       = 100
     ∧ (ReportType defaultConfig = "markdown" ∨ ReportType defaultConfig = "html" →
        "select 1" = "" → document = "")
     ∧ (ReportType defaultConfig = "markdown" ∨ ReportType defaultConfig = "html" →
        "select 1" ≠ "" →
        ∃ title fence,
          @markdownHeader plain defaultConfig "select 1" "markdown" = [title; fence]
          ∧ title = "# Query: " +:+ @query_Id plain (@query_Fingerprint plain "select 1") +:+ Go.nl
          ∧ document = title +:+ Go.nl +:+ @common_Score plain 100 +:+ Go.nl +:+ Go.nl
                         +:+ fence +:+ Go.nl +:+ section)
     ∧ (ReportType defaultConfig ≠ "markdown" → ReportType defaultConfig ≠ "html" →
        document
        = Go.Join (@markdownHeader plain defaultConfig "select 1" "markdown" ++ [section]) Go.nl))
  ∧ (merged = ∅ → "OK" ∉ IgnoreRules defaultConfig → IsIgnoreRule defaultConfig "OK" = false →
     "markdown" = "json" →
     ReportType defaultConfig ≠ "markdown" → ReportType defaultConfig ≠ "html" →
     let j := @formatJSONSuggest plain ascending "select 1" "" {[ "OK" := ok ]} in
     (@FormatSuggest plain defaultConfig heuristicRules ascending "select 1" "" "markdown" []).1
     = {[ "OK" := ok ]}
     ∧ document = @formatJSON plain ascending "select 1" "" {[ "OK" := ok ]}
     ∧ Explain j = [] ∧ IndexRules j = [] ∧ HeuristicRules j = [ok]
     ∧ (jsonOrdinal (Severity ok) = 0 → Score j = 100))
  ∧ (∀ cfg', get (InitHeuristicRules cfg') "OK" = okRule
             ∧ get (delete "OK" (InitHeuristicRules cfg')) "OK" = zeroRule).
Proof.
  apply (@ok_normalization plain loaded defaultConfig ascending
           "select 1" "" "markdown" []).
  apply ascending_valid.
Defined.

(** The document of the empty set, in the markdown family under the report
    type [markdown] and as it is handed to the JSON library; and the same
    call after [ListHeuristicRules] has been called on the catalog and has
    deleted the sentinel from it: the entry that is inserted is the zero
    [Rule], and the heading of its section is empty. *)
Example empty_set_documents :
  (@FormatSuggest plain defaultConfig loaded ascending
     "select 1" "" "markdown" []).2
  = "# Query: select 1" +:+ Go.nl +:+ Go.nl +:+ "100" +:+ Go.nl +:+ Go.nl
      +:+ "```sql" +:+ Go.nl +:+ "select 1" +:+ Go.nl +:+ "```" +:+ Go.nl +:+ Go.nl
      +:+ "## OK" +:+ Go.nl
  ∧ Score (@formatJSONSuggest plain ascending "select 1" "" {[ "OK" := okRule ]}) = 100
  ∧ (let listed := @ListHeuristicRules plain sortedKey (λ _, None) defaultConfig [loaded] in
     @FormatSuggest plain defaultConfig (hd ∅ listed.1) ascending "select 1" "" "markdown" [])
    = ({[ "OK" := zeroRule ]},
       "# Query: select 1" +:+ Go.nl +:+ Go.nl +:+ "100" +:+ Go.nl +:+ Go.nl
         +:+ "```sql" +:+ Go.nl +:+ "select 1" +:+ Go.nl +:+ "```" +:+ Go.nl +:+ Go.nl
         +:+ "## " +:+ Go.nl).
Proof. split; [|split]; by vm_compute. Qed.

Lemma resolve_idempotent_order_independent_witness :
  @MergeConflictHeuristicRules chained descending
    (@MergeConflictHeuristicRules chained ascending chainSet)
  = @MergeConflictHeuristicRules chained ascending chainSet
  ∧ @MergeConflictHeuristicRules chained ascending chainSet
    = @MergeConflictHeuristicRules chained descending chainSet
  ∧ (∀ item, @MergeConflictHeuristicRules chained ascending chainSet !! item
             = if subsumed (@SupersededBy chained) chainSet item
               then None else chainSet !! item)
  ∧ @resolved chained ascending [chainSet] = @resolved chained descending [chainSet].
Proof.
  apply (@resolve_idempotent_order_independent chained ascending descending chainSet [chainSet]).
  - apply ascending_valid.
  - apply descending_valid.
Defined.

(** The resolver on a side table of two chained entries, in two iteration
    orders: [SUB.001] goes because [SUB.004] is present, [ARG.005] goes
    because [SUB.001] was present in the set that was given. *)
Example resolve_chain :
  keys (@MergeConflictHeuristicRules chained ascending chainSet) ≡ₚ ["SUB.004"; "COL.001"]
  ∧ keys (@MergeConflictHeuristicRules chained descending chainSet) ≡ₚ ["SUB.004"; "COL.001"].
Proof. split; apply (bool_decide_unpack _); by vm_compute. Qed.

(** * Further properties *)

(** ** Rule filter *)

Lemma prefix_app (p s t : string) :
  String.prefix p s = true → String.prefix p (s +:+ t) = true.
Proof.
  revert s. induction p as [|a p IH]; intros s; [intros _; by destruct (s +:+ t)|].
  destruct s as [|b s]; simpl; [done|].
  destruct (ascii_dec a b); [apply IH|done].
Qed.

(** X1: an item that extends a suppressed item is suppressed too: the
    ignore gate is a prefix test. *)
Theorem ignore_closed_under_extension (cfg : Config) (item suffix : string) :
  IsIgnoreRule cfg item = true → IsIgnoreRule cfg (item +:+ suffix) = true.
Proof.
  unfold IsIgnoreRule. rewrite !IsIgnoreRuleLoop_spec.
  intros (ir & Hin & Hne & Hok & Hp). exists ir. split; [done|].
  split; [done|]. split; [done|]. by apply prefix_app.
Qed.

Lemma ignore_closed_under_extension_witness :
  IsIgnoreRule (ignoring ["COL*"]) ("COL" +:+ ".001") = true.
Proof. apply ignore_closed_under_extension. reflexivity. Defined.

(** X2: the ignore gate depends on the patterns only through the set of
    their trimmed forms: a configuration that holds, up to stars, every
    pattern of another one suppresses every item the other suppresses,
    whatever the order and the repetitions of the patterns. *)
Theorem ignore_depends_on_patterns (cfg cfg' : Config) (item : string) :
  (∀ ir, ir ∈ IgnoreRules cfg →
         ∃ ir', ir' ∈ IgnoreRules cfg' ∧ Go.Trim ir' "*" = Go.Trim ir "*") →
  IsIgnoreRule cfg item = true → IsIgnoreRule cfg' item = true.
Proof.
  intros Hsub. unfold IsIgnoreRule. rewrite !IsIgnoreRuleLoop_spec.
  intros (ir & Hin & Hs). destruct (Hsub ir Hin) as (ir' & Hin' & Heq).
  exists ir'. split; [done|]. unfold suppresses in *. by rewrite Heq.
Qed.

Lemma ignore_depends_on_patterns_witness :
  IsIgnoreRule (ignoring ["ARG"; "**COL"]) "COL.001" = true.
Proof.
  apply (ignore_depends_on_patterns (ignoring ["COL*"; "COL*"])); [|reflexivity].
  intros ir Hin. exists "**COL". split; [by_evaluation|].
  simpl in Hin. apply elem_of_cons in Hin as [->|Hin]; [reflexivity|].
  apply elem_of_cons in Hin as [->|Hin]; [reflexivity|]. by apply elem_of_nil in Hin.
Defined.

Section BlackListMore.
Context {C : Collaborators}.

(** X3: the block-list gate does not depend on the order of the
    patterns, although the loop stops at the first hit: a list that holds
    every pattern of another one blocks every text the other blocks. *)
Theorem InBlackList_monotone (cfg cfg' : Config) (sql : string) :
  (∀ r, r ∈ BlackList cfg → r ∈ BlackList cfg') →
  InBlackList cfg sql = true → InBlackList cfg' sql = true.
Proof.
  intros Hsub. unfold InBlackList. rewrite !InBlackListLoop_spec.
  intros (r & Hin & Hr). exists r. split; [by apply Hsub|done].
Qed.

(** X4: the empty text is blocked by the empty pattern only, as a
    literal: no expression has a non-empty match in it.  The hypothesis is
    what a regular-expression library guarantees, a match being a part of
    the text. *)
Theorem InBlackList_empty_text (cfg : Config) :
  (∀ re t, regexp_Find re "" = Some t → t = "") →
  InBlackList cfg "" = true ↔ "" ∈ BlackList cfg.
Proof.
  intros Hlib. unfold InBlackList. rewrite InBlackListLoop_spec. split.
  - intros (r & Hin & [<-|(re & t & _ & Hf & Hne)]); [done|].
    by apply Hlib in Hf.
  - intros Hin. exists "". split; [done|by left].
Qed.

End BlackListMore.

Lemma InBlackList_monotone_witness :
  @InBlackList plain (blocking ["select 2"; "select 1"]) "select 1" = true.
Proof.
  apply (@InBlackList_monotone plain (blocking ["select 1"])); [|reflexivity].
  intros r Hin. simpl in *. apply elem_of_cons in Hin as [->|Hin]; [by_evaluation|].
  by apply elem_of_nil in Hin.
Defined.

Lemma InBlackList_empty_text_witness :
  @InBlackList plain (blocking ["select 1"; ""]) "" = true ↔ "" ∈ ["select 1"; ""].
Proof.
  apply (@InBlackList_empty_text plain (blocking ["select 1"; ""])).
  intros re t Hf. simpl in Hf. by injection Hf as <-.
Defined.

(** ** The verdict set FormatSuggest works on *)

Section SetsMore.
Context {C : Collaborators}.

(** The value of the package variable [HeuristicRules] at the call. *)
Variable heuristicRules : gmap string Rule.
Implicit Types (suggest m : gmap string Rule) (ks : list string) (s : St).

Lemma mergeSuggests_lookup o suggests k :
  valid_order o →
  ∀ m, fold_left (λ suggest src, fold_left (mergeStep src) (o LMerge src) suggest)
         suggests m !! k
       = fold_left (λ acc src, match src !! k with Some r => Some r | None => acc end)
           suggests (m !! k).
Proof.
  intros Ho. induction suggests as [|src suggests IH]; intros m; simpl; [done|].
  rewrite IH, mergeStep_valid by done. f_equal.
  rewrite lookup_union. by destruct (src !! k), (m !! k).
Qed.

(** X5: when two of the maps passed to [FormatSuggest] hold a verdict
    for the same item, the later map wins, whatever the iteration order;
    nothing is merged from no maps. *)
Theorem merge_last_wins (o : MapOrder) (suggests : list (gmap string Rule)) (k : string) :
  valid_order o →
  mergeSuggests o suggests !! k = lastWins suggests k
  ∧ (∀ src, mergeSuggests o (suggests ++ [src]) = src ∪ mergeSuggests o suggests).
Proof.
  intros Ho. split.
  - unfold mergeSuggests, lastWins. by rewrite mergeSuggests_lookup.
  - intros src. unfold mergeSuggests. rewrite fold_left_app. simpl.
    by rewrite mergeStep_valid.
Qed.

Lemma size_le_1_singleton m k r : (size m ≤ 1)%nat → m !! k = Some r → m = {[ k := r ]}.
Proof.
  intros Hs Hk. pose proof (map_size_delete_Some k m (ex_intro _ r Hk)) as Hd.
  assert (delete k m = ∅) as He by (apply map_size_empty_iff; lia).
  rewrite <- (insert_delete_id m k r Hk), He. done.
Qed.

Lemma rendered_lookup_Some cfg o suggests k r :
  valid_order o → rendered cfg heuristicRules o suggests !! k = Some r →
  IsIgnoreRule cfg k = false
  ∧ (resolved o suggests !! k = Some r
     ∨ (k = "OK" ∧ r = get heuristicRules "OK" ∧ resolved o suggests = ∅)).
Proof.
  intros Ho. unfold rendered. rewrite normalize_closed by done. simpl.
  unfold notIgnored. rewrite map_lookup_filter_Some. simpl. intros [Hk Hi].
  split; [done|].
  assert (Hm1 : (if (size (resolved o suggests) <? 1)%nat
                 then {[ "OK" := get heuristicRules "OK" ]}
                 else resolved o suggests) !! k = Some r).
  { destruct (_ || _); [|done]. by apply lookup_delete_Some in Hk as [_ Hk]. }
  destruct (Nat.ltb_spec (size (resolved o suggests)) 1) as [Hs|Hs]; [|by left].
  right. apply lookup_singleton_Some in Hm1 as [<- <-].
  split; [done|]. split; [done|]. apply map_size_empty_iff. lia.
Qed.

(** X6: every verdict [FormatSuggest] returns passes the ignore gate and
    is a verdict of the merged and resolved input, or it is the entry
    inserted under [OK] because that input was empty: the value the package
    variable [HeuristicRules] holds under [OK] at the call, which is the
    zero [Rule] when it holds none. *)
Theorem returned_set_sound (cfg : Config) (o : MapOrder) (sql db format : string)
    (suggests : list (gmap string Rule)) (k : string) (r : Rule) :
  valid_order o →
  (FormatSuggest cfg heuristicRules o sql db format suggests).1 !! k = Some r →
  IsIgnoreRule cfg k = false
  ∧ (resolved o suggests !! k = Some r
     ∨ (k = "OK" ∧ r = get heuristicRules "OK" ∧ resolved o suggests = ∅)).
Proof.
  intros Ho Hk. unfold FormatSuggest in Hk. simpl in Hk.
  eapply rendered_lookup_Some; [done|].
  eapply lookup_weaken; [exact Hk|]. by apply render_shrinks.
Qed.

Lemma rendered_OK_alone cfg o suggests r :
  valid_order o → rendered cfg heuristicRules o suggests !! "OK" = Some r →
  rendered cfg heuristicRules o suggests = {[ "OK" := r ]}.
Proof.
  intros Ho. unfold rendered. rewrite normalize_closed by done. simpl.
  set (m1 := if (size (resolved o suggests) <? 1)%nat then _ else _).
  unfold notIgnored. intros Hok.
  pose proof Hok as Hok'. apply map_lookup_filter_Some in Hok' as [Hk Hi]. simpl in Hi.
  destruct (bool_decide ("OK" ∈ IgnoreRules cfg) || (1 <? size m1)%nat) eqn:Hc.
  { by rewrite lookup_delete_eq in Hk. }
  apply orb_false_elim in Hc as [_ Hs]. apply Nat.ltb_ge in Hs.
  rewrite (size_le_1_singleton m1 "OK" r Hs Hk).
  apply map_filter_id. intros k' r' [<- <-]%lookup_singleton_Some. done.
Qed.

(** X7: the sentinel is never returned beside another verdict: a
    returned verdict set that holds [OK] holds nothing else. *)
Theorem returned_OK_alone (cfg : Config) (o : MapOrder) (sql db format : string)
    (suggests : list (gmap string Rule)) (r : Rule) :
  valid_order o →
  (FormatSuggest cfg heuristicRules o sql db format suggests).1 !! "OK" = Some r →
  (FormatSuggest cfg heuristicRules o sql db format suggests).1 = {[ "OK" := r ]}.
Proof.
  intros Ho Hk. unfold FormatSuggest in *. simpl in *.
  pose proof (render_shrinks heuristicRules cfg o sql db format suggests Ho) as Hsub.
  pose proof (lookup_weaken _ _ _ _ Hk Hsub) as Hr.
  rewrite (rendered_OK_alone cfg o suggests r Ho Hr) in Hsub.
  apply map_eq. intros k. destruct (decide (k = "OK")) as [->|Hne].
  - by rewrite Hk, lookup_singleton_eq.
  - rewrite lookup_singleton_ne by done.
    eapply lookup_weaken_None; [|exact Hsub]. by rewrite lookup_singleton_ne.
Qed.

Lemma rendered_all_suppressed cfg o suggests :
  valid_order o →
  (∃ k, k ≠ "OK" ∧ is_Some (resolved o suggests !! k)) →
  (∀ k, k ≠ "OK" → is_Some (resolved o suggests !! k) → IsIgnoreRule cfg k = true) →
  rendered cfg heuristicRules o suggests = ∅.
Proof.
  intros Ho (k0 & Hk0 & Hin0) Hall. apply map_empty. intros k.
  destruct (rendered cfg heuristicRules o suggests !! k) as [r|] eqn:Hk; [|done]. exfalso.
  destruct (decide (k = "OK")) as [->|Hne].
  - pose proof (rendered_OK_alone cfg o suggests r Ho Hk) as Heq.
    destruct (rendered_lookup_Some cfg o suggests "OK" r Ho Hk) as [_ [Hr|(_ & _ & He)]].
    + assert (Hn : rendered cfg heuristicRules o suggests !! "OK" = None).
      { apply normalize_drops_OK; [done|]. left.
        destruct Hin0 as [r0 Hr0].
        assert (Hsub : {[ "OK" := r; k0 := r0 ]} ⊆ resolved o suggests).
        { apply insert_subseteq_l; [done|]. by apply map_singleton_subseteq_l. }
        apply map_subseteq_size in Hsub.
        rewrite map_size_insert_None in Hsub by by rewrite lookup_singleton_ne.
        rewrite map_size_singleton in Hsub. lia. }
      congruence.
    + rewrite He in Hin0. rewrite lookup_empty in Hin0. by destruct Hin0.
  - destruct (rendered_lookup_Some cfg o suggests k r Ho Hk) as [Hi [Hr|(? & _)]]; [|done].
    rewrite (Hall k Hne) in Hi; [done|by exists r].
Qed.

Lemma formatMarkdown_empty cfg o sql format id fp :
  valid_order o →
  formatMarkdown cfg o sql format id fp (mkSt ∅ [] 100) = mkSt ∅ [] 100.
Proof.
  intros Ho. rewrite (formatMarkdown_order cfg o ascending) by (done || apply ascending_valid).
  unfold formatMarkdown, mdHeader. simpl st_suggest. rewrite map_size_empty.
  rewrite andb_false_r. vm_compute. reflexivity.
Qed.

(** X8: when the input holds findings and the ignore gate suppresses
    every one of them, nothing is rendered: the returned set is empty, no
    [OK] is synthesized for it, and the document of the markdown family is
    the empty string. *)
Theorem all_suppressed_renders_nothing (cfg : Config) (o : MapOrder) (sql db format : string)
    (suggests : list (gmap string Rule)) :
  valid_order o →
  (∃ k, k ≠ "OK" ∧ is_Some (resolved o suggests !! k)) →
  (∀ k, k ≠ "OK" → is_Some (resolved o suggests !! k) → IsIgnoreRule cfg k = true) →
  (FormatSuggest cfg heuristicRules o sql db format suggests).1 = ∅
  ∧ (isMarkdownFormat format = true →
     FormatSuggest cfg heuristicRules o sql db format suggests = (∅, "")).
Proof.
  intros Ho Hex Hall.
  pose proof (rendered_all_suppressed cfg o suggests Ho Hex Hall) as Hr.
  split.
  - unfold FormatSuggest. simpl. apply map_empty. intros k.
    eapply lookup_weaken_None; [|by apply render_shrinks]. by rewrite Hr.
  - intros Hmd. unfold FormatSuggest. rewrite render_markdown by done. simpl.
    rewrite Hr, formatMarkdown_empty by done. unfold scoreLine. simpl.
    by destruct (_ || _).
Qed.

(** X9: with the format [json] the document is the output of
    [formatJSON] on the normalized set, but only when the configured report
    type is neither [markdown] nor [html]: under these two the score-line
    step finds a buffer of one element and returns the empty string. *)
Theorem json_format_and_report_type (cfg : Config) (o : MapOrder) (sql db : string)
    (suggests : list (gmap string Rule)) :
  (FormatSuggest cfg heuristicRules o sql db "json" suggests).2
  = if String.eqb (ReportType cfg) "markdown" || String.eqb (ReportType cfg) "html"
    then "" else formatJSON o sql db (rendered cfg heuristicRules o suggests).
Proof.
  unfold FormatSuggest, render, scoreLine. simpl.
  fold (resolved o suggests). fold (rendered cfg heuristicRules o suggests).
  by destruct (_ || _).
Qed.

End SetsMore.

Lemma merge_last_wins_witness :
  mergeSuggests ascending [twoFindings; failedSet] !! "ARG.005"
  = lastWins [twoFindings; failedSet] "ARG.005"
  ∧ (∀ s, mergeSuggests ascending ([twoFindings; failedSet] ++ [s])
          = s ∪ mergeSuggests ascending [twoFindings; failedSet]).
Proof. apply merge_last_wins, ascending_valid. Defined.

Lemma returned_set_sound_witness :
  IsIgnoreRule defaultConfig "OK" = false
  ∧ (@resolved plain ascending [] !! "OK" = Some zeroRule
     ∨ ("OK" = "OK"
        ∧ zeroRule = get (delete "OK" loaded) "OK"
        ∧ @resolved plain ascending [] = ∅)).
Proof.
  apply (@returned_set_sound plain (delete "OK" loaded)
           defaultConfig ascending "select 1" "" "text" []).
  - apply ascending_valid.
  - by vm_compute.
Defined.

Lemma returned_OK_alone_witness :
  (@FormatSuggest plain defaultConfig loaded ascending "select 1" "" "markdown" []).1
  = {[ "OK" := okRule ]}.
Proof.
  apply (@returned_OK_alone plain loaded defaultConfig ascending "select 1" "" "markdown" []).
  - apply ascending_valid.
  - by vm_compute.
Defined.

Lemma all_suppressed_renders_nothing_witness :
  (@FormatSuggest plain (ignoring ["ARG*"; "KEY"])
      (InitHeuristicRules (ignoring ["ARG*"; "KEY"])) ascending "select 1" "" "markdown"
     [twoFindings]).1 = ∅
  ∧ (isMarkdownFormat "markdown" = true →
     @FormatSuggest plain (ignoring ["ARG*"; "KEY"])
         (InitHeuristicRules (ignoring ["ARG*"; "KEY"])) ascending "select 1" "" "markdown"
       [twoFindings] = (∅, "")).
Proof.
  apply (@all_suppressed_renders_nothing plain
      (InitHeuristicRules (ignoring ["ARG*"; "KEY"])) (ignoring ["ARG*"; "KEY"]) ascending
           "select 1" "" "markdown" [twoFindings]).
  - apply ascending_valid.
  - exists "ARG.005". split; [done|]. by_evaluation.
  - intros k Hne Hk.
    assert (Hin : k ∈ keys (@resolved plain ascending [twoFindings]))
      by by apply elem_of_keys.
    vm_compute in Hin.
    apply elem_of_cons in Hin as [->|Hin]; [reflexivity|].
    apply elem_of_cons in Hin as [->|Hin]; [reflexivity|]. by apply elem_of_nil in Hin.
Defined.

(** ** The markdown branch *)

Lemma prefix_same_length (p q k : string) :
  String.length p = String.length q →
  String.prefix p k = true → String.prefix q k = true → p = q.
Proof.
  revert q k. induction p as [|a p IH]; intros [|b q] k Hlen; simpl in Hlen; try done.
  destruct k as [|c k]; simpl; [done|].
  destruct (ascii_dec a c) as [->|]; [|done]. destruct (ascii_dec b c) as [->|]; [|done].
  intros Hp Hq. f_equal. eapply IH; [|done..]. by injection Hlen.
Qed.

(** The namespaces of three letters exclude one another. *)
Lemma namespace_exclusive (p q k : string) :
  String.length p = String.length q → p ≠ q →
  Go.HasPrefix k p = true → Go.HasPrefix k q = false.
Proof.
  intros Hlen Hne Hp. destruct (Go.HasPrefix k q) eqn:Hq; [|done].
  exfalso. apply Hne. by eapply prefix_same_length.
Qed.

Lemma keys_filter (P : string → Rule → Prop) `{!∀ k r, Decision (P k r)}
    (m : gmap string Rule) :
  keys (filter (λ kr, P kr.1 kr.2) m) ≡ₚ filter (λ k, P k (get m k)) (keys m).
Proof.
  apply NoDup_Permutation; [apply keys_NoDup|apply NoDup_filter, keys_NoDup|].
  intros k. rewrite list_elem_of_filter, !elem_of_keys. unfold get. split.
  - intros [r [Hr Hq]%map_lookup_filter_Some]. rewrite Hr. simpl in *. split; [done|by exists r].
  - intros [Hq [r Hr]]. rewrite Hr in Hq. exists r. by apply map_lookup_filter_Some.
Qed.

Section MarkdownMore.
Context {C : Collaborators}.

(** The value of the package variable [HeuristicRules] at the call. *)
Variable heuristicRules : gmap string Rule.
Implicit Types (suggest m : gmap string Rule) (ks : list string) (s : St).

(** *** The verdict set the branch leaves *)

Lemma mdMySQLStep_lookup ks :
  ∀ s k, st_suggest (fold_left mdMySQLStep ks s) !! k
         = if decide (k ∈ ks) then None else st_suggest s !! k.
Proof.
  induction ks as [|a ks IH]; intros s k; cbn [fold_left].
  { rewrite decide_False; [done|apply not_elem_of_nil]. }
  rewrite IH. simpl. destruct (decide (k ∈ ks)) as [Hin|Hin].
  - rewrite decide_True; [done|by right].
  - destruct (decide (k = a)) as [->|Hne].
    + rewrite lookup_delete_eq. rewrite decide_True; [done|by left].
    + rewrite lookup_delete_ne by done. rewrite decide_False; [done|].
      intros [?|?]%elem_of_cons; done.
Qed.

Lemma mdDumpStep_lookup ks :
  ∀ s k, st_suggest (fold_left mdDumpStep ks s) !! k
         = if decide (k ∈ ks) then None else st_suggest s !! k.
Proof.
  induction ks as [|a ks IH]; intros s k; cbn [fold_left].
  { rewrite decide_False; [done|apply not_elem_of_nil]. }
  rewrite IH. simpl. destruct (decide (k ∈ ks)) as [Hin|Hin].
  - rewrite decide_True; [done|by right].
  - destruct (decide (k = a)) as [->|Hne].
    + rewrite lookup_delete_eq. rewrite decide_True; [done|by left].
    + rewrite lookup_delete_ne by done. rewrite decide_False; [done|].
      intros [?|?]%elem_of_cons; done.
Qed.

Lemma elem_of_sortedKeys (p : string → bool) m k :
  k ∈ sortedKeys p m ↔ p k = true ∧ is_Some (m !! k).
Proof. unfold sortedKeys. by rewrite SortStrings_elem_of, list_elem_of_filter, elem_of_keys. Qed.

Lemma mdMySQL_lookup o s k :
  valid_order o →
  st_suggest (mdMySQL o s) !! k
  = if Go.HasPrefix k "ERR" then None else st_suggest s !! k.
Proof.
  intros Ho. rewrite mdMySQL_closed by done. cbv zeta.
  rewrite mdMySQLStep_lookup. simpl st_suggest. unfold dropQuiet.
  rewrite map_lookup_filter.
  destruct (decide (k ∈ sortedKeys _ _)) as [Hin|Hin].
  - apply elem_of_sortedKeys in Hin as [[Hp _]%andb_prop _]. by rewrite Hp.
  - destruct (st_suggest s !! k) as [r|] eqn:Hr; simpl; [|by destruct (Go.HasPrefix k "ERR")].
    destruct (Go.HasPrefix k "ERR") eqn:Hp.
    + rewrite option_guard_False; [done|]. intros Hq. apply Hq. split; [done|].
      destruct (String.eqb_spec (Content r) "") as [He|He]; [done|].
      exfalso. apply Hin. apply elem_of_sortedKeys. split; [|by exists r].
      unfold isFailure, get. rewrite Hp, Hr. simpl. by apply negb_true_iff, String.eqb_neq.
    + rewrite option_guard_True; [done|]. intros [? _]. done.
Qed.

Lemma mdExplainStep_suggest ks :
  ∀ s, st_suggest (fold_left mdExplainStep ks s) = st_suggest s.
Proof. induction ks as [|a ks IH]; intros s; simpl; [done|]. by rewrite IH. Qed.

Lemma mdExplain_lookup o s k :
  st_suggest (mdExplain o s) !! k
  = if String.eqb k "EXP.000" && negb (String.eqb (Item (get (st_suggest s) k)) "")
    then None else st_suggest s !! k.
Proof.
  unfold mdExplain. rewrite mdExplainStep_suggest.
  unfold mdExplainTop. destruct (String.eqb_spec k "EXP.000") as [->|Hne]; simpl.
  - destruct (negb _); simpl; [by rewrite lookup_delete_eq|done].
  - destruct (negb _); simpl; [by rewrite lookup_delete_ne|done].
Qed.

Lemma mdDump_lookup prefix title l o s k :
  valid_order o →
  st_suggest (mdDump prefix title l o s) !! k
  = if Go.HasPrefix k prefix then None else st_suggest s !! k.
Proof.
  intros Ho. unfold mdDump. rewrite (sorted_collect o) by done.
  rewrite mdDumpStep_lookup.
  assert (Hs : ∀ b : bool, st_suggest (if b then append s [title +:+ Go.nl] else s)
                           = st_suggest s) by by intros [].
  rewrite Hs. destruct (decide (k ∈ sortedKeys _ _)) as [Hin|Hin].
  - apply elem_of_sortedKeys in Hin as [Hp _]. by rewrite Hp.
  - destruct (Go.HasPrefix k prefix) eqn:Hp; [|done].
    destruct (st_suggest s !! k) as [r|] eqn:Hr; [|done].
    exfalso. apply Hin, elem_of_sortedKeys. split; [done|by exists r].
Qed.

Lemma formatMarkdown_suggest cfg o sql format id fp s :
  valid_order o →
  st_suggest (formatMarkdown cfg o sql format id fp s) = afterMarkdown (st_suggest s).
Proof.
  intros Ho. unfold formatMarkdown, mdHeuristic, mdIndex.
  match goal with |- context [fold_left mdHeuristicStep ?l ?s1] =>
    destruct (mdHeuristicStep_fold l s1) as [-> _] end.
  match goal with |- context [fold_left (mdIndexStep format) ?l ?s1] =>
    destruct (mdIndexStep_fold format l s1) as [-> _] end.
  apply map_eq. intros k. unfold mdTrace, mdProfiling.
  rewrite !mdDump_lookup, mdExplain_lookup by done.
  unfold get. rewrite !mdMySQL_lookup, mdHeader_suggest by done.
  unfold afterMarkdown, consumed. rewrite map_lookup_filter.
  destruct (st_suggest s !! k) as [r|] eqn:Hr; simpl.
  2: { by repeat case_match. }
  destruct (Go.HasPrefix k "ERR") eqn:He; simpl.
  { by repeat case_match. }
  destruct (Go.HasPrefix k "PRO") eqn:Hp; simpl.
  { by destruct (Go.HasPrefix k "TRA"). }
  destruct (Go.HasPrefix k "TRA") eqn:Ht; simpl; [done|].
  destruct (String.eqb k "EXP.000" && negb (String.eqb (Item r) "")) eqn:Hx.
  - by rewrite option_guard_False.
  - by rewrite option_guard_True.
Qed.

Lemma render_suggest_other cfg o sql db format suggests :
  isMarkdownFormat format = false →
  st_suggest (render cfg heuristicRules o sql db format suggests)
    = rendered cfg heuristicRules o suggests.
Proof.
  intros Hmd. unfold render. fold (resolved o suggests).
  fold (rendered cfg heuristicRules o suggests).
  rewrite Hmd.
  destruct (String.eqb format "json"); [done|].
  destruct (String.eqb format "text").
  { unfold formatText. by rewrite textStep_fold. }
  destruct (String.eqb format "lint").
  { unfold formatLint. by rewrite lintStep_suggest. }
  unfold formatDefault. by rewrite defaultStep_suggest.
Qed.

(** X10: only the formats of the markdown family consume verdicts.
    They return the normalized set without its [ERR], [PRO] and [TRA]
    entries and without [EXP.000] when that has an [Item]; every other
    format returns the normalized set as it is. *)
Theorem returned_set_by_format (cfg : Config) (o : MapOrder) (sql db format : string)
    (suggests : list (gmap string Rule)) :
  valid_order o →
  (FormatSuggest cfg heuristicRules o sql db format suggests).1
  = if isMarkdownFormat format then afterMarkdown (rendered cfg heuristicRules o suggests)
    else rendered cfg heuristicRules o suggests.
Proof.
  intros Ho. unfold FormatSuggest. simpl.
  destruct (isMarkdownFormat format) eqn:Hmd.
  - rewrite render_markdown by done. simpl. by rewrite formatMarkdown_suggest.
  - by apply render_suggest_other.
Qed.

End MarkdownMore.

Lemma returned_set_by_format_witness :
  (@FormatSuggest plain defaultConfig loaded ascending "select 1" "" "html" [failedSet]).1
  = if isMarkdownFormat "html" then afterMarkdown (@rendered plain defaultConfig loaded
      ascending [failedSet])
    else @rendered plain defaultConfig loaded ascending [failedSet].
Proof.
  apply (@returned_set_by_format plain loaded defaultConfig
      ascending "select 1" "" "html" [failedSet]).
  apply ascending_valid.
Defined.

Example returned_set_markdown_failedSet :
  keys (@FormatSuggest plain defaultConfig loaded ascending "select 1" "" "html" [failedSet]).1
  ≡ₚ ["ARG.005"; "KEY.002"]
  ∧ keys (@FormatSuggest plain defaultConfig loaded ascending "select 1" "" "lint" [failedSet]).1
    ≡ₚ ["ARG.005"; "ERR.001"; "KEY.002"].
Proof. split; by_evaluation. Qed.

(** *** The score of the markdown branch *)

Lemma sumZ_filter {A} (g : A → Z) (P : A → Prop) `{!∀ x, Decision (P x)} (l : list A) :
  sumZ g (filter P l) = sumZ (λ x, if decide (P x) then g x else 0) l.
Proof.
  induction l as [|x l IH]; [done|]. rewrite filter_cons.
  unfold sumZ in *. simpl. destruct (decide (P x)); simpl; lia.
Qed.

Lemma sumZ_plus {A} (f g : A → Z) (l : list A) :
  sumZ f l + sumZ g l = sumZ (λ x, f x + g x) l.
Proof. unfold sumZ. induction l as [|x l IH]; simpl; lia. Qed.

Lemma sumZ_filter_le {A} (g : A → Z) (P : A → Prop) `{!∀ x, Decision (P x)} (l : list A) :
  Forall (λ x, 0 ≤ g x) l → sumZ g (filter P l) ≤ sumZ g l.
Proof.
  induction 1 as [|x l Hx Hl IH]; [done|]. rewrite filter_cons.
  unfold sumZ in *. destruct (decide (P x)); simpl; lia.
Qed.

(** A verdict is deducted for exactly when the branch has not consumed it
    and it falls into the Index bucket or, the sentinel apart, into the
    Heuristic bucket; no verdict falls into both. *)
Lemma deducted_split (k : string) (r : Rule) :
  deducted k
  = negb (consumed k r)
    && (Go.HasPrefix k "IDX" || (isHeuristic k && negb (String.eqb k "OK")))
  ∧ Go.HasPrefix k "IDX" && isHeuristic k = false.
Proof.
  unfold deducted, consumed, isHeuristic.
  destruct (String.eqb_spec k "EXP.000") as [->|_]; [by destruct (String.eqb (Item r) "")|].
  destruct (String.eqb_spec k "OK") as [->|_]; [done|]. simpl.
  destruct (Go.HasPrefix k "IDX") eqn:Hi.
  - rewrite (namespace_exclusive "IDX" "ERR" k), (namespace_exclusive "IDX" "EXP" k),
      (namespace_exclusive "IDX" "PRO" k), (namespace_exclusive "IDX" "TRA" k) by done.
    done.
  - by destruct (Go.HasPrefix k "ERR"), (Go.HasPrefix k "EXP"), (Go.HasPrefix k "PRO"),
      (Go.HasPrefix k "TRA").
Qed.

Section MarkdownScore.
Context {C : Collaborators}.
Implicit Types (suggest m : gmap string Rule) (ks : list string) (s : St).

(** The deduction loops on severities that are numbers: the deductions add
    up. *)
Lemma deduct_fold_exact (sevs : list string) :
  ∀ score,
    Forall (λ sev, (Go.Atoi (Go.Trim sev "L")).2 = None ∧ 0 ≤ mdOrdinal sev) sevs →
    5 * sumZ mdOrdinal sevs ≤ Go.maxInt + Z.min score 0 →
    score ≤ Go.maxInt →
    fold_left deduct sevs score = score - 5 * sumZ mdOrdinal sevs.
Proof.
  induction sevs as [|sev sevs IH]; intros score Hall Hfit Hmax; simpl.
  - unfold sumZ; simpl. lia.
  - apply Forall_cons in Hall as [[Hok Hk] Hall].
    assert (Hs : 0 ≤ sumZ mdOrdinal sevs).
    { apply sumZ_nonneg. eapply Forall_impl; [exact Hall|]. by intros ? [_ ?]. }
    change (sumZ mdOrdinal (sev :: sevs)) with (mdOrdinal sev + sumZ mdOrdinal sevs) in *.
    unfold Go.maxInt in *. rewrite deduct_unfold, Hok.
    assert (Hm : Go.mul (mdOrdinal sev) 5 = mdOrdinal sev * 5).
    { apply wrap_id. unfold Go.minInt, Go.maxInt. lia. }
    assert (Hsub : Go.sub score (Go.mul (mdOrdinal sev) 5) = score - mdOrdinal sev * 5).
    { rewrite Hm. apply wrap_id. unfold Go.minInt, Go.maxInt. lia. }
    rewrite Hsub, IH; [lia|done|lia|lia].
Qed.

Lemma mdMySQL_score o s :
  valid_order o → ¬ failed (st_suggest s) → st_score (mdMySQL o s) = st_score s.
Proof.
  intros Ho Hnf. rewrite mdMySQL_closed by done. cbv zeta.
  match goal with |- context [fold_left mdMySQLStep ?l ?s0] =>
    destruct (mdMySQLStep_fold l s0) as [_ Hsc] end.
  rewrite Hsc. simpl.
  destruct (sortedKeys _ _) as [|k l] eqn:Hl; [done|].
  exfalso. apply Hnf. exists k.
  assert (Hk : k ∈ sortedKeys (isFailure (st_suggest s)) (st_suggest s))
    by (rewrite Hl; by left).
  apply elem_of_sortedKeys in Hk as [Hf Hin]. done.
Qed.

Lemma score_before_index cfg o sql format id fp m :
  valid_order o → ¬ failed m →
  st_score (mdTrace o (mdProfiling o (mdExplain o (mdMySQL o
              (mdHeader cfg sql format id fp (mkSt m [] 100)))))) = 100.
Proof.
  intros Ho Hnf.
  set (s0 := mdHeader cfg sql format id fp (mkSt m [] 100)).
  assert (Hm0 : st_suggest s0 = m) by apply mdHeader_suggest.
  assert (Hs0 : st_score s0 = 100) by apply mdHeader_score.
  destruct (mdExplain_shrinks o (mdMySQL o s0)) as [_ Hs2].
  destruct (mdDump_shrinks "PRO" "## Profiling信息" LMdPro o (mdExplain o (mdMySQL o s0)))
    as [_ Hs3].
  destruct (mdDump_shrinks "TRA" "## Trace信息" LMdTra o
              (mdProfiling o (mdExplain o (mdMySQL o s0)))) as [_ Hs4].
  fold mdProfiling in Hs3. fold mdTrace in Hs4.
  rewrite Hs4, Hs3, Hs2, mdMySQL_score; [done|done|by rewrite Hm0].
Qed.

Lemma suggest_before_index cfg o sql format id fp m :
  valid_order o →
  st_suggest (mdTrace o (mdProfiling o (mdExplain o (mdMySQL o
                (mdHeader cfg sql format id fp (mkSt m [] 100)))))) = afterMarkdown m.
Proof.
  intros Ho.
  pose proof (formatMarkdown_suggest cfg o sql format id fp (mkSt m [] 100) Ho) as H.
  simpl in H. rewrite <- H. clear H.
  unfold formatMarkdown, mdHeuristic, mdIndex.
  match goal with |- context [fold_left mdHeuristicStep ?l ?s1] =>
    destruct (mdHeuristicStep_fold l s1) as [-> _] end.
  match goal with |- context [fold_left (mdIndexStep format) ?l ?s1] =>
    destruct (mdIndexStep_fold format l s1) as [-> _] end.
  done.
Qed.

Lemma get_afterMarkdown m k :
  is_Some (afterMarkdown m !! k) → get (afterMarkdown m) k = get m k.
Proof.
  intros [r Hr]. unfold get. rewrite Hr.
  apply map_lookup_filter_Some in Hr as [-> _]. done.
Qed.

(** The Index and the Heuristic loop deduct for the verdicts [deducted]
    names, each once. *)
Lemma deducted_sums m :
  let m3 := afterMarkdown m in
  let g3 := λ k, mdOrdinal (Severity (get m3 k)) in
  sumZ g3 (sortedKeys (λ item, Go.HasPrefix item "IDX") m3)
  + sumZ g3 (filter (λ k, String.eqb k "OK" = false) (sortedKeys isHeuristic m3))
  = deductions m.
Proof.
  intros m3 g3. unfold sortedKeys, deductions.
  set (g := λ k, mdOrdinal (Severity (get m k))).
  assert (Hk3 : keys m3 ≡ₚ filter (λ k, consumed k (get m k) = false) (keys m)).
  { exact (@keys_filter (λ k r, consumed k r = false)
             (λ k r, decide (consumed k r = false)) m). }
  assert (Hg : ∀ l, Forall (λ k, k ∈ keys m3) l → sumZ g3 l = sumZ g l).
  { intros l Hl. apply sumZ_ext. eapply Forall_impl; [exact Hl|].
    intros k Hk. unfold g3, g. f_equal. f_equal.
    apply get_afterMarkdown. by apply elem_of_keys. }
  rewrite !Hg.
  2: { apply Forall_forall. intros k Hk%list_elem_of_filter.
       destruct Hk as [_ Hk]. by apply SortStrings_elem_of, list_elem_of_filter in Hk as [_ ?]. }
  2: { apply Forall_forall. intros k Hk.
       by apply SortStrings_elem_of, list_elem_of_filter in Hk as [_ ?]. }
  rewrite (sumZ_Permutation g _ _ (SortStrings_Permutation _)).
  assert (Hp2 : filter (λ k, String.eqb k "OK" = false)
                  (Go.SortStrings (filter (λ k, isHeuristic k = true) (keys m3)))
                ≡ₚ filter (λ k, String.eqb k "OK" = false)
                     (filter (λ k, isHeuristic k = true) (keys m3))).
  { by rewrite SortStrings_Permutation. }
  rewrite (sumZ_Permutation g _ _ Hp2).
  rewrite (sumZ_Permutation g _ _ (filter_Permutation _ _ _ Hk3)).
  assert (Hp3 : filter (λ k, String.eqb k "OK" = false)
                  (filter (λ k, isHeuristic k = true) (keys m3))
                ≡ₚ filter (λ k, String.eqb k "OK" = false)
                     (filter (λ k, isHeuristic k = true)
                        (filter (λ k, consumed k (get m k) = false) (keys m)))).
  { by rewrite Hk3. }
  rewrite (sumZ_Permutation g _ _ Hp3).
  rewrite !sumZ_filter, sumZ_plus. apply sumZ_ext, Forall_forall. intros k _.
  destruct (deducted_split k (get m k)) as [Hd Hx].
  repeat case_decide; try lia; exfalso;
    repeat match goal with
           | H : _ = true |- _ => rewrite H in *
           | H : _ = false |- _ => rewrite H in *
           | H : ¬ (_ = true) |- _ => apply not_true_is_false in H
           | H : ¬ (_ = false) |- _ => apply not_false_is_true in H
           end; simpl in *; congruence.
Qed.

Lemma deducted_severity m k :
  tame mdOrdinal m → parses m →
  is_Some (afterMarkdown m !! k) →
  Go.HasPrefix k "IDX" = true ∨ (isHeuristic k = true ∧ String.eqb k "OK" = false) →
  (Go.Atoi (Go.Trim (Severity (get (afterMarkdown m) k)) "L")).2 = None
  ∧ 0 ≤ mdOrdinal (Severity (get (afterMarkdown m) k)).
Proof.
  intros [Hpos _] Hparse Hin Hb. rewrite (get_afterMarkdown m k Hin).
  destruct Hin as [r Hr]. apply map_lookup_filter_Some in Hr as [Hr Hc]. simpl in Hc.
  unfold get. rewrite Hr. simpl.
  destruct (deducted_split k r) as [Hd _]. rewrite Hc in Hd. simpl in Hd.
  assert (Hded : deducted k = true).
  { rewrite Hd. destruct Hb as [->|[-> ->]]; [done|]. by rewrite orb_true_r. }
  split; [by apply (Hparse k r Hr)|].
  rewrite Forall_forall in Hpos. apply (Hpos (k, r)). by apply elem_of_map_to_list.
Qed.

Lemma deductions_le_total m :
  tame mdOrdinal m → 0 ≤ deductions m ≤ totalOrdinal mdOrdinal m.
Proof.
  intros [Hpos _].
  pose proof (nonneg_over_keys mdOrdinal m (keys m) (reflexivity _) Hpos) as Hnn.
  rewrite <- (sum_over_keys mdOrdinal m (keys m) (reflexivity _)).
  unfold deductions. split.
  - apply sumZ_nonneg. apply Forall_forall. intros k [_ Hk]%list_elem_of_filter.
    rewrite Forall_forall in Hnn. by apply Hnn.
  - by apply sumZ_filter_le.
Qed.

Lemma deductions_exact o format s m :
  valid_order o → tame mdOrdinal m → parses m →
  st_suggest s = afterMarkdown m → 0 ≤ st_score s ≤ 100 →
  st_score (mdHeuristic o (mdIndex o format s)) = st_score s - 5 * deductions m.
Proof.
  intros Ho Ht Hparse Hm Hs.
  pose proof (deductions_le_total m Ht) as Hle. destruct Ht as [Hpos Hfit].
  pose proof (deducted_sums m) as Hsum. cbv zeta in Hsum.
  unfold mdHeuristic, mdIndex. rewrite !(sorted_collect o) by done.
  match goal with |- context [fold_left (mdIndexStep format) ?l ?s0] =>
    destruct (mdIndexStep_fold format l s0) as [Hm1 Hs1];
    set (s1 := fold_left (mdIndexStep format) l s0) in * end.
  rewrite Hm1.
  match goal with |- context [fold_left mdHeuristicStep ?l ?s0] =>
    destruct (mdHeuristicStep_fold l s0) as [_ Hs2] end.
  rewrite Hs2, Hs1, Hm1, Hm. clear Hs2 Hs1.
  set (f := λ k, Severity (get (afterMarkdown m) k)).
  set (L1 := sortedKeys (λ item, Go.HasPrefix item "IDX") (afterMarkdown m)) in *.
  set (L2 := filter (λ k, String.eqb k "OK" = false)
               (sortedKeys isHeuristic (afterMarkdown m))) in *.
  assert (H1 : Forall (λ sev, (Go.Atoi (Go.Trim sev "L")).2 = None ∧ 0 ≤ mdOrdinal sev)
                 (f <$> L1)).
  { apply Forall_fmap, Forall_forall. intros k [Hp Hin]%elem_of_sortedKeys.
    apply deducted_severity; [done|done|done|by left]. }
  assert (H2 : Forall (λ sev, (Go.Atoi (Go.Trim sev "L")).2 = None ∧ 0 ≤ mdOrdinal sev)
                 (f <$> L2)).
  { apply Forall_fmap, Forall_forall. intros k [Hok Hk]%list_elem_of_filter.
    apply elem_of_sortedKeys in Hk as [Hp Hin].
    apply deducted_severity; [done|done|done|by right]. }
  assert (E1 : sumZ mdOrdinal (f <$> L1) = sumZ (λ k, mdOrdinal (f k)) L1)
    by apply sumZ_fmap.
  assert (E2 : sumZ mdOrdinal (f <$> L2) = sumZ (λ k, mdOrdinal (f k)) L2)
    by apply sumZ_fmap.
  assert (P1 : 0 ≤ sumZ mdOrdinal (f <$> L1)).
  { apply sumZ_nonneg. eapply Forall_impl; [exact H1|]. by intros ? [_ ?]. }
  assert (P2 : 0 ≤ sumZ mdOrdinal (f <$> L2)).
  { apply sumZ_nonneg. eapply Forall_impl; [exact H2|]. by intros ? [_ ?]. }
  unfold f in E1, E2. fold f in E1, E2. rewrite <- E1, <- E2 in Hsum.
  unfold Go.maxInt in *.
  rewrite (deduct_fold_exact (f <$> L1)); [|done|unfold Go.maxInt; lia|unfold Go.maxInt; lia].
  rewrite (deduct_fold_exact (f <$> L2)); [|done|unfold Go.maxInt; lia|unfold Go.maxInt; lia].
  lia.
Qed.

(** X11: the score of the markdown branch in closed form.  On a set
    whose deducted severities are numbers, none negative, with deductions
    that fit Go's [int], the value left for the score line is [100], or [0]
    after a failure of the [ERR] namespace, minus five times the ordinals
    of the verdicts outside the [ERR], [EXP], [PRO] and [TRA] namespaces,
    the sentinel apart. *)
Theorem markdown_score_formula (cfg : Config) (o : MapOrder)
    (sql format id fingerprint : string) (m : gmap string Rule) :
  valid_order o → tame mdOrdinal m → parses m →
  (¬ failed m →
   markdownScore cfg o sql format id fingerprint m = 100 - 5 * deductions m)
  ∧ (failed m → markdownScore cfg o sql format id fingerprint m = - 5 * deductions m).
Proof.
  intros Ho Ht Hparse. unfold markdownScore, formatMarkdown.
  pose proof (suggest_before_index cfg o sql format id fingerprint m Ho) as Hm.
  destruct (markdown_before_index cfg o sql format id fingerprint m Ho) as (_ & Hs & Hf).
  cbv zeta in Hs, Hf. split.
  - intros Hnf.
    pose proof (score_before_index cfg o sql format id fingerprint m Ho Hnf) as H100.
    rewrite (deductions_exact o format _ m Ho Ht Hparse Hm) by lia. lia.
  - intros Hfailed. specialize (Hf Hfailed).
    rewrite (deductions_exact o format _ m Ho Ht Hparse Hm) by lia. lia.
Qed.

End MarkdownScore.

Lemma markdown_score_formula_witness :
  (¬ failed twoFindings →
   @markdownScore plain defaultConfig ascending "select 1" "markdown" "id" "fp" twoFindings
   = 100 - 5 * deductions twoFindings)
  ∧ (failed twoFindings →
     @markdownScore plain defaultConfig ascending "select 1" "markdown" "id" "fp" twoFindings
     = - 5 * deductions twoFindings).
Proof.
  apply (@markdown_score_formula plain defaultConfig ascending "select 1" "markdown" "id" "fp"
           twoFindings).
  - apply ascending_valid.
  - split; [by_evaluation|by vm_compute].
  - apply map_Forall_to_list. by_evaluation.
Defined.

(** The scenario of the two findings [L1] and [L4]: [100 - 5 - 20]. *)
Example markdown_score_twoFindings :
  deductions twoFindings = 5
  ∧ @markdownScore plain defaultConfig descending "select 1" "markdown" "id" "fp" twoFindings = 75
  ∧ deductions failedSet = 5
  ∧ @markdownScore plain defaultConfig descending "select 1" "markdown" "id" "fp" failedSet = -25.
Proof. repeat split; by vm_compute. Qed.

(** *** The lines of the markdown branch *)

Section MarkdownLines.
Context {C : Collaborators}.
Implicit Types (suggest m : gmap string Rule) (ks : list string) (s : St).

Lemma mdMySQLStep_buf ks :
  NoDup ks →
  ∀ s, st_buf (fold_left mdMySQLStep ks s)
       = st_buf s ++ ((λ k, Go.Sprintln [Content (get (st_suggest s) k)]) <$> ks).
Proof.
  induction 1 as [|a ks Ha Hnd IH]; intros s; simpl.
  - by rewrite app_nil_r.
  - rewrite IH. simpl. rewrite <- app_assoc. simpl. do 2 f_equal.
    apply list_fmap_ext. intros i k Hk. unfold get.
    rewrite lookup_delete_ne; [done|]. intros ->. apply Ha.
    by eapply list_elem_of_lookup_2.
Qed.

Lemma fold_appends (step : St → string → St) ks :
  (∀ s k, ∃ lines, st_buf (step s k) = st_buf s ++ lines) →
  ∀ s, ∃ lines, st_buf (fold_left step ks s) = st_buf s ++ lines.
Proof.
  intros Hstep. induction ks as [|k ks IH]; intros s; simpl.
  - exists []. by rewrite app_nil_r.
  - destruct (IH (step s k)) as [l2 H2]. destruct (Hstep s k) as [l1 H1].
    exists (l1 ++ l2). by rewrite H2, H1, app_assoc.
Qed.

Lemma mdExplain_appends o s : ∃ lines, st_buf (mdExplain o s) = st_buf s ++ lines.
Proof.
  unfold mdExplain.
  match goal with |- context [fold_left mdExplainStep ?l ?s0] =>
    destruct (fold_appends mdExplainStep l) with (s := s0) as [l2 H2] end.
  { intros s' k. by eexists. }
  rewrite H2. unfold mdExplainTop. destruct (negb _); simpl.
  - eexists. by rewrite <- app_assoc.
  - by eexists.
Qed.

Lemma mdDump_appends prefix title l o s :
  ∃ lines, st_buf (mdDump prefix title l o s) = st_buf s ++ lines.
Proof.
  unfold mdDump.
  match goal with |- context [fold_left mdDumpStep ?l ?s0] =>
    destruct (fold_appends mdDumpStep l) with (s := s0) as [l2 H2] end.
  { intros s' k. by eexists. }
  rewrite H2. destruct (0 <? _)%nat; simpl.
  - eexists. by rewrite <- app_assoc.
  - by eexists.
Qed.

Lemma mdIndex_appends o format s :
  ∃ lines, st_buf (mdIndex o format s) = st_buf s ++ lines.
Proof.
  unfold mdIndex. apply fold_appends. intros s' k. unfold mdIndexStep. simpl.
  destruct (String.eqb format "duplicate-key-checker");
    eexists; rewrite <- !app_assoc; reflexivity.
Qed.

Lemma mdHeuristic_appends o s :
  ∃ lines, st_buf (mdHeuristic o s) = st_buf s ++ lines.
Proof.
  unfold mdHeuristic. apply fold_appends. intros s' k. unfold mdHeuristicStep.
  destruct (String.eqb k "OK"); simpl; eexists; rewrite <- ?app_assoc; reflexivity.
Qed.

Lemma get_dropQuiet_failure m k :
  isFailure m k = true → get (dropQuiet m) k = get m k.
Proof.
  unfold isFailure, get, dropQuiet. intros [Hp Hc]%andb_prop.
  rewrite map_lookup_filter. destruct (m !! k) as [r|]; simpl; [|done].
  rewrite option_guard_True; [done|]. simpl. intros [_ He].
  simpl in Hc. rewrite He in Hc. done.
Qed.

(** X12: after a failure the document of the markdown family opens,
    behind its header, with the section of the failures: its title, then
    the [Content] of every [ERR] verdict that has one, in ascending order
    of the items, then everything else. *)
Theorem failure_section_first (cfg : Config) (o : MapOrder)
    (sql format id fingerprint : string) (m : gmap string Rule) :
  valid_order o → failed m →
  ∃ rest,
    markdownLines cfg o sql format id fingerprint m
    = st_buf (mdHeader cfg sql format id fingerprint (mkSt m [] 100))
      ++ ("## MySQL execute failed" +:+ Go.nl)
         :: ((λ k, Go.Sprintln [Content (get m k)]) <$> sortedKeys (isFailure m) m)
      ++ rest.
Proof.
  intros Ho (item & Hin & Hf). unfold markdownLines, formatMarkdown.
  set (s0 := mdHeader cfg sql format id fingerprint (mkSt m [] 100)).
  assert (Hm0 : st_suggest s0 = m) by apply mdHeader_suggest.
  destruct (mdHeuristic_appends o (mdIndex o format (mdTrace o (mdProfiling o
             (mdExplain o (mdMySQL o s0)))))) as [l6 ->].
  destruct (mdIndex_appends o format (mdTrace o (mdProfiling o
             (mdExplain o (mdMySQL o s0))))) as [l5 ->].
  destruct (mdDump_appends "TRA" "## Trace信息" LMdTra o
              (mdProfiling o (mdExplain o (mdMySQL o s0)))) as [l4 H4].
  destruct (mdDump_appends "PRO" "## Profiling信息" LMdPro o (mdExplain o (mdMySQL o s0)))
    as [l3 H3].
  destruct (mdExplain_appends o (mdMySQL o s0)) as [l2 H2].
  fold mdProfiling in H3. fold mdTrace in H4. rewrite H4, H3, H2.
  rewrite mdMySQL_closed by done. cbv zeta. rewrite Hm0.
  rewrite mdMySQLStep_buf.
  2: { unfold sortedKeys. rewrite SortStrings_Permutation. apply NoDup_filter, keys_NoDup. }
  simpl st_buf. simpl st_suggest.
  assert (Hne : (0 <? length (sortedKeys (isFailure m) m))%nat = true).
  { apply Nat.ltb_lt.
    assert (Hitem : item ∈ sortedKeys (isFailure m) m) by by apply elem_of_sortedKeys.
    destruct (sortedKeys (isFailure m) m); [by apply elem_of_nil in Hitem|simpl; lia]. }
  rewrite Hne. exists (l2 ++ l3 ++ l4 ++ l5 ++ l6).
  rewrite <- !app_assoc. simpl. do 2 f_equal. f_equal.
  apply list_fmap_ext. intros i k Hk. do 3 f_equal.
  apply get_dropQuiet_failure.
  apply list_elem_of_lookup_2, elem_of_sortedKeys in Hk as [? _]. done.
Qed.

Lemma dropQuiet_idemp m : dropQuiet (dropQuiet m) = dropQuiet m.
Proof.
  unfold dropQuiet. apply map_filter_id. intros k r Hr.
  by apply map_lookup_filter_Some in Hr as [_ ?].
Qed.

Lemma sortedKeys_failures_dropQuiet m :
  sortedKeys (isFailure (dropQuiet m)) (dropQuiet m) = sortedKeys (isFailure m) m.
Proof.
  unfold sortedKeys. apply SortStrings_proper.
  pose proof (@keys_filter (λ k r, ¬ (Go.HasPrefix k "ERR" = true ∧ Content r = ""))
                (λ k r, decide (¬ (Go.HasPrefix k "ERR" = true ∧ Content r = ""))) m) as Hk.
  fold (dropQuiet m) in Hk.
  assert (Hext : filter (λ k, isFailure (dropQuiet m) k = true) (keys (dropQuiet m))
                 = filter (λ k, isFailure m k = true) (keys (dropQuiet m))).
  { apply filter_ext_elem. intros k Hk'. apply elem_of_keys in Hk' as [r Hr].
    unfold isFailure, get. rewrite Hr.
    apply map_lookup_filter_Some in Hr as [-> _]. done. }
  rewrite Hext, Hk, list_filter_filter.
  erewrite filter_ext_elem; [reflexivity|]. intros k _. split; [by intros [? _]|].
  intros Hf. split; [done|].
  intros [_ He]. unfold isFailure in Hf. rewrite He in Hf.
  by rewrite andb_false_r in Hf.
Qed.

(** X13: a verdict of the [ERR] namespace without [Content] leaves no
    trace in the markdown branch: lines, score and returned set are those
    of the set without such verdicts.  Their one effect is on the header,
    which is printed for a non-empty set: hence the hypothesis. *)
Theorem quiet_errors_invisible (cfg : Config) (o : MapOrder)
    (sql format id fingerprint : string) (m : gmap string Rule) (buf : list string)
    (score : Z) :
  valid_order o →
  (0 <? size m)%nat = (0 <? size (dropQuiet m))%nat →
  formatMarkdown cfg o sql format id fingerprint (mkSt m buf score)
  = formatMarkdown cfg o sql format id fingerprint (mkSt (dropQuiet m) buf score).
Proof.
  intros Ho Hsize. unfold formatMarkdown.
  assert (Hh : ∃ B, mdHeader cfg sql format id fingerprint (mkSt m buf score) = mkSt m B score
                    ∧ mdHeader cfg sql format id fingerprint (mkSt (dropQuiet m) buf score)
                      = mkSt (dropQuiet m) B score).
  { unfold mdHeader. simpl. rewrite <- Hsize. destruct (_ && _); by eexists. }
  destruct Hh as (B & -> & ->).
  rewrite !(mdMySQL_closed o) by done. cbv zeta. simpl st_suggest. simpl st_buf.
  simpl st_score. by rewrite dropQuiet_idemp, sortedKeys_failures_dropQuiet.
Qed.

End MarkdownLines.

Lemma failure_section_first_witness :
  ∃ rest,
    @markdownLines plain defaultConfig ascending "select 1" "markdown" "id" "fp" failedSet
    = st_buf (@mdHeader plain defaultConfig "select 1" "markdown" "id" "fp"
                (@mkSt failedSet [] 100))
      ++ ("## MySQL execute failed" +:+ Go.nl)
         :: ((λ k, Go.Sprintln [Content (get failedSet k)])
               <$> sortedKeys (isFailure failedSet) failedSet)
      ++ rest.
Proof.
  apply (@failure_section_first plain defaultConfig ascending "select 1" "markdown" "id" "fp"
           failedSet).
  - apply ascending_valid.
  - apply failed_failedSet.
Defined.

Lemma quiet_errors_invisible_witness :
  let m := <[ "ERR.000" := verdict "ERR.000" "L8" "" ]> twoFindings in
  @formatMarkdown plain defaultConfig ascending "select 1" "markdown" "id" "fp" (@mkSt m [] 100)
  = @formatMarkdown plain defaultConfig ascending "select 1" "markdown" "id" "fp"
      (@mkSt (dropQuiet m) [] 100).
Proof.
  apply (@quiet_errors_invisible plain defaultConfig ascending "select 1" "markdown" "id" "fp").
  - apply ascending_valid.
  - by vm_compute.
Defined.

(** *** Verdicts whose severity is not a number *)

Section MalformedSeverity.
Context {C : Collaborators}.
Implicit Types (suggest m : gmap string Rule) (ks : list string) (s : St).

Lemma fold_keeps (step : St → string → St) ks (line : string) :
  (∀ s k, ∃ lines, st_buf (step s k) = st_buf s ++ lines) →
  ∀ s, line ∈ st_buf s → line ∈ st_buf (fold_left step ks s).
Proof.
  intros Hstep s Hin. destruct (fold_appends step ks Hstep s) as [lines ->].
  apply elem_of_app. by left.
Qed.

Lemma mdIndexStep_appends format s k :
  ∃ lines, st_buf (mdIndexStep format s k) = st_buf s ++ lines.
Proof.
  unfold mdIndexStep. simpl.
  destruct (String.eqb format "duplicate-key-checker");
    eexists; rewrite <- !app_assoc; reflexivity.
Qed.

Lemma mdHeuristicStep_appends s k :
  ∃ lines, st_buf (mdHeuristicStep s k) = st_buf s ++ lines.
Proof.
  unfold mdHeuristicStep.
  destruct (String.eqb k "OK"); simpl; eexists; rewrite <- ?app_assoc; reflexivity.
Qed.

(** The Index loop prints the item line of every key it visits. *)
Lemma mdIndexStep_lines format ks :
  ∀ s k, k ∈ ks →
         Go.Sprintln ["* **Item:** "; k] ∈ st_buf (fold_left (mdIndexStep format) ks s).
Proof.
  induction ks as [|a ks IH]; intros s k Hk; [by apply elem_of_nil in Hk|].
  cbn [fold_left]. apply elem_of_cons in Hk as [->|Hk]; [|by apply IH].
  apply fold_keeps; [apply mdIndexStep_appends|].
  unfold mdIndexStep. simpl.
  destruct (String.eqb format "duplicate-key-checker"); rewrite <- !app_assoc;
    apply elem_of_app; right; simpl; right; by left.
Qed.

(** So does the Heuristic loop, the sentinel apart. *)
Lemma mdHeuristicStep_lines ks :
  ∀ s k, k ∈ ks → k ≠ "OK" →
         Go.Sprintln ["* **Item:** "; k] ∈ st_buf (fold_left mdHeuristicStep ks s).
Proof.
  induction ks as [|a ks IH]; intros s k Hk Hok; [by apply elem_of_nil in Hk|].
  cbn [fold_left]. apply elem_of_cons in Hk as [->|Hk]; [|by apply IH].
  apply fold_keeps; [apply mdHeuristicStep_appends|].
  unfold mdHeuristicStep. apply String.eqb_neq in Hok. rewrite Hok. simpl.
  rewrite <- !app_assoc. apply elem_of_app; right; simpl; right; by left.
Qed.

(** Every verdict whose severity the deduction loops read has its item
    line in the buffer the markdown branch leaves. *)
Lemma markdown_renders cfg o sql format id fp m item r :
  valid_order o → m !! item = Some r → deducted item = true →
  Go.Sprintln ["* **Item:** "; item] ∈ markdownLines cfg o sql format id fp m.
Proof.
  intros Ho Hr Hd. unfold markdownLines, formatMarkdown.
  set (s4 := mdTrace o (mdProfiling o (mdExplain o (mdMySQL o
               (mdHeader cfg sql format id fp (mkSt m [] 100)))))).
  assert (H4 : st_suggest s4 = afterMarkdown m) by by apply suggest_before_index.
  unfold deducted in Hd.
  apply andb_prop in Hd as [Hd Hok]. apply andb_prop in Hd as [Hd Htra].
  apply andb_prop in Hd as [Hd Hpro]. apply andb_prop in Hd as [Herr Hexp].
  apply negb_true_iff in Herr, Hexp, Hpro, Htra, Hok.
  assert (Hin : afterMarkdown m !! item = Some r).
  { apply map_lookup_filter_Some. split; [done|]. unfold consumed. simpl.
    rewrite Herr, Hpro, Htra. simpl.
    destruct (String.eqb_spec item "EXP.000") as [->|_]; [done|done]. }
  destruct (Go.HasPrefix item "IDX") eqn:Hidx.
  - apply fold_keeps; [apply mdHeuristicStep_appends|].
    unfold mdIndex. apply mdIndexStep_lines.
    rewrite (sorted_collect o) by done. apply elem_of_sortedKeys.
    split; [done|]. rewrite H4. by exists r.
  - unfold mdHeuristic. apply mdHeuristicStep_lines; [|by apply String.eqb_neq].
    rewrite (sorted_collect o) by done. apply elem_of_sortedKeys.
    split; [unfold isHeuristic; by rewrite Hexp, Hidx, Hpro|].
    unfold mdIndex.
    match goal with |- context [fold_left (mdIndexStep format) ?l ?s1] =>
      destruct (mdIndexStep_fold format l s1) as [-> _] end.
    rewrite H4. by exists r.
Qed.

(** The key lists of the three arrays hold every key but those of the
    [ERR] verdicts without content. *)
Lemma json_renders m item r :
  m !! item = Some r →
  let ks p := sortedKeys (λ k, p k (get m k)) m in
  item ∈ ks inExplain ++ ks inIndexRules ++ ks inHeuristicRules
  ↔ ¬ (Go.HasPrefix item "ERR" = true ∧ Content r = "").
Proof.
  intros Hr ks. subst ks. cbn beta.
  assert (Hg : get m item = r) by (unfold get; by rewrite Hr).
  rewrite !elem_of_app, !elem_of_sortedKeys, Hg.
  unfold inExplain, inIndexRules, inHeuristicRules.
  assert (Hs : is_Some (m !! item)) by by exists r.
  destruct (Go.HasPrefix item "ERR") eqn:Herr.
  - rewrite (namespace_exclusive "ERR" "EXP" item) by done.
    rewrite (namespace_exclusive "ERR" "IDX" item) by done. simpl.
    destruct (String.eqb_spec (Content r) "") as [Hc|Hc].
    + split; [intros [[? _]|[[? _]|[? _]]]; done|]. intros Hn. exfalso. by apply Hn.
    + split; [intros _ [_ ?]; done|]. intros _. right. right. done.
  - split; [intros _ [? _]; done|]. intros _.
    destruct (Go.HasPrefix item "EXP"); [by left|].
    destruct (Go.HasPrefix item "IDX"); [right; by left|]. right. right. done.
Qed.

(** C3 (amended): in the score loop of [formatJSON] a verdict whose
    severity [Atoi] rejects as not a number counts as ordinal [0]: unless
    it is a failure of the [ERR] namespace, the loop ends with the score it
    would end with without the verdict.  In the two deduction loops of the
    markdown branch, a severity [Atoi] rejects resets the running score to
    [0], the later verdicts deducting from there, and the loop body appends
    the lines of the verdict all the same.  Whatever its severity, a verdict
    is rendered: in the JSON document the three arrays are the verdicts of
    three lists of keys that hold every key of the set, except the keys of
    the [ERR] verdicts with an empty [Content], which are in no array; in
    the markdown branch every verdict whose severity the deduction loops
    read has its item line in the buffer. *)
Theorem malformed_severity :
  (∀ (suggest : gmap string Rule) (item : string) (ks1 ks2 : list string),
     (Go.Atoi (Go.TrimLeft (Severity (get suggest item)) "L")).2 = Some Go.ErrSyntax →
     isFailure suggest item = false →
     jsonOrdinal (Severity (get suggest item)) = 0
     ∧ fold_left (jsonScoreStep suggest) (ks1 ++ item :: ks2) 100
       = fold_left (jsonScoreStep suggest) (ks1 ++ ks2) 100)
  ∧ (∀ (severity : string) (sevs1 sevs2 : list string) (score : Z),
       (Go.Atoi (Go.Trim severity "L")).2 ≠ None →
       fold_left deduct (sevs1 ++ severity :: sevs2) score = fold_left deduct sevs2 0)
  ∧ (∀ (format item : string) (s : St),
       (Go.Atoi (Go.Trim (Severity (get (st_suggest s) item)) "L")).2 ≠ None →
       st_score (mdIndexStep format s item) = 0
       ∧ (item ≠ "OK" → st_score (mdHeuristicStep s item) = 0)
       ∧ (∃ lines, st_buf (mdIndexStep format s item) = st_buf s ++ lines
                   ∧ Go.Sprintln ["* **Item:** "; item] ∈ lines)
       ∧ (∃ lines, st_buf (mdHeuristicStep s item) = st_buf s ++ lines
                   ∧ Go.Sprintln ["##"; Summary (get (st_suggest s) item)] ∈ lines))
  ∧ (∀ (o : MapOrder) (sql db : string) (suggest : gmap string Rule) (item : string)
       (r : Rule),
       valid_order o → suggest !! item = Some r →
       let j := formatJSONSuggest o sql db suggest in
       let ks p := sortedKeys (λ k, p k (get suggest k)) suggest in
       Explain j = get suggest <$> ks inExplain
       ∧ IndexRules j = get suggest <$> ks inIndexRules
       ∧ HeuristicRules j = get suggest <$> ks inHeuristicRules
       ∧ (item ∈ ks inExplain ++ ks inIndexRules ++ ks inHeuristicRules
          ↔ ¬ (Go.HasPrefix item "ERR" = true ∧ Content r = "")))
  ∧ (∀ (cfg : Config) (o : MapOrder) (sql format id fingerprint : string)
       (suggest : gmap string Rule) (item : string) (r : Rule),
       valid_order o → suggest !! item = Some r → deducted item = true →
       Go.Sprintln ["* **Item:** "; item]
       ∈ markdownLines cfg o sql format id fingerprint suggest).
Proof.
  split; [|split; [|split; [|split]]].
  - intros suggest item ks1 ks2 Herr Hnf.
    assert (Hz : jsonOrdinal (Severity (get suggest item)) = 0).
    { unfold jsonOrdinal.
      destruct (Go.Atoi (Go.TrimLeft (Severity (get suggest item)) "L")) as [v e] eqn:Ha.
      simpl in *. subst e. by apply Atoi_syntax_zero in Ha. }
    split; [done|]. rewrite !fold_left_app. simpl. f_equal.
    rewrite jsonScoreStep_unfold, Hnf, Hz.
    assert (Hr : Go.minInt ≤ fold_left (jsonScoreStep suggest) ks1 100 ≤ Go.maxInt).
    { apply jsonScore_fold_range. unfold Go.minInt, Go.maxInt. lia. }
    unfold Go.sub, Go.mul. rewrite (wrap_id (0 * 5)) by (unfold Go.minInt, Go.maxInt; lia).
    rewrite Z.sub_0_r. by apply wrap_id.
  - intros severity sevs1 sevs2 score Herr. rewrite fold_left_app. simpl. f_equal.
    destruct ((Go.Atoi (Go.Trim severity "L")).2) as [e|] eqn:He; [|done].
    by eapply deduct_error.
  - intros format item s Herr.
    destruct ((Go.Atoi (Go.Trim (Severity (get (st_suggest s) item)) "L")).2) as [e|] eqn:He;
      [|done].
    pose proof (deduct_error (st_score s) _ _ He) as Hd.
    split; [|split; [|split]].
    + unfold mdIndexStep. simpl. exact Hd.
    + intros Hok. unfold mdHeuristicStep.
      apply String.eqb_neq in Hok. rewrite Hok. simpl. exact Hd.
    + unfold mdIndexStep. simpl. destruct (String.eqb format "duplicate-key-checker").
      * eexists. rewrite <- !app_assoc. split; [reflexivity|].
        simpl. right. by left.
      * eexists. rewrite <- !app_assoc. split; [reflexivity|].
        simpl. right. by left.
    + unfold mdHeuristicStep. destruct (String.eqb item "OK").
      * simpl. eexists. split; [reflexivity|]. by left.
      * simpl. eexists. rewrite <- !app_assoc. split; [reflexivity|]. by left.
  - intros o sql db suggest item r Ho Hr j ks.
    destruct (formatJSONSuggest_arrays o sql db suggest Ho) as (He & Hi & Hh).
    split; [done|]. split; [done|]. split; [done|]. by apply json_renders.
  - intros cfg o sql format id fingerprint suggest item r Ho Hr Hd.
    by eapply markdown_renders.
Qed.

End MalformedSeverity.

(** Counterexample to C3 as stated: one finding whose severity is not a
    number; the markdown branch does not deduct [0] from [100], it leaves
    [0]. *)
Lemma malformed_severity_markdown_zero :
  Go.Atoi (Go.Trim "high" "L") = (0, Some Go.ErrSyntax)
  ∧ @markdownScore plain defaultConfig ascending "select 1" "markdown" "id" "fp" malformedSet = 0
  ∧ @markdownScore plain defaultConfig ascending "select 1" "markdown" "id" "fp" ∅ = 100.
Proof. split; [|split]; by vm_compute. Qed.

(** A verdict of the [ERR] namespace without content and with a severity
    that is not a number: it is in no array of the JSON document and leaves
    no line in the markdown buffer, and the scores are those of the set
    without it. *)
Example malformed_quiet_error :
  let quiet := verdicts [verdict "ERR.002" "high" ""; verdict "COL.001" "L1" "select star"] in
  let j := @formatJSONSuggest plain ascending "select 1" "" quiet in
  Explain j ++ IndexRules j ++ HeuristicRules j = [verdict "COL.001" "L1" "select star"]
  ∧ Score j = 95
  ∧ @markdownLines plain defaultConfig ascending "select 1" "markdown" "id" "fp" quiet
    = @markdownLines plain defaultConfig ascending "select 1" "markdown" "id" "fp"
        (verdicts [verdict "COL.001" "L1" "select star"])
  ∧ @markdownScore plain defaultConfig ascending "select 1" "markdown" "id" "fp" quiet = 95.
Proof. repeat split; by vm_compute. Qed.

(** ** The JSON document *)

Lemma filter3_partition {A} (P1 P2 P3 Q : A → Prop)
    `{!∀ x, Decision (P1 x)} `{!∀ x, Decision (P2 x)} `{!∀ x, Decision (P3 x)}
    `{!∀ x, Decision (Q x)} (l : list A) :
  (∀ x, (P1 x → Q x ∧ ¬ P2 x ∧ ¬ P3 x) ∧ (P2 x → Q x ∧ ¬ P1 x ∧ ¬ P3 x)
        ∧ (P3 x → Q x ∧ ¬ P1 x ∧ ¬ P2 x) ∧ (Q x → P1 x ∨ P2 x ∨ P3 x)) →
  filter P1 l ++ filter P2 l ++ filter P3 l ≡ₚ filter Q l.
Proof.
  intros Hx. induction l as [|x l IH]; [done|]. rewrite !filter_cons.
  destruct (Hx x) as (Hx1 & Hx2 & Hx3 & Hq).
  destruct (decide (P1 x)) as [p1|n1].
  { destruct (Hx1 p1) as (q & n2 & n3).
    rewrite decide_False, decide_False, decide_True by done. simpl. by rewrite IH. }
  destruct (decide (P2 x)) as [p2|n2].
  { destruct (Hx2 p2) as (q & _ & n3).
    rewrite decide_False, decide_True by done.
    simpl. rewrite <- Permutation_middle. by rewrite IH. }
  destruct (decide (P3 x)) as [p3|n3].
  { destruct (Hx3 p3) as (q & _ & _). rewrite decide_True by done.
    rewrite app_assoc, <- Permutation_middle, <- app_assoc. by rewrite IH. }
  rewrite decide_False; [done|]. intros q. destruct (Hq q) as [?|[?|?]]; done.
Qed.

Lemma values_get (m : gmap string Rule) : get m <$> keys m = values m.
Proof.
  unfold keys, values. rewrite <- list_fmap_compose. apply list_fmap_ext.
  intros i kr Hkr. simpl. apply get_map_to_list. by eapply list_elem_of_lookup_2.
Qed.

Section JSONMore.
Context {C : Collaborators}.
Implicit Types (suggest m : gmap string Rule) (ks : list string).

(** X14: the three arrays of the JSON document share no verdict and
    together hold every verdict of the set once, except the [ERR] verdicts
    without [Content], which are in none. *)
Theorem formatJSON_partition (o : MapOrder) (sql db : string) (suggest : gmap string Rule) :
  valid_order o →
  let j := formatJSONSuggest o sql db suggest in
  Explain j ++ IndexRules j ++ HeuristicRules j ≡ₚ values (dropQuiet suggest).
Proof.
  intros Ho j.
  destruct (formatJSONSuggest_arrays o sql db suggest Ho) as (He & Hi & Hh).
  fold j in He, Hi, Hh. rewrite He, Hi, Hh. unfold sortedKeys.
  rewrite !SortStrings_Permutation, <- !fmap_app.
  rewrite (filter3_partition _ _ _
             (λ k, ¬ (Go.HasPrefix k "ERR" = true ∧ Content (get suggest k) = ""))).
  - pose proof (@keys_filter (λ k r, ¬ (Go.HasPrefix k "ERR" = true ∧ Content r = ""))
                  (λ k r, decide (¬ (Go.HasPrefix k "ERR" = true ∧ Content r = "")))
                  suggest) as Hk.
    fold (dropQuiet suggest) in Hk.
    rewrite <- (values_get (dropQuiet suggest)), Hk.
    apply Permutation_refl'. symmetry.
    apply list_fmap_ext. intros i k Hin%list_elem_of_lookup_2.
    apply list_elem_of_filter in Hin as [Hnq Hin]. apply elem_of_keys in Hin as [r Hr].
    unfold get, dropQuiet in *. rewrite map_lookup_filter, Hr in *. simpl in *.
    by rewrite option_guard_True.
  - intros k. unfold inExplain, inIndexRules, inHeuristicRules.
    destruct (Go.HasPrefix k "EXP") eqn:He'.
    { rewrite (namespace_exclusive "EXP" "IDX" k), (namespace_exclusive "EXP" "ERR" k)
        by done. simpl. intuition congruence. }
    destruct (Go.HasPrefix k "IDX") eqn:Hi'.
    { rewrite (namespace_exclusive "IDX" "ERR" k) by done. simpl. intuition congruence. }
    simpl. destruct (Go.HasPrefix k "ERR"); simpl; [|intuition congruence].
    destruct (String.eqb_spec (Content (get suggest k)) ""); simpl; intuition congruence.
Qed.

(** X15: the score of the JSON document in closed form.  On a set
    without a failure of the [ERR] namespace, whose severities stand for no
    negative number and whose deductions fit Go's [int], the score is [100]
    minus five times the ordinals of all the verdicts, and [0] when that is
    negative: every verdict counts, whatever its namespace. *)
Theorem json_score_formula (o : MapOrder) (sql db : string) (suggest : gmap string Rule) :
  valid_order o → tame jsonOrdinal suggest → ¬ failed suggest →
  Score (formatJSONSuggest o sql db suggest)
  = Z.max 0 (100 - 5 * totalOrdinal jsonOrdinal suggest).
Proof. intros Ho Ht Hnf. by apply jsonScore_tame. Qed.

End JSONMore.

Lemma formatJSON_partition_witness :
  let j := @formatJSONSuggest plain descending "select 1" "" failedSet in
  Explain j ++ IndexRules j ++ HeuristicRules j ≡ₚ values (dropQuiet failedSet).
Proof.
  apply (@formatJSON_partition plain descending "select 1" "" failedSet).
  apply descending_valid.
Defined.

Lemma not_failed_twoFindings : ¬ failed twoFindings.
Proof.
  intros (k & Hin & Hf). apply elem_of_keys in Hin. vm_compute in Hin.
  apply elem_of_cons in Hin as [->|Hin]; [done|].
  apply elem_of_cons in Hin as [->|Hin]; [done|]. by apply elem_of_nil in Hin.
Qed.

Lemma json_score_formula_witness :
  Score (@formatJSONSuggest plain ascending "select 1" "" twoFindings)
  = Z.max 0 (100 - 5 * totalOrdinal jsonOrdinal twoFindings).
Proof.
  apply (@json_score_formula plain ascending "select 1" "" twoFindings).
  - apply ascending_valid.
  - split; [by_evaluation|by vm_compute].
  - apply not_failed_twoFindings.
Defined.

(** The scenario of the two findings [L1] and [L4] in JSON, and a quiet
    [ERR] verdict beside them: it is in no array, and its severity is
    deducted all the same. *)
Example json_score_twoFindings :
  jsonScore ascending twoFindings = 75
  ∧ jsonScore ascending (<[ "ERR.000" := verdict "ERR.000" "L8" "" ]> twoFindings) = 35
  ∧ @markdownScore plain defaultConfig ascending "select 1" "markdown" "id" "fp"
      (<[ "ERR.000" := verdict "ERR.000" "L8" "" ]> twoFindings) = 75.
Proof. repeat split; by vm_compute. Qed.

(** ** The formats that print in iteration order, and the listing *)

Section LinesMore.
Context {C : Collaborators}.

(** The value of the package variable [HeuristicRules] at the call. *)
Variable heuristicRules : gmap string Rule.
Implicit Types (suggest m : gmap string Rule) (ks : list string).

Lemma length_lint m ks :
  length (ks ≫= lintRecord m)
  = length (filter (λ k, k ≠ "OK" ∧ Go.HasPrefix k "EXP" = false) ks).
Proof.
  induction ks as [|k ks IH]; [done|]. rewrite bind_cons, length_app, IH, filter_cons.
  destruct (decide (k ≠ "OK" ∧ Go.HasPrefix k "EXP" = false)) as [[Hne Hp]|Hn].
  - unfold lintRecord. apply String.eqb_neq in Hne. by rewrite Hne, Hp.
  - unfold lintRecord. destruct (String.eqb_spec k "OK") as [->|Hne]; [done|].
    destruct (Go.HasPrefix k "EXP") eqn:Hp; [done|]. exfalso. by apply Hn.
Qed.

(** X16: the lint document has one line, the item and its summary, for
    every verdict of the normalized set other than [OK] and the [EXP]
    namespace, and no other line, whatever the iteration order. *)
Theorem lint_lines (cfg : Config) (o : MapOrder) (sql db : string)
    (suggests : list (gmap string Rule)) :
  valid_order o →
  let buf := st_buf (render cfg heuristicRules o sql db "lint" suggests) in
  (∀ line, line ∈ buf ↔
     ∃ k r, rendered cfg heuristicRules o suggests !! k = Some r ∧ k ≠ "OK"
            ∧ Go.HasPrefix k "EXP" = false ∧ line = k +:+ " " +:+ Summary r)
  ∧ length buf
    = length (filter (λ k, k ≠ "OK" ∧ Go.HasPrefix k "EXP" = false)
                (keys (rendered cfg heuristicRules o suggests))).
Proof.
  intros Ho. destruct (render_in_order heuristicRules cfg o sql db "lint" suggests)
      as (_ & Hl & _).
  cbv zeta in *. rewrite (Hl eq_refl). simpl. split.
  - intros line. rewrite list_elem_of_bind. split.
    + intros (k & Hline & Hk). apply valid_order_elem_of in Hk as [r Hr]; [|done].
      unfold lintRecord in Hline.
      destruct (String.eqb k "OK") eqn:Hne; simpl in Hline;
        [by apply elem_of_nil in Hline|].
      apply String.eqb_neq in Hne.
      destruct (Go.HasPrefix k "EXP") eqn:Hp; simpl in Hline;
        [by apply elem_of_nil in Hline|].
      apply list_elem_of_singleton in Hline. exists k, r.
      unfold get in Hline. rewrite Hr in Hline. done.
    + intros (k & r & Hr & Hne & Hp & ->). exists k. split.
      * unfold lintRecord, get. rewrite Hr, Hp. apply String.eqb_neq in Hne. rewrite Hne.
        simpl. by left.
      * apply valid_order_elem_of; [done|]. by exists r.
  - rewrite length_lint. apply Permutation_length. by rewrite (Ho LLint _).
Qed.

Lemma length_bind_const {A B} (f : A → list B) (n : nat) (l : list A) :
  (∀ x, length (f x) = n) → length (l ≫= f) = (n * length l)%nat.
Proof.
  intros Hf. induction l as [|x l IH]; [simpl; lia|].
  rewrite bind_cons, length_app, Hf, IH. simpl. lia.
Qed.

(** X17: the text document has six lines for every verdict of the
    normalized set, and the default document one dump for every verdict
    behind its first line, whatever the iteration order. *)
Theorem text_and_default_lines (cfg : Config) (o : MapOrder) (sql db format : string)
    (suggests : list (gmap string Rule)) :
  valid_order o →
  length (st_buf (render cfg heuristicRules o sql db "text" suggests))
  = (6 * size (rendered cfg heuristicRules o suggests))%nat
  ∧ (String.eqb format "json" = false → String.eqb format "text" = false →
     String.eqb format "lint" = false → isMarkdownFormat format = false →
     length (st_buf (render cfg heuristicRules o sql db format suggests))
     = S (size (rendered cfg heuristicRules o suggests))).
Proof.
  intros Ho.
  assert (Hlen : ∀ l, length (o l (rendered cfg heuristicRules o suggests))
    = size (rendered cfg heuristicRules o suggests)).
  { intros l. rewrite (Permutation_length (Ho l _)). unfold keys.
    by rewrite length_fmap, length_map_to_list. }
  split.
  - destruct (render_in_order heuristicRules cfg o sql db "text" suggests) as (Ht & _ & _).
    cbv zeta in Ht. rewrite (Ht eq_refl). simpl.
    rewrite (length_bind_const _ 6); [by rewrite Hlen|done].
  - intros Hj Ht Hl Hm.
    destruct (render_in_order heuristicRules cfg o sql db format suggests) as (_ & _ & Hd).
    cbv zeta in Hd. rewrite (Hd Hj Ht Hl Hm). simpl.
    rewrite (length_bind_const _ 1); [rewrite Hlen; lia|done].
Qed.

(** *** ListHeuristicRules *)

Variable common_SortedKey : gmap string Rule → list string.
Variable json_MarshalRules : list (gmap string Rule) → option string.

Lemma listSection_fold (r : gmap string Rule) (l out : list string) :
  fold_left (λ out item, out ++ [listSection r item]) l out = out ++ (listSection r <$> l).
Proof.
  revert out. induction l as [|k l IH]; intros out; simpl; [by rewrite app_nil_r|].
  by rewrite IH, <- app_assoc.
Qed.

Lemma listStep_fold rules :
  ∀ seen out,
    fold_left (listStep common_SortedKey) rules (seen, out)
    = (seen ++ (delete "OK" <$> rules),
       out ++ (rules ≫= λ r, listSection (delete "OK" r)
                               <$> common_SortedKey (delete "OK" r))).
Proof.
  induction rules as [|r rules IH]; intros seen out.
  - simpl. by rewrite !app_nil_r.
  - cbn [fold_left]. unfold listStep at 2. rewrite listSection_fold, IH.
    rewrite fmap_cons, bind_cons, <- !app_assoc. done.
Qed.

Lemma length_bind_sum {A B} (f : A → list B) (l : list A) :
  length (l ≫= f) = sum_list ((λ x, length (f x)) <$> l).
Proof.
  induction l as [|x l IH]; [done|]. rewrite bind_cons, length_app, IH. done.
Qed.

(** The section of one rule, operand by operand. *)
Lemma listSection_text (r : gmap string Rule) (item : string) :
  listSection r item
  = "## " +:+ common_MarkdownEscape (Summary (get r item))
      +:+ Go.nl +:+ Go.nl +:+ "* **Item**:" +:+ Item (get r item)
      +:+ Go.nl +:+ "* **Severity**:" +:+ Severity (get r item)
      +:+ Go.nl +:+ "* **Content**:" +:+ common_MarkdownEscape (Content (get r item))
      +:+ Go.nl +:+ "* **Case**:" +:+ Go.nl +:+ Go.nl +:+ "```sql" +:+ Go.nl
      +:+ Case (get r item) +:+ Go.nl +:+ "```" +:+ Go.nl.
Proof. reflexivity. Qed.

(** X18: outside the [json] report type, [ListHeuristicRules] takes the
    [OK] entry out of every map it is given, the live catalog included, and
    touches nothing else.  What it writes is the title, then, map by map in
    the order of the arguments and key by key in the order of [SortedKey],
    the section of every rule that is left: its escaped summary as a
    heading, then its item, severity, escaped content and case; no section
    is written for [OK], and one for every other key.  Under the [json]
    report type the maps are left as they are, and the one write is the
    marshalled list followed by a newline, or nothing when marshalling
    fails. *)
Theorem listing_drops_OK (cfg : Config) (rules : list (gmap string Rule)) :
  (∀ r, common_SortedKey r ≡ₚ keys r) →
  let result := ListHeuristicRules common_SortedKey json_MarshalRules cfg rules in
  let section (r : gmap string Rule) (item : string) :=
    "## " +:+ common_MarkdownEscape (Summary (get r item))
      +:+ Go.nl +:+ Go.nl +:+ "* **Item**:" +:+ Item (get r item)
      +:+ Go.nl +:+ "* **Severity**:" +:+ Severity (get r item)
      +:+ Go.nl +:+ "* **Content**:" +:+ common_MarkdownEscape (Content (get r item))
      +:+ Go.nl +:+ "* **Case**:" +:+ Go.nl +:+ Go.nl +:+ "```sql" +:+ Go.nl
      +:+ Case (get r item) +:+ Go.nl +:+ "```" +:+ Go.nl in
  (String.eqb (ReportType cfg) "json" = false →
   result.1 = delete "OK" <$> rules
   ∧ Forall (λ r, r !! "OK" = None) result.1
   ∧ result.2
     = ("# 启发式规则建议" +:+ Go.nl +:+ Go.nl +:+ "[toc]" +:+ Go.nl +:+ Go.nl)
       :: (rules ≫= λ r, section r <$> common_SortedKey (delete "OK" r))
   ∧ (∀ r k, k ∈ common_SortedKey (delete "OK" r) ↔ k ≠ "OK" ∧ is_Some (r !! k))
   ∧ length result.2 = S (sum_list ((λ r, size (delete "OK" r)) <$> rules)))
  ∧ (String.eqb (ReportType cfg) "json" = true →
     result.1 = rules
     ∧ result.2 = match json_MarshalRules rules with
                  | Some js => [js +:+ Go.nl]
                  | None => []
                  end
     ∧ (length result.2 ≤ 1)%nat).
Proof.
  intros Hkeys result section. subst result. unfold ListHeuristicRules. split.
  - intros ->. rewrite listStep_fold. cbn [fst snd app].
    assert (Hin : ∀ r k, k ∈ common_SortedKey (delete "OK" r)
                         ↔ k ≠ "OK" ∧ is_Some (r !! k)).
    { intros r k. rewrite (Hkeys _), elem_of_keys. unfold is_Some.
      setoid_rewrite lookup_delete_Some. split.
      - intros (x & Hne & Hx). split; [done|by exists x].
      - intros (Hne & x & Hx). exists x. done. }
    split; [done|]. split; [|split; [|split; [done|]]].
    + apply Forall_fmap, Forall_forall. intros r _. apply lookup_delete_eq.
    + f_equal. induction rules as [|r rules IH]; [done|].
      rewrite !bind_cons, IH. f_equal.
      apply list_fmap_ext. intros i k Hk. rewrite listSection_text. subst section.
      cbn beta. unfold get. rewrite lookup_delete_ne; [done|].
      intros <-. apply list_elem_of_lookup_2, Hin in Hk as [? _]. done.
    + cbn [length]. f_equal. rewrite length_bind_sum. f_equal. apply list_fmap_ext.
      intros i r _. rewrite length_fmap, (Permutation_length (Hkeys _)).
      unfold keys. by rewrite length_fmap, length_map_to_list.
  - intros ->. destruct (json_MarshalRules rules); simpl; repeat split; (done || lia).
Qed.

End LinesMore.

Lemma lint_lines_witness :
  let buf := st_buf (@render plain defaultConfig loaded
      descending "select 1" "" "lint" [failedSet]) in
  (∀ line, line ∈ buf ↔
     ∃ k r, @rendered plain defaultConfig loaded descending [failedSet] !! k = Some r ∧ k ≠ "OK"
            ∧ Go.HasPrefix k "EXP" = false ∧ line = k +:+ " " +:+ Summary r)
  ∧ length buf
    = length (filter (λ k, k ≠ "OK" ∧ Go.HasPrefix k "EXP" = false)
                (keys (@rendered plain defaultConfig loaded descending [failedSet]))).
Proof.
  apply (@lint_lines plain loaded defaultConfig descending "select 1" "" [failedSet]).
  apply descending_valid.
Defined.

Lemma text_and_default_lines_witness :
  length (st_buf (@render plain defaultConfig loaded ascending "select 1" "" "text" [failedSet]))
  = (6 * size (@rendered plain defaultConfig loaded ascending [failedSet]))%nat
  ∧ (String.eqb "raw" "json" = false → String.eqb "raw" "text" = false →
     String.eqb "raw" "lint" = false → isMarkdownFormat "raw" = false →
     length (st_buf (@render plain defaultConfig loaded ascending "select 1" "" "raw" [failedSet]))
     = S (size (@rendered plain defaultConfig loaded ascending [failedSet]))).
Proof.
  apply (@text_and_default_lines plain loaded defaultConfig
      ascending "select 1" "" "raw" [failedSet]).
  apply ascending_valid.
Defined.

Lemma sortedKey_keys r : sortedKey r ≡ₚ keys r.
Proof. apply SortStrings_Permutation. Qed.

Lemma listing_drops_OK_witness :
  let rules := [twoFindings; verdicts [verdict "OK" "L0" "OK"; verdict "COL.001" "L1" "star"]] in
  let result := @ListHeuristicRules plain sortedKey (λ _, None) defaultConfig rules in
  let section (r : gmap string Rule) (item : string) :=
    "## " +:+ @common_MarkdownEscape plain (Summary (get r item))
      +:+ Go.nl +:+ Go.nl +:+ "* **Item**:" +:+ Item (get r item)
      +:+ Go.nl +:+ "* **Severity**:" +:+ Severity (get r item)
      +:+ Go.nl +:+ "* **Content**:" +:+ @common_MarkdownEscape plain (Content (get r item))
      +:+ Go.nl +:+ "* **Case**:" +:+ Go.nl +:+ Go.nl +:+ "```sql" +:+ Go.nl
      +:+ Case (get r item) +:+ Go.nl +:+ "```" +:+ Go.nl in
  (String.eqb (ReportType defaultConfig) "json" = false →
   result.1 = delete "OK" <$> rules
   ∧ Forall (λ r, r !! "OK" = None) result.1
   ∧ result.2
     = ("# 启发式规则建议" +:+ Go.nl +:+ Go.nl +:+ "[toc]" +:+ Go.nl +:+ Go.nl)
       :: (rules ≫= λ r, section r <$> sortedKey (delete "OK" r))
   ∧ (∀ r k, k ∈ sortedKey (delete "OK" r) ↔ k ≠ "OK" ∧ is_Some (r !! k))
   ∧ length result.2 = S (sum_list ((λ r, size (delete "OK" r)) <$> rules)))
  ∧ (String.eqb (ReportType defaultConfig) "json" = true →
     result.1 = rules
     ∧ result.2 = match (λ _ : list (gmap string Rule), @None string) rules with
                  | Some js => [js +:+ Go.nl]
                  | None => []
                  end
     ∧ (length result.2 ≤ 1)%nat).
Proof.
  apply (@listing_drops_OK plain sortedKey (λ _, None) defaultConfig
           [twoFindings; verdicts [verdict "OK" "L0" "OK"; verdict "COL.001" "L1" "star"]]).
  apply sortedKey_keys.
Defined.

(** The listing of two rules, as it is written. *)
Example listing_of_two_rules :
  (@ListHeuristicRules plain sortedKey (λ _, None) defaultConfig
     [verdicts [verdict "OK" "L0" "OK"; verdict "COL.001" "L1" "star"]]).2
  = ["# 启发式规则建议" +:+ Go.nl +:+ Go.nl +:+ "[toc]" +:+ Go.nl +:+ Go.nl;
     "## COL.001" +:+ Go.nl +:+ Go.nl +:+ "* **Item**:COL.001" +:+ Go.nl
       +:+ "* **Severity**:L1" +:+ Go.nl +:+ "* **Content**:star" +:+ Go.nl
       +:+ "* **Case**:" +:+ Go.nl +:+ Go.nl +:+ "```sql" +:+ Go.nl +:+ Go.nl
       +:+ "```" +:+ Go.nl].
Proof. by vm_compute. Qed.

(** The listing of the catalog: the title and 132 sections. *)
Example listing_of_the_catalog :
  length (@ListHeuristicRules plain sortedKey (λ _, None) defaultConfig
            [InitHeuristicRules defaultConfig]).2 = 133%nat.
Proof. by vm_compute. Qed.
